(** * The SysV/LSB service backend

    A shallow embedding of the two variants of the System-V backend:
    [src/unnamed/part_000] (runlevel links through [manageSymlinks],
    module [Part000]) and [src/service_sysv_linux.go] (links written by
    [Install] itself, module [SysvLinux]).  The functions that are the
    same text in both files ([configPath], [determineDistroFlavour],
    [Run], [Start], [Stop], [Restart]) are embedded once.

    Go code that talks to the operating system is embedded as a state
    transformer over a [Host]: the file system, the command search path,
    the outcomes of what lies outside the program (external commands, the
    embedded program's callbacks, signals) and a log of the calls made. *)

From stdpp Require Import strings gmap list.

(** ** Go values *)

(** The double quote and the newline, for the texts that contain them. *)
Definition dq : string := String (Ascii.ascii_of_nat 34) EmptyString.
Definition nl : string := String (Ascii.ascii_of_nat 10) EmptyString.

(** [strings.Split(s, sep)] at the empty separator: one string per
    character. *)
Fixpoint strings_Split_empty (s : string) : list string :=
  match s with
  | EmptyString => []
  | String a s' => String a EmptyString :: strings_Split_empty s'
  end.

(** [strings.Join(a, sep)]. *)
Fixpoint strings_Join (a : list string) (sep : string) : string :=
  match a with
  | [] => EmptyString
  | [x] => x
  | x :: rest => x +:+ sep +:+ strings_Join rest sep
  end.

(** Error numbers that the system calls of this program can report. *)
Inductive errno : Type :=
  | ENOENT | EEXIST | EACCES | EISDIR | ENOTDIR | EROFS | EIO.

(** A Go [error] value that is not nil.  [fmt.Errorf] is kept as the
    format of the source with its arguments: the rendering of a format is
    the standard library's. *)
Inductive error : Type :=
  | Errno (e : errno)
  | ErrorsNew (msg : string)
  | ErrNotFound
  | ExitError (status : Z)
  | ExecuteError (what : string)
  | Errorf (format : string) (args : list fmtarg)
with fmtarg : Type :=
  | ArgString (s : string)
  | ArgError (e : error).

(** A Go [error]: [None] is nil. *)
Abbreviation goerror := (option error).

(** [os.IsNotExist(err)]. *)
Definition os_IsNotExist (err : goerror) : bool :=
  match err with
  | Some (Errno ENOENT) => true
  | _ => false
  end.

(** [err == nil] *)
Definition is_nil (err : goerror) : bool :=
  match err with None => true | Some _ => false end.

(** ** The service definition *)

Inductive optionValue : Type :=
  | OptBool (b : bool)
  | OptString (s : string)
  | OptInt (n : Z).

(** Modelled from the spec: the [Config] struct is declared outside the
    files under src/.  It has the fields that the two files read: "Name
    (unique identifier, used as file/link suffix), DisplayName (human
    label, falls back to Name), Description, ... ordered list of startup
    Arguments, optional UserName, optional WorkingDirectory, optional
    ChRoot, and an open-ended Option set". *)
Record Config : Type := {
  Name : string;
  DisplayName : string;
  Description : string;
  UserName : string;
  Arguments : list string;
  WorkingDirectory : string;
  ChRoot : string;
  Option : gmap string optionValue
}.

(** Modelled from the spec: [KeyValue.bool] and the option key are
    declared outside the files under src/.  The flag is the value stored
    under the key when that value is a boolean, and the default
    otherwise; the "is user service" flag is off unless it is set. *)
Definition KeyValue_bool (kv : gmap string optionValue) (name : string)
    (defaultValue : bool) : bool :=
  match kv !! name with
  | Some (OptBool b) => b
  | _ => defaultValue
  end.

Definition optionUserService : string := "UserService".
Definition optionUserServiceDefault : bool := false.

(** ** The host *)

Inductive Signal : Type :=
  | SIGHUP | SIGINT | SIGQUIT | SIGTERM | SIGUSR1 | SIGUSR2.

Definition Signal_eqb (a b : Signal) : bool :=
  match a, b with
  | SIGHUP, SIGHUP | SIGINT, SIGINT | SIGQUIT, SIGQUIT
  | SIGTERM, SIGTERM | SIGUSR1, SIGUSR1 | SIGUSR2, SIGUSR2 => true
  | _, _ => false
  end.

(** [syscall.SIGTERM] and [os.Interrupt]. *)
Definition syscall_SIGTERM : Signal := SIGTERM.
Definition os_Interrupt : Signal := SIGINT.

(** What a path names. *)
Inductive inode : Type :=
  | Dir
  | File (content : string) (mode : N)
  | Link (target : string).

(** A call that leaves the program.  The log of a host keeps each call
    with the error it reported ([None] for nil, and for the calls that
    report none). *)
Inductive call : Type :=
  | CStat (path : string)
  | CLookPath (file : string)
  | CExecPath
  | CCreate (path : string)
  | CExecute (path : string) (text : string)
  | CClose (path : string)
  | CChmod (path : string) (mode : N)
  | CSymlink (oldname newname : string)
  | CRemove (path : string)
  | CCommand (args : list string)
  | CStderr (text : string)
  | CExit (code : Z)
  | CSleep (nanoseconds : Z)
  | CStart
  | CStop
  | CNotify (capacity : nat) (sigs : list Signal)
  | CReceive (got : option Signal).

(** The host a service program runs on.  [fault] lets any system call
    fail for a reason of the host's own (permissions, a read-only or
    failing disk); [command] is what an external program does to the file
    system and how it ends; [iface_Start] and [iface_Stop] are the
    outcomes of the embedded program's callbacks; [signals] are the
    signals that are sent to the process from now on, in order. *)
Record Host : Type := {
  fs : gmap string inode;
  search_path : gset string;
  executable : string * goerror;
  fault : call -> goerror;
  command : list string -> gmap string inode -> gmap string inode * goerror;
  iface_Start : goerror;
  iface_Stop : goerror;
  signals : list Signal;
  notified : list Signal;
  stderr : list string;
  log : list (call * goerror)
}.

Definition set_fs (f : gmap string inode) (h : Host) : Host :=
  {| fs := f; search_path := search_path h; executable := executable h;
     fault := fault h; command := command h;
     iface_Start := iface_Start h; iface_Stop := iface_Stop h;
     signals := signals h; notified := notified h;
     stderr := stderr h; log := log h |}.

Definition set_signals (l : list Signal) (h : Host) : Host :=
  {| fs := fs h; search_path := search_path h; executable := executable h;
     fault := fault h; command := command h;
     iface_Start := iface_Start h; iface_Stop := iface_Stop h;
     signals := l; notified := notified h;
     stderr := stderr h; log := log h |}.

Definition set_notified (l : list Signal) (h : Host) : Host :=
  {| fs := fs h; search_path := search_path h; executable := executable h;
     fault := fault h; command := command h;
     iface_Start := iface_Start h; iface_Stop := iface_Stop h;
     signals := signals h; notified := l;
     stderr := stderr h; log := log h |}.

Definition set_stderr (l : list string) (h : Host) : Host :=
  {| fs := fs h; search_path := search_path h; executable := executable h;
     fault := fault h; command := command h;
     iface_Start := iface_Start h; iface_Stop := iface_Stop h;
     signals := signals h; notified := notified h;
     stderr := l; log := log h |}.

Definition set_log (l : list (call * goerror)) (h : Host) : Host :=
  {| fs := fs h; search_path := search_path h; executable := executable h;
     fault := fault h; command := command h;
     iface_Start := iface_Start h; iface_Stop := iface_Stop h;
     signals := signals h; notified := notified h;
     stderr := stderr h; log := l |}.

(** The call is made: it goes to the end of the log. *)
Definition record (c : call) (err : goerror) (h : Host) : Host :=
  set_log (log h ++ [(c, err)]) h.

(** ** Programs *)

(** How a program ends: it returns, the process exits ([os.Exit]), it
    waits for ever, or the process is ended by a signal. *)
Inductive outcome (A : Type) : Type :=
  | Returned (a : A) (h : Host)
  | Exited (code : Z) (h : Host)
  | Blocked (h : Host)
  | Killed (sg : Signal) (h : Host).
Arguments Returned {A} a h.
Arguments Exited {A} code h.
Arguments Blocked {A} h.
Arguments Killed {A} sg h.

Definition M (A : Type) : Type := Host -> outcome A.

Definition ret {A} (a : A) : M A := fun h => Returned a h.

Definition bind {A B} (m : M A) (k : A -> M B) : M B :=
  fun h =>
    match m h with
    | Returned a h' => k a h'
    | Exited code h' => Exited code h'
    | Blocked h' => Blocked h'
    | Killed sg h' => Killed sg h'
    end.

Declare Scope prog_scope.
Delimit Scope prog_scope with prog.
Notation "x <- m ;; k" := (bind m (fun x => k))
  (at level 100, m at next level, right associativity) : prog_scope.
Notation "m ;;; k" := (bind m (fun _ => k))
  (at level 100, right associativity) : prog_scope.
Open Scope prog_scope.

(** [defer d] in a function whose remaining body is [body]: [d] runs when
    the body returns, and what it returns is dropped.  [os.Exit] does not
    run deferred calls. *)
Definition defer {A B} (d : M B) (body : M A) : M A :=
  r <- body ;; d ;;; ret r.

(** The host state after a program, whatever the way it ended. *)
Definition final {A} (o : outcome A) : Host :=
  match o with
  | Returned _ h | Exited _ h | Blocked h | Killed _ h => h
  end.

(** What it returned, when it did. *)
Definition result {A} (o : outcome A) : option A :=
  match o with
  | Returned a _ => Some a
  | _ => None
  end.

(** *** System calls *)

(** A trailing slash on a directory name: ["/etc/rc.d/"] names what
    ["/etc/rc.d"] names, and only when that is a directory. *)
Fixpoint trim_slash (p : string) : string :=
  match p with
  | EmptyString => EmptyString
  | String a EmptyString =>
      if Ascii.eqb a (Ascii.ascii_of_nat 47) then EmptyString
      else String a EmptyString
  | String a rest => String a (trim_slash rest)
  end.

Definition has_trailing_slash (p : string) : bool :=
  negb (String.eqb (trim_slash p) p).

Fixpoint has_slash (p : string) : bool :=
  match p with
  | EmptyString => false
  | String a rest => Ascii.eqb a (Ascii.ascii_of_nat 47) || has_slash rest
  end.

(** The directory of a path: what comes before its last slash. *)
Fixpoint dirname (p : string) : string :=
  match p with
  | EmptyString => EmptyString
  | String a rest => if has_slash rest then String a (dirname rest)
                     else EmptyString
  end.

(** A system call: failed by the host or carried out, and logged. *)
Definition syscall (c : call) (run : Host -> goerror * Host) : M goerror :=
  fun h =>
    match fault h c with
    | Some e => Returned (Some e) (record c (Some e) h)
    | None => let '(err, h1) := run h in Returned err (record c err h1)
    end.

(** [os.Stat(path)], the error only. *)
Definition stat_fs (f : gmap string inode) (path : string) : goerror :=
  match f !! trim_slash path with
  | None => Some (Errno ENOENT)
  | Some Dir => None
  | Some _ => if has_trailing_slash path then Some (Errno ENOTDIR) else None
  end.

Definition os_Stat (path : string) : M goerror :=
  syscall (CStat path) (fun h => (stat_fs (fs h) path, h)).

(** [exec.LookPath(file)], the error only. *)
Definition exec_LookPath (file : string) : M goerror :=
  syscall (CLookPath file)
    (fun h => (if decide (file ∈ search_path h) then None
               else Some ErrNotFound, h)).

(** [os.Create(path)]: the file is created with mode 0666, or truncated. *)
Definition os_Create (path : string) : M goerror :=
  syscall (CCreate path)
    (fun h =>
       match fs h !! path with
       | Some Dir => (Some (Errno EISDIR), h)
       | Some (File _ mode) =>
           (None, set_fs (<[path := File EmptyString mode]> (fs h)) h)
       | Some (Link _) => (Some (Errno EACCES), h)
       | None => (None, set_fs (<[path := File EmptyString 438%N]> (fs h)) h)
       end).

(** Writing [text] to the file that was created at [path]. *)
Definition file_Write (path text : string) : M goerror :=
  syscall (CExecute path text)
    (fun h =>
       match fs h !! path with
       | Some (File _ mode) =>
           (None, set_fs (<[path := File text mode]> (fs h)) h)
       | _ => (Some (Errno EIO), h)
       end).

(** [f.Close()]; the two files drop its result. *)
Definition file_Close (path : string) : M goerror :=
  syscall (CClose path) (fun h => (None, h)).

(** [os.Chmod(path, mode)]. *)
Definition os_Chmod (path : string) (mode : N) : M goerror :=
  syscall (CChmod path mode)
    (fun h =>
       match fs h !! path with
       | Some (File text _) =>
           (None, set_fs (<[path := File text mode]> (fs h)) h)
       | Some _ => (None, h)
       | None => (Some (Errno ENOENT), h)
       end).

(** [os.Symlink(oldname, newname)]: the directory of [newname] has to
    be there, and [newname] must not.  Links are not followed, as in
    [stat_fs]. *)
Definition os_Symlink (oldname newname : string) : M goerror :=
  syscall (CSymlink oldname newname)
    (fun h =>
       match fs h !! dirname newname with
       | None => (Some (Errno ENOENT), h)
       | Some Dir =>
           match fs h !! newname with
           | Some _ => (Some (Errno EEXIST), h)
           | None => (None, set_fs (<[newname := Link oldname]> (fs h)) h)
           end
       | Some _ => (Some (Errno ENOTDIR), h)
       end).

(** [os.Remove(path)]. *)
Definition os_Remove (path : string) : M goerror :=
  syscall (CRemove path)
    (fun h =>
       match fs h !! path with
       | Some _ => (None, set_fs (delete path (fs h)) h)
       | None => (Some (Errno ENOENT), h)
       end).

(** [cmd.Run()] for [cmd = exec.Command(args...)]. *)
Definition cmd_Run (args : list string) : M goerror :=
  syscall (CCommand args)
    (fun h => let '(f, err) := command h args (fs h) in (err, set_fs f h)).

(** [fmt.Fprintf(os.Stderr, text)]. *)
Definition Fprintf_Stderr (text : string) : M unit :=
  fun h =>
    Returned tt (set_stderr (stderr h ++ [text]) (record (CStderr text) None h)).

(** [os.Exit(code)]. *)
Definition os_Exit {A} (code : Z) : M A :=
  fun h => Exited code (record (CExit code) None h).

(** [time.Sleep(d)], [d] in nanoseconds. *)
Definition time_Sleep (d : Z) : M unit :=
  fun h => Returned tt (record (CSleep d) None h).

Definition time_Millisecond : Z := 1000000.

(** *** Signals and the embedded program *)

(** [signal.Notify(c, sigs...)] on a channel made with
    [make(chan os.Signal, capacity)]: from now on the listed signals are
    relayed to the channel. *)
Definition signal_Notify (capacity : nat) (sigs : list Signal) : M unit :=
  fun h =>
    Returned tt (set_notified sigs (record (CNotify capacity sigs) None h)).

(** What the Go runtime does with a signal that is not relayed
    (package os/signal): SIGHUP, SIGINT and SIGTERM make the program
    exit, SIGQUIT makes it exit with a stack dump; the other signals are
    caught and nothing is done. *)
Definition ends_program (s : Signal) : bool :=
  match s with
  | SIGHUP | SIGINT | SIGQUIT | SIGTERM => true
  | SIGUSR1 | SIGUSR2 => false
  end.

(** What comes of the signals sent to a process that waits: the first
    one that is relayed, or the first one that ends the program when it
    comes before, or nothing. *)
Inductive arrival : Type :=
  | Relayed (s : Signal) (rest : list Signal)
  | Fatal (s : Signal) (rest : list Signal)
  | Waiting.

Fixpoint next_signal (relayed pending : list Signal) : arrival :=
  match pending with
  | [] => Waiting
  | s :: rest =>
      if existsb (Signal_eqb s) relayed then Relayed s rest
      else if ends_program s then Fatal s rest
      else next_signal relayed rest
  end.

(** [<-sigChan]: waits for a relayed signal, for ever when none comes;
    a signal that ends the program ends the wait too. *)
Definition chan_Receive : M Signal :=
  fun h =>
    match next_signal (notified h) (signals h) with
    | Relayed s rest =>
        Returned s (set_signals rest (record (CReceive (Some s)) None h))
    | Fatal s rest =>
        Killed s (set_signals rest (record (CReceive None) None h))
    | Waiting => Blocked (set_signals [] (record (CReceive None) None h))
    end.

(** [s.i.Start(s)] and [s.i.Stop(s)], the callbacks of the embedded
    program. *)
Definition i_Start : M goerror :=
  fun h => Returned (iface_Start h) (record CStart (iface_Start h) h).

Definition i_Stop : M goerror :=
  fun h => Returned (iface_Stop h) (record CStop (iface_Stop h) h).

(** Modelled from the spec: [execPath] is declared outside the files under
    src/; it gives the "resolved executable Path" or fails ("executable not
    resolvable"), as the host decides. *)
Definition execPath (s : Config) : M (string * goerror) :=
  fun h => Returned (executable h) (record CExecPath (snd (executable h)) h).

(** Modelled from the spec: [run] is declared outside the files under
    src/; it is an "external process invocation; the core does not
    interpret its output beyond success/failure". *)
Definition run (command : string) (arguments : list string) : M goerror :=
  cmd_Run (command :: arguments).

(** ** The functions that the two files share *)

Definition errNoUserServiceSystemV : error :=
  ErrorsNew "User services are not supported on SystemV.".

Definition configPath (s : Config) : string * goerror :=
  if KeyValue_bool (Option s) optionUserService optionUserServiceDefault
  then (EmptyString, Some errNoUserServiceSystemV)
  else ("/etc/init.d/" +:+ Name s, None).

Definition determineDistroFlavour : M string :=
  err <- os_Stat "/etc/rc.d/init.d/functions" ;;
  if is_nil err then ret "redhat"
  else
    err <- os_Stat "/lib/lsb/init-functions" ;;
    if os_IsNotExist err then
      Fprintf_Stderr "System is lacking LSB support (/lib/lsb/init-functions)" ;;;
      os_Exit 1
    else
      err <- exec_LookPath "start-stop-daemon" ;;
      if is_nil err then ret "debian"
      else ret "lsb".

Definition Run (s : Config) : M goerror :=
  err <- i_Start ;;
  match err with
  | Some e => ret (Some e)
  | None =>
      signal_Notify 3 [syscall_SIGTERM; os_Interrupt] ;;;
      _ <- chan_Receive ;;
      i_Stop
  end.

Definition Start (s : Config) : M goerror :=
  run "service" [Name s; "start"].

Definition Stop (s : Config) : M goerror :=
  run "service" [Name s; "stop"].

Definition Restart (s : Config) : M goerror :=
  err <- Stop s ;;
  match err with
  | Some e => ret (Some e)
  | None =>
      time_Sleep (50 * time_Millisecond) ;;;
      Start s
  end.

(** ** Templates

    The part of [text/template] that [sysvScript] is written in.  A
    template is kept as it is parsed: texts, actions, [if] and [range]. *)

(** The fields a template of the two files names. *)
Inductive field : Type :=
  | FName | FDisplayName | FDescription | FUserName | FWorkingDirectory
  | FChRoot | FPath | FFlavour | FDefaultStart | FDefaultStop.

Inductive listfield : Type :=
  | FArguments | FStartLevels | FStopLevels.

(** What a pipeline starts from: [.Field], or [.] inside a [range]. *)
Inductive operand : Type :=
  | OField (f : field)
  | ODot.

Inductive action : Type :=
  | Print (o : operand)
  | PrintCmd (o : operand)
  | PrintJoin (l : listfield) (sep : string).

Inductive condition : Type :=
  | EqField (f : field) (s : string)
  | NonEmpty (f : field).

(** [{{/* ... */}}] is [Comment]. *)
#[warnings="-register-all"] Inductive node : Type :=
  | Text (s : string)
  | Act (a : action)
  | Comment
  | If (c : condition) (thens elses : list node)
  | Range (l : listfield) (body : list node).

(** The functions of the template, [tf] in the source: the map is
    declared outside the files under src/, so it is a parameter. *)
Record FuncMap : Type := {
  cmd : string -> string;
  join : list string -> string -> string
}.

(** The value a template is executed on, by its fields; [None] is a
    field that the value does not have. *)
Record Data : Type := {
  get : field -> option string;
  getlist : listfield -> option (list string)
}.

Definition eval_operand (d : Data) (dot : option string) (o : operand)
    : option string :=
  match o with
  | OField f => get d f
  | ODot => dot
  end.

Definition eval_action (tf : FuncMap) (d : Data) (dot : option string)
    (a : action) : option string :=
  match a with
  | Print o => eval_operand d dot o
  | PrintCmd o => cmd tf <$> eval_operand d dot o
  | PrintJoin l sep => (fun a => join tf a sep) <$> getlist d l
  end.

Definition String_nonempty (s : string) : bool :=
  match s with EmptyString => false | _ => true end.

Definition eval_condition (d : Data) (c : condition) : option bool :=
  match c with
  | EqField f s => (fun v => String.eqb v s) <$> get d f
  | NonEmpty f => String_nonempty <$> get d f
  end.

(** The outputs of a list of nodes, one after the other. *)
Definition execute_list (exec1 : node -> option string)
    : list node -> option string :=
  fix go (l : list node) : option string :=
    match l with
    | [] => Some EmptyString
    | n :: rest =>
        match exec1 n, go rest with
        | Some a, Some b => Some (a +:+ b)
        | _, _ => None
        end
    end.

(** The outputs of a body, once per element. *)
Definition execute_each (body : string -> option string)
    : list string -> option string :=
  fix go (l : list string) : option string :=
    match l with
    | [] => Some EmptyString
    | x :: rest =>
        match body x, go rest with
        | Some a, Some b => Some (a +:+ b)
        | _, _ => None
        end
    end.

Fixpoint execute_node (tf : FuncMap) (d : Data) (dot : option string)
    (n : node) {struct n} : option string :=
  match n with
  | Text s => Some s
  | Act a => eval_action tf d dot a
  | Comment => Some EmptyString
  | If c thens elses =>
      match eval_condition d c with
      | Some true => execute_list (execute_node tf d dot) thens
      | Some false => execute_list (execute_node tf d dot) elses
      | None => None
      end
  | Range l body =>
      match getlist d l with
      | Some items =>
          execute_each
            (fun x => execute_list (execute_node tf d (Some x)) body) items
      | None => None
      end
  end.

(** [Execute]: the text of a template on a value. *)
Definition execute (tf : FuncMap) (t : list node) (d : Data) : option string :=
  execute_list (execute_node tf d None) t.

(** ** Loops *)

(** A [for ... range] loop whose body can return an error from the
    enclosing function: [Some e] is that return, [None] is the loop run
    to its end. *)
Fixpoint for_range {A} (l : list A) (body : A -> M goerror) : M goerror :=
  match l with
  | [] => ret None
  | x :: rest =>
      err <- body x ;;
      match err with
      | Some e => ret (Some e)
      | None => for_range rest body
      end
  end.

(** A [for ... range] loop whose body returns nothing. *)
Fixpoint for_each {A} (l : list A) (body : A -> M unit) : M unit :=
  match l with
  | [] => ret tt
  | x :: rest => body x ;;; for_each rest body
  end.

(** ** src/unnamed/part_000 *)

Module Part000.

(** Default runlevels to start and to stop the service in, and the
    default priorities. *)
Definition defaultStartLevels : string := "2345".
Definition defaultStopLevels : string := "016".
Definition defaultStartPriority : string := "50".
Definition defaultStopPriority : string := "02".

(** The value [to] that [Install] executes the template on. *)
Record to_t : Type := {
  to_Config : Config;
  Path : string;
  Flavour : string;
  DefaultStart : string;
  DefaultStop : string;
  StartLevels : list string;
  StopLevels : list string
}.

Definition fields (to : to_t) : Data :=
  {| get f :=
       Some match f with
            | FName => Name (to_Config to)
            | FDisplayName => DisplayName (to_Config to)
            | FDescription => Description (to_Config to)
            | FUserName => UserName (to_Config to)
            | FWorkingDirectory => WorkingDirectory (to_Config to)
            | FChRoot => ChRoot (to_Config to)
            | FPath => Path to
            | FFlavour => Flavour to
            | FDefaultStart => DefaultStart to
            | FDefaultStop => DefaultStop to
            end;
     getlist l :=
       Some match l with
            | FArguments => Arguments (to_Config to)
            | FStartLevels => StartLevels to
            | FStopLevels => StopLevels to
            end |}.

Definition sysvScript : list node :=
  [
   Text "#!/bin/bash
";
   If (EqField FFlavour "redhat")
     [
      Text "#
# ";
      Act (Print (OField FDisplayName));
      Text "
#
# chkconfig:   ";
      Act (PrintJoin FStartLevels EmptyString);
      Text " ";
      Act (Print (OField FDefaultStart));
      Text " ";
      Act (Print (OField FDefaultStop));
      Text "
# description: ";
      Act (Print (OField FDescription));
      Text "

# Source function library.
. /etc/rc.d/init.d/functions
"
     ]
     [
      Comment;
      Text "### BEGIN INIT INFO
# Provides:          ";
      Act (Print (OField FName));
      Text "
# Required-Start:    $local_fs $remote_fs $network $syslog
# Required-Stop:     $local_fs $remote_fs $network $syslog
# Default-Start:     ";
      Act (PrintJoin FStartLevels " ");
      Text "
# Default-Stop:      ";
      Act (PrintJoin FStopLevels " ");
      Text "
# Short-Description: ";
      Act (Print (OField FDisplayName));
      Text "
# Description:       ";
      Act (Print (OField FDescription));
      Text "
### END INIT INFO

# Source function library.
. /lib/lsb/init-functions
"
     ];
   Text ("
CMD=" +:+ dq);
   Act (Print (OField FPath));
   Text (dq +:+ "
NAME=" +:+ dq);
   Act (Print (OField FName));
   Text (dq +:+ "
DESC=" +:+ dq);
   Act (Print (OField FDescription));
   Text (dq +:+ "

# The following can be overridden via configuration file
PIDFILE=" +:+ dq +:+ "/var/run/${NAME}.pid" +:+ dq +:+ "
LOCKFILE=" +:+ dq +:+ "/var/lock/subsys/${NAME}" +:+ dq +:+ "

# Log output of $CMD
STDOUTLOG=" +:+ dq +:+ "/dev/null" +:+ dq +:+ "
STDERRLOG=" +:+ dq +:+ "/dev/null" +:+ dq +:+ "

# Source configuration defaults to override above as appropriate.
! test -e /etc/default/${NAME}   || . /etc/default/${NAME}
! test -e /etc/sysconfig/${NAME} || . /etc/sysconfig/${NAME}
test $(id -u) -eq " +:+ dq +:+ "0" +:+ dq +:+ "            || exit 4 # LSB exit: insufficient permissions
test -x ${CMD}                   || exit 5 # LSB exit: program not installed
test -d $(dirname $LOCKFILE)     || mkdir -p $(dirname $LOCKFILE)
");
   If (EqField FFlavour "redhat")
     [
      Text ("
get_status() {
    status -p " +:+ dq +:+ "$PIDFILE" +:+ dq +:+ " " +:+ dq +:+ "$CMD" +:+ dq +:+ "
}

start() {
    get_status &>/dev/null && return 0
    echo -n $" +:+ dq +:+ "Starting ${DESC}: " +:+ dq +:+ "
    daemon --pidfile=" +:+ dq +:+ "$PIDFILE" +:+ dq +:+ " ");
      If (NonEmpty FUserName)
        [
         Text "--user=";
         Act (Print (OField FUserName))
        ]
        [];
      Text (" \
	   " +:+ dq +:+ "$CMD ");
      Range FArguments
        [
         Text " ";
         Act (PrintCmd ODot)
        ];
      Text (" </dev/null >$STDOUTLOG 2>$STDERRLOG & echo \$! > $PIDFILE" +:+ dq +:+ "
    sleep 0.5 # wait briefly to see if service failed to start
    get_status &>/dev/null && success || failure
    RETVAL=$?
    [ $RETVAL -eq 0 ] &&  touch " +:+ dq +:+ "$LOCKFILE" +:+ dq +:+ " || rm -f " +:+ dq +:+ "$PIDFILE" +:+ dq +:+ "
    echo
    return $RETVAL
}

stop() {
    get_status &>/dev/null || return 0
    echo -n $" +:+ dq +:+ "Stopping ${DESC}: " +:+ dq +:+ "
    killproc -p " +:+ dq +:+ "$PIDFILE" +:+ dq +:+ " " +:+ dq +:+ "$CMD" +:+ dq +:+ " -TERM
    RETVAL=$?
    [ $RETVAL -eq 0 ] && rm -f " +:+ dq +:+ "$LOCKFILE" +:+ dq +:+ " " +:+ dq +:+ "$PIDFILE" +:+ dq +:+ " || rm -f " +:+ dq +:+ "$PIDFILE" +:+ dq +:+ "
    echo
    return $RETVAL
}")
     ]
     [
      Comment;
      Text ("
if type status_of_proc &>/dev/null; then	# newer LSB versions only
    get_status() {
        status_of_proc $([ -e $PIDFILE ] && echo -p $PIDFILE) " +:+ dq +:+ "$CMD" +:+ dq +:+ " " +:+ dq +:+ "$NAME" +:+ dq +:+ "
    }
else
    get_status() {
	pidofproc $([ -e $PIDFILE ] && echo -p $PIDFILE) " +:+ dq +:+ "$CMD" +:+ dq +:+ " >/dev/null
	RETVAL=$?
	if [ $RETVAL -eq 0 ]; then
	    log_success_msg " +:+ dq +:+ "$NAME is running" +:+ dq +:+ "
	elif [ $RETVAL -eq 4 ]; then
	    log_failure_msg " +:+ dq +:+ "could not access PID file for $NAME" +:+ dq +:+ "
	else
	    log_failure_msg " +:+ dq +:+ "$NAME is not running" +:+ dq +:+ "
	fi
	return $RETVAL
    }
fi
");
      If (EqField FFlavour "debian")
        [
         Text ("
start() {
    log_daemon_msg " +:+ dq +:+ "Starting ${DESC}" +:+ dq +:+ "
    start-stop-daemon --start \
    ");
         If (NonEmpty FChRoot)
           [
            Text "--chroot ";
            Act (PrintCmd (OField FChRoot))
           ]
           [];
         Text " \
    ";
         If (NonEmpty FWorkingDirectory)
           [
            Text "--chdir ";
            Act (PrintCmd (OField FWorkingDirectory))
           ]
           [];
         Text " \
    ";
         If (NonEmpty FUserName)
           [
            Text "--chuid ";
            Act (PrintCmd (OField FUserName))
           ]
           [];
         Text (" \
    --pidfile " +:+ dq +:+ "$PIDFILE" +:+ dq +:+ " \
    --background \
    --make-pidfile \
    --exec " +:+ dq +:+ "$CMD" +:+ dq +:+ " -- ");
         Range FArguments
           [
            Text " ";
            Act (PrintCmd ODot)
           ];
         Text ("
    log_end_msg  $?
}

stop() {
    log_daemon_msg " +:+ dq +:+ "Stopping ${DESC}" +:+ dq +:+ "
    start-stop-daemon --stop --pidfile " +:+ dq +:+ "$PIDFILE" +:+ dq +:+ " --quiet
    RETVAL=$?
    rm -f " +:+ dq +:+ "$PIDFILE" +:+ dq +:+ "
    log_end_msg $RETVAL
}")
        ]
        [
         Comment;
         Text ("
start() {
    get_status &>/dev/null && return 0
    echo -n $" +:+ dq +:+ "Starting $DESC: ${NAME}" +:+ dq +:+ "
    ");
         If (NonEmpty FWorkingDirectory)
           [
            Text "cd ";
            Act (PrintCmd (OField FWorkingDirectory))
           ]
           [];
         Text ("
    " +:+ dq +:+ "$CMD" +:+ dq +:+ " ");
         Range FArguments
           [
            Text " ";
            Act (PrintCmd ODot)
           ];
         Text (" </dev/null >" +:+ dq +:+ "$STDOUTLOG" +:+ dq +:+ " 2>" +:+ dq +:+ "$STDERRLOG" +:+ dq +:+ " &
    echo $! > " +:+ dq +:+ "$PIDFILE" +:+ dq +:+ "
    sleep 0.5 # wait briefly to see if service crashed
    get_status &>/dev/null
    RETVAL=$?
    if [ $RETVAL -eq 0 ]; then
	    log_success_msg
	    touch " +:+ dq +:+ "$LOCKFILE" +:+ dq +:+ "
    else
	    log_failure_msg
	    rm -f " +:+ dq +:+ "$PIDFILE" +:+ dq +:+ "
    fi
    return $RETVAL
}

stop() {
    get_status &>/dev/null || return 0
    echo -n $" +:+ dq +:+ "Stopping ${DESC}: ${NAME}" +:+ dq +:+ "
    killproc -p " +:+ dq +:+ "$PIDFILE" +:+ dq +:+ " " +:+ dq +:+ "$CMD" +:+ dq +:+ " -TERM
    RETVAL=$?
    if [ $RETVAL -eq 0 ]; then
	    log_success_msg
	    rm -f " +:+ dq +:+ "$LOCKFILE" +:+ dq +:+ "
    else
	    log_failure_msg
    fi
    rm -f " +:+ dq +:+ "$PIDFILE" +:+ dq +:+ "
    return $RETVAL
}")
        ];
      Comment
     ];
   Comment;
   Text ("

case " +:+ dq +:+ "$1" +:+ dq +:+ " in
    start|stop)
	$1
	;;
    restart|force-reload)
	stop
	start
	;;
    status)
	get_status
	;;
    *)
	echo $" +:+ dq +:+ "Usage: $0 {start|stop|status|restart|force-reload}" +:+ dq +:+ " >&2
	exit 2 # LSB: invalid or excess arguments
esac
")
  ].

(** (Un)install symbolic runlevel links. *)
Definition manageSymlinks (s : Config) (confPath : string) (install : bool)
    : M goerror :=
  err <- exec_LookPath "chkconfig" ;;
  cmd <- (if is_nil err then
            ret (Some (if install then ["chkconfig"; "--add"; Name s]
                       else ["chkconfig"; "--del"; Name s]))
          else
            err <- exec_LookPath "update-rc.d" ;;
            if is_nil err then
              ret (Some (if install then ["update-rc.d"; Name s; "defaults"]
                         else ["update-rc.d"; "-f"; Name s; "remove"]))
            else ret None) ;;
  match cmd with
  | Some args =>
      err <- cmd_Run args ;;
      match err with
      | Some e =>
          ret (Some (Errorf "Failed to run %q: %s"
                       [ArgString (strings_Join args " "); ArgError e]))
      | None => ret None
      end
  | None =>
      (* Manually install/remove symlinks *)
      base <- (err <- os_Stat "/etc/rc.d/" ;;
               if is_nil err then ret "/etc/rc.d"
               else
                 err <- os_Stat ("/etc" +:+ "/rc0.d") ;;
                 if os_IsNotExist err then
                   Fprintf_Stderr "FIXME: no suitable rc.d directory found in /etc" ;;;
                   os_Exit 1
                 else ret "/etc") ;;
      err <- for_range (strings_Split_empty defaultStartLevels)
               (fun i =>
                  let path := base +:+ "/rc" +:+ i +:+ ".d/S"
                                +:+ defaultStartPriority +:+ Name s in
                  if install then
                    err <- os_Symlink confPath path ;;
                    match err with
                    | Some e =>
                        ret (Some (Errorf "Failed to create startup link %s: %s"
                                     [ArgString path; ArgError e]))
                    | None => ret None
                    end
                  else
                    err <- os_Remove path ;;
                    match err with
                    | Some e =>
                        ret (Some (Errorf "Failed to remove startup link %s: %s"
                                     [ArgString path; ArgError e]))
                    | None => ret None
                    end) ;;
      match err with
      | Some e => ret (Some e)
      | None =>
          for_range (strings_Split_empty defaultStopLevels)
            (fun i =>
               let path := base +:+ "/rc" +:+ i +:+ ".d/K"
                             +:+ defaultStopPriority +:+ Name s in
               if install then
                 err <- os_Symlink confPath path ;;
                 match err with
                 | Some e =>
                     ret (Some (Errorf "Failed to create shutdown link %s: %s"
                                  [ArgString path; ArgError e]))
                 | None => ret None
                 end
               else
                 err <- os_Remove path ;;
                 match err with
                 | Some e =>
                     ret (Some (Errorf "Failed to remove shutdown link %s: %s"
                                  [ArgString path; ArgError e]))
                 | None => ret None
                 end)
      end
  end.

Definition Install (tf : FuncMap) (s : Config) : M goerror :=
  match configPath s with
  | (_, Some e) => ret (Some e)
  | (confPath, None) =>
      r <- execPath s ;;
      let '(path, err) := r in
      match err with
      | Some e => ret (Some e)
      | None =>
          flavour <- determineDistroFlavour ;;
          let to :=
            {| to_Config := s;
               Path := path;
               Flavour := flavour;
               DefaultStart := defaultStartPriority;
               DefaultStop := defaultStopPriority;
               StartLevels := strings_Split_empty defaultStartLevels;
               StopLevels := strings_Split_empty defaultStopLevels |} in
          err <- os_Stat confPath ;;
          if is_nil err then
            ret (Some (Errorf "Init already exists: %s" [ArgString confPath]))
          else
            err <- os_Create confPath ;;
            match err with
            | Some e => ret (Some e)
            | None =>
                defer (file_Close confPath)
                  (err <- match execute tf sysvScript (fields to) with
                          | Some text => file_Write confPath text
                          | None => ret (Some (ExecuteError "sysvScript"))
                          end ;;
                   match err with
                   | Some e => ret (Some e)
                   | None =>
                       err <- os_Chmod confPath 493 ;;
                       match err with
                       | Some e => ret (Some e)
                       | None => manageSymlinks s confPath true
                       end
                   end)
            end
      end
  end.

Definition Uninstall (s : Config) : M goerror :=
  match configPath s with
  | (_, Some e) => ret (Some e)
  | (cp, None) =>
      err <- manageSymlinks s cp false ;;
      match err with
      | Some e => ret (Some e)
      | None => os_Remove cp
      end
  end.

End Part000.

(** ** src/service_sysv_linux.go *)

Module SysvLinux.

(** The value [to] that [Install] executes the template on. *)
Record to_t : Type := {
  to_Config : Config;
  Path : string;
  Flavour : string
}.

Definition fields (to : to_t) : Data :=
  {| get f :=
       match f with
       | FName => Some (Name (to_Config to))
       | FDisplayName => Some (DisplayName (to_Config to))
       | FDescription => Some (Description (to_Config to))
       | FUserName => Some (UserName (to_Config to))
       | FWorkingDirectory => Some (WorkingDirectory (to_Config to))
       | FChRoot => Some (ChRoot (to_Config to))
       | FPath => Some (Path to)
       | FFlavour => Some (Flavour to)
       | FDefaultStart | FDefaultStop => None
       end;
     getlist l :=
       match l with
       | FArguments => Some (Arguments (to_Config to))
       | FStartLevels | FStopLevels => None
       end |}.

Definition sysvScript : list node :=
  [
   Text "#!/bin/bash
";
   If (EqField FFlavour "redhat")
     [
      Text "#
# ";
      Act (Print (OField FDisplayName));
      Text "
#
# chkconfig:   2345 50 02
# description: ";
      Act (Print (OField FDescription));
      Text "

# Source function library.
. /etc/rc.d/init.d/functions
"
     ]
     [
      Comment;
      Text "### BEGIN INIT INFO
# Provides:          ";
      Act (Print (OField FPath));
      Text "
# Required-Start:    $local_fs $remote_fs $network $syslog
# Required-Stop:     $local_fs $remote_fs $network $syslog
# Default-Start:     2 3 4 5
# Default-Stop:      0 1 6
# Short-Description: ";
      Act (Print (OField FDisplayName));
      Text "
# Description:       ";
      Act (Print (OField FDescription));
      Text "
### END INIT INFO

# Source function library.
. /lib/lsb/init-functions"
     ];
   Text ("
CMD=" +:+ dq);
   Act (Print (OField FPath));
   Text (dq +:+ "
NAME=" +:+ dq);
   Act (Print (OField FName));
   Text (dq +:+ "
DESC=" +:+ dq);
   Act (Print (OField FDescription));
   Text (dq +:+ "

# The following can be overridden via configuration file
PIDFILE=" +:+ dq +:+ "/var/run/${NAME}.pid" +:+ dq +:+ "
LOCKFILE=" +:+ dq +:+ "/var/lock/subsys/${NAME}" +:+ dq +:+ "

# Log output of $CMD
STDOUTLOG=" +:+ dq +:+ "/dev/null" +:+ dq +:+ "
STDERRLOG=" +:+ dq +:+ "/dev/null" +:+ dq +:+ "

# Startup options
DAEMON_ARGS=" +:+ dq);
   Range FArguments
     [
      Text " ";
      Act (PrintCmd ODot)
     ];
   Text (dq +:+ "

# Source configuration defaults to override above as appropriate.
! test -e /etc/default/${NAME}   || . /etc/default/${NAME}
! test -e /etc/sysconfig/${NAME} || . /etc/sysconfig/${NAME}
test $(id -u) -eq " +:+ dq +:+ "0" +:+ dq +:+ "            || exit 4 # LSB exit: insufficient permissions
test -x ${CMD}                   || exit 5 # LSB exit: program not installed
test -d $(dirname $LOCKFILE)     || mkdir -p $(dirname $LOCKFILE)
");
   If (EqField FFlavour "redhat")
     [
      Text ("
get_status() {
    status -p " +:+ dq +:+ "$PIDFILE" +:+ dq +:+ " " +:+ dq +:+ "$CMD" +:+ dq +:+ "
}

start() {
    get_status &>/dev/null && return 0
    echo -n $" +:+ dq +:+ "Starting ${DESC}: " +:+ dq +:+ "
    daemon --pidfile=" +:+ dq +:+ "$PIDFILE" +:+ dq +:+ " ");
      If (NonEmpty FUserName)
        [
         Text "--user=";
         Act (Print (OField FUserName))
        ]
        [];
      Text (" \
	   " +:+ dq +:+ "$CMD $DAEMON_ARGS </dev/null >$STDOUTLOG 2>$STDERRLOG & echo \$! > $PIDFILE" +:+ dq +:+ "
    sleep 0.5 # wait briefly to see if service failed to start
    get_status &>/dev/null && success || failure
    RETVAL=$?
    [ $RETVAL -eq 0 ] &&  touch " +:+ dq +:+ "$LOCKFILE" +:+ dq +:+ " || rm -f " +:+ dq +:+ "$PIDFILE" +:+ dq +:+ "
    echo
    return $RETVAL
}

stop() {
    get_status &>/dev/null || return 0
    echo -n $" +:+ dq +:+ "Stopping ${DESC}: " +:+ dq +:+ "
    killproc -p " +:+ dq +:+ "$PIDFILE" +:+ dq +:+ " " +:+ dq +:+ "$CMD" +:+ dq +:+ " -TERM
    RETVAL=$?
    [ $RETVAL -eq 0 ] && rm -f " +:+ dq +:+ "$LOCKFILE" +:+ dq +:+ " " +:+ dq +:+ "$PIDFILE" +:+ dq +:+ " || rm -f " +:+ dq +:+ "$PIDFILE" +:+ dq +:+ "
    echo
    return $RETVAL
}")
     ]
     [
      Comment;
      Text ("
if type status_of_proc &>/dev/null; then	# newer LSB versions only
    get_status() {
        status_of_proc $([ -e $PIDFILE ] && echo -p $PIDFILE) " +:+ dq +:+ "$CMD" +:+ dq +:+ " " +:+ dq +:+ "$NAME" +:+ dq +:+ "
    }
else
    get_status() {
	pidofproc $([ -e $PIDFILE ] && echo -p $PIDFILE) " +:+ dq +:+ "$CMD" +:+ dq +:+ " >/dev/null
	RETVAL=$?
	if [ $RETVAL -eq 0 ]; then
	    log_success_msg " +:+ dq +:+ "$NAME is running" +:+ dq +:+ "
	elif [ $RETVAL -eq 4 ]; then
	    log_failure_msg " +:+ dq +:+ "could not access PID file for $NAME" +:+ dq +:+ "
	else
	    log_failure_msg " +:+ dq +:+ "$NAME is not running" +:+ dq +:+ "
	fi
	return $RETVAL
    }
fi
");
      If (EqField FFlavour "debian")
        [
         Text ("
start() {
    log_daemon_msg " +:+ dq +:+ "Starting ${DESC}" +:+ dq +:+ "
    start-stop-daemon --start \
    ");
         If (NonEmpty FChRoot)
           [
            Text "--chroot ";
            Act (PrintCmd (OField FChRoot))
           ]
           [];
         Text " \
    ";
         If (NonEmpty FWorkingDirectory)
           [
            Text "--chdir ";
            Act (PrintCmd (OField FWorkingDirectory))
           ]
           [];
         Text " \
    ";
         If (NonEmpty FUserName)
           [
            Text "--chuid ";
            Act (PrintCmd (OField FUserName))
           ]
           [];
         Text (" \
    --pidfile " +:+ dq +:+ "$PIDFILE" +:+ dq +:+ " \
    --background \
    --make-pidfile \
    --exec " +:+ dq +:+ "$CMD" +:+ dq +:+ " -- " +:+ dq +:+ "$DAEMON_ARGS" +:+ dq +:+ "
    log_end_msg  $?
}

stop() {
    log_daemon_msg " +:+ dq +:+ "Stopping ${DESC}" +:+ dq +:+ "
    start-stop-daemon --stop --pidfile " +:+ dq +:+ "$PIDFILE" +:+ dq +:+ " --quiet
    RETVAL=$?
    rm -f " +:+ dq +:+ "$PIDFILE" +:+ dq +:+ "
    log_end_msg $RETVAL
}")
        ]
        [
         Comment;
         Text ("
start() {
    get_status &>/dev/null && return 0
    echo -n $" +:+ dq +:+ "Starting $DESC: ${NAME}" +:+ dq +:+ "
    ");
         If (NonEmpty FWorkingDirectory)
           [
            Text "cd ";
            Act (PrintCmd (OField FWorkingDirectory))
           ]
           [];
         Text ("
    " +:+ dq +:+ "$CMD" +:+ dq +:+ " " +:+ dq +:+ "$DAEMON_ARGS" +:+ dq +:+ " </dev/null >" +:+ dq +:+ "$STDOUTLOG" +:+ dq +:+ " 2>" +:+ dq +:+ "$STDERRLOG" +:+ dq +:+ " &
    echo $! > " +:+ dq +:+ "$PIDFILE" +:+ dq +:+ "
    sleep 0.5 # wait briefly to see if service crashed
    get_status &>/dev/null
    RETVAL=$?
    if [ $RETVAL -eq 0 ]; then
	    log_success_msg
	    touch " +:+ dq +:+ "$LOCKFILE" +:+ dq +:+ "
    else
	    log_failure_msg
	    rm -f " +:+ dq +:+ "$PIDFILE" +:+ dq +:+ "
    fi
    return $RETVAL
}

stop() {
    get_status &>/dev/null || return 0
    echo -n $" +:+ dq +:+ "Stopping ${DESC}: ${NAME}" +:+ dq +:+ "
    killproc -p " +:+ dq +:+ "$PIDFILE" +:+ dq +:+ " " +:+ dq +:+ "$CMD" +:+ dq +:+ " -TERM
    RETVAL=$?
    if [ $RETVAL -eq 0 ]; then
	    log_success_msg
	    rm -f " +:+ dq +:+ "$LOCKFILE" +:+ dq +:+ "
    else
	    log_failure_msg
    fi
    rm -f " +:+ dq +:+ "$PIDFILE" +:+ dq +:+ "
    return $RETVAL
}")
        ];
      Comment
     ];
   Comment;
   Text ("

case " +:+ dq +:+ "$1" +:+ dq +:+ " in
    start|stop)
	$1
	;;
    restart|force-reload)
	stop
	start
	;;
    status)
	get_status
	;;
    *)
	echo $" +:+ dq +:+ "Usage: $0 {start|stop|status|restart|force-reload}" +:+ dq +:+ " >&2
	exit 2 # LSB: invalid or excess arguments
esac
")
  ].

Definition Install (tf : FuncMap) (s : Config) : M goerror :=
  match configPath s with
  | (_, Some e) => ret (Some e)
  | (confPath, None) =>
      r <- execPath s ;;
      let '(path, err) := r in
      match err with
      | Some e => ret (Some e)
      | None =>
          flavour <- determineDistroFlavour ;;
          let to :=
            {| to_Config := s; Path := path; Flavour := flavour |} in
          err <- os_Stat confPath ;;
          if is_nil err then
            ret (Some (Errorf "Init already exists: %s" [ArgString confPath]))
          else
            err <- os_Create confPath ;;
            match err with
            | Some e => ret (Some e)
            | None =>
                defer (file_Close confPath)
                  (err <- match execute tf sysvScript (fields to) with
                          | Some text => file_Write confPath text
                          | None => ret (Some (ExecuteError "sysvScript"))
                          end ;;
                   match err with
                   | Some e => ret (Some e)
                   | None =>
                       err <- os_Chmod confPath 493 ;;
                       match err with
                       | Some e => ret (Some e)
                       | None =>
                           for_each ["2"; "3"; "4"; "5"]
                             (fun i =>
                                err <- os_Symlink confPath
                                         ("/etc/rc" +:+ i +:+ ".d/S50" +:+ Name s) ;;
                                match err with
                                | Some _ => ret tt (* continue *)
                                | None => ret tt
                                end) ;;;
                           for_each ["0"; "1"; "6"]
                             (fun i =>
                                err <- os_Symlink confPath
                                         ("/etc/rc" +:+ i +:+ ".d/K02" +:+ Name s) ;;
                                match err with
                                | Some _ => ret tt (* continue *)
                                | None => ret tt
                                end) ;;;
                           ret None
                       end
                   end)
            end
      end
  end.

Definition Uninstall (s : Config) : M goerror :=
  match configPath s with
  | (_, Some e) => ret (Some e)
  | (cp, None) =>
      err <- os_Remove cp ;;
      match err with
      | Some e => ret (Some e)
      | None => ret None
      end
  end.

End SysvLinux.

(** * The vocabulary of the claims

    What the claims say of a host, of a log and of a run, as definitions;
    the properties follow. *)

(** ** What a host answers *)

(** The error of [os.Stat(path)] on a host. *)
Definition stat_err (h : Host) (path : string) : goerror :=
  match fault h (CStat path) with
  | Some e => Some e
  | None => stat_fs (fs h) path
  end.

(** The error of [exec.LookPath(file)] on a host. *)
Definition lookpath_err (h : Host) (file : string) : goerror :=
  match fault h (CLookPath file) with
  | Some e => Some e
  | None => if decide (file ∈ search_path h) then None else Some ErrNotFound
  end.

(** The file exists for the program: [os.Stat] reports no error. *)
Definition file_exists (h : Host) (path : string) : Prop :=
  stat_err h path = None.

(** The file is absent for the program: [os.IsNotExist] holds of the
    error of [os.Stat]. *)
Definition file_absent (h : Host) (path : string) : Prop :=
  os_IsNotExist (stat_err h path) = true.

(** The command is resolvable on the search path. *)
Definition resolvable (h : Host) (file : string) : Prop :=
  lookpath_err h file = None.

Definition rhFunctions : string := "/etc/rc.d/init.d/functions".
Definition lsbFunctions : string := "/lib/lsb/init-functions".
Definition lsbDiagnostic : string :=
  "System is lacking LSB support (/lib/lsb/init-functions)".

(** Everything of a host but its file system and its log. *)
Definition env (h : Host) :=
  (search_path h, executable h, fault h, command h,
   (iface_Start h, iface_Stop h, signals h, notified h, stderr h)).

(** ** The log *)

Definition is_CStop (c : call) : bool :=
  match c with CStop => true | _ => false end.

(** How many logged calls satisfy [p]. *)
Definition count_calls (p : call -> bool) (l : list (call * goerror)) : nat :=
  length (List.filter (fun entry => p (fst entry)) l).

(** The signals [Run] asks to be told of. *)
Definition termination_signals : list Signal := [syscall_SIGTERM; os_Interrupt].

(** The calls that change the file system (an external command may). *)
Definition mutating (c : call) : bool :=
  match c with
  | CCreate _ | CExecute _ _ | CChmod _ _ | CSymlink _ _ | CRemove _
  | CCommand _ => true
  | _ => false
  end.

(** No logged call is one that changes the file system. *)
Definition quiet (t : list (call * goerror)) : bool :=
  forallb (fun entry => negb (mutating (fst entry))) t.

(** The links that a run asked [os.Symlink] for, with the error each call
    reported. *)
Definition symlink_calls (l : list (call * goerror))
    : list (string * string * goerror) :=
  flat_map (fun entry =>
              match entry with
              | (CSymlink oldname newname, err) => [(oldname, newname, err)]
              | _ => []
              end) l.

(** The first logged call that changes the file system and reported an
    error, with what was logged after it. *)
Fixpoint first_failure (t : list (call * goerror))
    : option (error * list (call * goerror)) :=
  match t with
  | [] => None
  | (c, Some e) :: rest =>
      if mutating c then Some (e, rest) else first_failure rest
  | (_, None) :: rest => first_failure rest
  end.

(** The returned error is the reported one, or a [fmt.Errorf] that has
    it among its arguments. *)
Definition mentions (e' e : error) : Prop :=
  e' = e \/ exists format args, e' = Errorf format args /\ ArgError e ∈ args.

(** The first failure, if there is one, is returned to the caller, and
    nothing that changes the file system is tried after it. *)
Definition surfaced (t : list (call * goerror)) (o : outcome goerror) : Prop :=
  match first_failure t with
  | None => True
  | Some (e, after) =>
      quiet after = true
      /\ exists e' h', o = Returned (Some e') h' /\ mentions e' e
  end.

(** On this host the program returns its failures. *)
Definition surfaces_at (m : M goerror) (h : Host) : Prop :=
  exists t, log (final (m h)) = log h ++ t /\ surfaced t (m h).

(** ** Installing *)

(** The "is user service" flag of a service definition. *)
Definition user_service (s : Config) : bool :=
  KeyValue_bool (Option s) optionUserService optionUserServiceDefault.

Definition confPath_of (s : Config) : string := "/etc/init.d/" +:+ Name s.

Definition already_exists (s : Config) : error :=
  Errorf "Init already exists: %s" [ArgString (confPath_of s)].

(** Flavour detection returns: the process is not terminated by it. *)
Definition flavour_known (h : Host) : Prop :=
  file_exists h rhFunctions \/ ~ file_absent h lsbFunctions.

(** What the claim asks of [Install] on a host where the control script
    exists: no change to the file system, no call that could make one,
    and no success. *)
Definition refuses_unchanged (h : Host) (o : outcome goerror) : Prop :=
  fs (final o) = fs h
  /\ count_calls mutating (log (final o)) = count_calls mutating (log h)
  /\ result o <> Some None.

(** [Install] gets as far as the links: the script is not there, and
    creating it, writing it and setting its mode meet no failure. *)
Definition script_writable (h : Host) (s : Config) : Prop :=
  ~ file_exists h (confPath_of s)
  /\ fs h !! confPath_of s = None
  /\ fault h (CCreate (confPath_of s)) = None
  /\ (forall text, fault h (CExecute (confPath_of s) text) = None)
  /\ fault h (CChmod (confPath_of s) 493) = None.

(** ** Activation links *)

(** The activation links as the interface lists them: under [base], one
    start link S50 per start runlevel 2, 3, 4, 5 and one stop link K02 per
    stop runlevel 0, 1, 6. *)
Definition activation_links (base name : string) : list string :=
  map (fun n => base +:+ "/rc" +:+ n +:+ ".d/S50" +:+ name) ["2"; "3"; "4"; "5"]
  ++ map (fun n => base +:+ "/rc" +:+ n +:+ ".d/K02" +:+ name) ["0"; "1"; "6"].

Definition start_links (base name : string) : list string :=
  map (fun n => base +:+ "/rc" +:+ n +:+ ".d/S50" +:+ name) ["2"; "3"; "4"; "5"].

Definition stop_links (base name : string) : list string :=
  map (fun n => base +:+ "/rc" +:+ n +:+ ".d/K02" +:+ name) ["0"; "1"; "6"].

Instance inode_eq_dec : EqDecision inode.
Proof. solve_decision. Defined.

(** The paths that name a link to [target]. *)
Definition links_to (target : string) (f : gmap string inode) : gset string :=
  dom (filter (fun kv => kv.2 = Link target) f).

(** The base of the runlevel directories: the nested /etc/rc.d when that
    directory exists, the flat /etc otherwise; none when /etc/rc0.d is
    absent too. *)
Definition rc_base (h : Host) : option string :=
  if is_nil (stat_err h "/etc/rc.d/") then Some "/etc/rc.d"
  else if os_IsNotExist (stat_err h "/etc/rc0.d") then None
  else Some "/etc".

(** What [manageSymlinks] asks the host before it touches a link. *)
Definition link_probes (h : Host) : list (call * goerror) :=
  [(CLookPath "chkconfig", lookpath_err h "chkconfig");
   (CLookPath "update-rc.d", lookpath_err h "update-rc.d");
   (CStat "/etc/rc.d/", stat_err h "/etc/rc.d/")]
  ++ (if is_nil (stat_err h "/etc/rc.d/") then []
      else [(CStat "/etc/rc0.d", stat_err h "/etc/rc0.d")]).

Definition rcDiagnostic : string :=
  "FIXME: no suitable rc.d directory found in /etc".

(** No link-management tool is on the search path: links are made and
    removed directly. *)
Definition no_link_tool (h : Host) : Prop :=
  ~ resolvable h "chkconfig" /\ ~ resolvable h "update-rc.d".

(** Neither /etc/rc.d nor /etc/rc0.d exists. *)
Definition no_rc_directory (h : Host) : Prop :=
  ~ file_exists h "/etc/rc.d/" /\ file_absent h "/etc/rc0.d".

(** The process is terminated with status 1 and the diagnostic is the
    last thing on the error stream. *)
Definition exits_with_rcDiagnostic (h : Host) (o : outcome goerror) : Prop :=
  exists h', o = Exited 1 h' /\ stderr h' = stderr h ++ [rcDiagnostic].

(** ** The control proxy *)

Definition serviceStop (s : Config) : call := CCommand ["service"; Name s; "stop"].
Definition serviceStart (s : Config) : call := CCommand ["service"; Name s; "start"].
Definition restartDelay : call := CSleep (50 * time_Millisecond).

(** ** The generated script *)

(** The values that come from the caller and end up in a command line. *)
Definition user_supplied (f : field) : bool :=
  match f with
  | FUserName | FWorkingDirectory | FChRoot => true
  | _ => false
  end.

Definition is_FArguments (l : listfield) : bool :=
  match l with FArguments => true | _ => false end.

Definition flat_nodes (f : node -> list operand) : list node -> list operand :=
  fix go (l : list node) : list operand :=
    match l with
    | [] => []
    | n :: rest => f n ++ go rest
    end.

(** The user-supplied values that a template prints without [cmd] in the
    branch of a flavour: [.UserName], [.WorkingDirectory] and [.ChRoot],
    and [.] under [range .Arguments]. *)
Fixpoint unquoted (flavour : string) (in_arguments : bool) (n : node)
    {struct n} : list operand :=
  match n with
  | Text _ | Comment => []
  | Act (Print (OField f)) => if user_supplied f then [OField f] else []
  | Act (Print ODot) => if in_arguments then [ODot] else []
  | Act _ => []
  | If (EqField FFlavour x) thens elses =>
      if String.eqb flavour x
      then flat_nodes (unquoted flavour in_arguments) thens
      else flat_nodes (unquoted flavour in_arguments) elses
  | If _ thens elses =>
      flat_nodes (unquoted flavour in_arguments) thens
      ++ flat_nodes (unquoted flavour in_arguments) elses
  | Range l body => flat_nodes (unquoted flavour (is_FArguments l)) body
  end.

Definition unquoted_in (flavour : string) (t : list node) : list operand :=
  flat_nodes (unquoted flavour false) t.

(** The generated text, empty when the execution fails. *)
Definition generated (tf : FuncMap) (t : list node) (d : Data) : string :=
  default EmptyString (execute tf t d).

(** The option that the Red-Hat branch of both templates passes to
    [daemon]. *)
Definition redhat_user_option : node :=
  If (NonEmpty FUserName) [Text "--user="; Act (Print (OField FUserName))] [].

Definition operand_defined (d : Data) (in_range : bool) (o : operand) : bool :=
  match o with
  | OField f => bool_decide (is_Some (get d f))
  | ODot => in_range
  end.

Definition action_defined (d : Data) (in_range : bool) (a : action) : bool :=
  match a with
  | Print o | PrintCmd o => operand_defined d in_range o
  | PrintJoin l _ => bool_decide (is_Some (getlist d l))
  end.

Definition condition_defined (d : Data) (c : condition) : bool :=
  match c with
  | EqField f _ | NonEmpty f => bool_decide (is_Some (get d f))
  end.

(** Every field that the node names is a field of the value, and [.] is
    only used under [range]. *)
Fixpoint node_defined (d : Data) (in_range : bool) (n : node) {struct n}
    : bool :=
  match n with
  | Text _ | Comment => true
  | Act a => action_defined d in_range a
  | If c thens elses =>
      condition_defined d c
      && forallb (node_defined d in_range) thens
      && forallb (node_defined d in_range) elses
  | Range l body =>
      bool_decide (is_Some (getlist d l))
      && forallb (node_defined d true) body
  end.

(** Induction on a node, with the nodes of its branches and of its
    body. *)

Section node_induction.
Variable P : node -> Prop.
Hypothesis PText : forall s, P (Text s).
Hypothesis PAct : forall a, P (Act a).
Hypothesis PComment : P Comment.
Hypothesis PIf : forall c thens elses,
  Forall P thens -> Forall P elses -> P (If c thens elses).
Hypothesis PRange : forall l body, Forall P body -> P (Range l body).

Fixpoint node_induction (n : node) : P n :=
  let all :=
    fix all (l : list node) : Forall P l :=
      match l with
      | [] => @List.Forall_nil node P
      | x :: rest => @List.Forall_cons node P x rest (node_induction x) (all rest)
      end in
  match n with
  | Text s => PText s
  | Act a => PAct a
  | Comment => PComment
  | If c thens elses => PIf c thens elses (all thens) (all elses)
  | Range l body => PRange l body (all body)
  end.
End node_induction.

(** ** Parts of the programs *)

(** The body of a loop that makes links to [confPath], and of one that
    removes links. *)
Definition make_link (confPath format path : string) : M goerror :=
  err <- os_Symlink confPath path ;;
  match err with
  | Some e => ret (Some (Errorf format [ArgString path; ArgError e]))
  | None => ret None
  end.

Definition remove_link (format path : string) : M goerror :=
  err <- os_Remove path ;;
  match err with
  | Some e => ret (Some (Errorf format [ArgString path; ArgError e]))
  | None => ret None
  end.

(** The log of calls [mk] on [paths] that reported no error. *)
Definition succeeded (mk : string -> call) (paths : list string)
    : list (call * goerror) :=
  map (fun p => (mk p, None)) paths.

(** How a link loop over [paths] ended: with all of them done, or at the
    first one that failed, the error of that call wrapped in [format]. *)
Definition loop_ended (mk : string -> call) (format : string)
    (paths : list string) (h : Host) (r : goerror) (h' : Host)
    (done : list string) : Prop :=
  match r with
  | None => done = paths /\ log h' = log h ++ succeeded mk paths
  | Some e' =>
      exists p e rest,
        paths = done ++ p :: rest
        /\ e' = Errorf format [ArgString p; ArgError e]
        /\ log h' = log h ++ succeeded mk done ++ [(mk p, Some e)]
  end.

(** How the two loops ended, whatever the format of the error. *)
Definition links_ended (mk : string -> call) (paths : list string)
    (h : Host) (r : goerror) (h' : Host) (done : list string) : Prop :=
  match r with
  | None => done = paths /\ log h' = log h ++ succeeded mk paths
  | Some e' =>
      exists p e rest format,
        paths = done ++ p :: rest
        /\ e' = Errorf format [ArgString p; ArgError e]
        /\ log h' = log h ++ succeeded mk done ++ [(mk p, Some e)]
  end.

(** The two loops, once the base is known. *)
Definition link_loops (s : Config) (confPath : string) (install : bool)
    (base : string) : M goerror :=
  err <- for_range (start_links base (Name s))
           (if install
            then make_link confPath "Failed to create startup link %s: %s"
            else remove_link "Failed to remove startup link %s: %s") ;;
  match err with
  | Some e => ret (Some e)
  | None =>
      for_range (stop_links base (Name s))
        (if install
         then make_link confPath "Failed to create shutdown link %s: %s"
         else remove_link "Failed to remove shutdown link %s: %s")
  end.

(** Writing the script and setting its mode, then [k], with the file
    closed at the end. *)
Definition write_script (s : Config) (text : string) (k : M goerror)
    : M goerror :=
  defer (file_Close (confPath_of s))
    (err <- file_Write (confPath_of s) text ;;
     match err with
     | Some e => ret (Some e)
     | None =>
         err <- os_Chmod (confPath_of s) 493 ;;
         match err with
         | Some e => ret (Some e)
         | None => k
         end
     end).

(** Creating the script, then writing it. *)
Definition create_script (s : Config) (text : string) (k : M goerror)
    : M goerror :=
  err <- os_Create (confPath_of s) ;;
  match err with
  | Some e => ret (Some e)
  | None => write_script s text k
  end.

(** ** How a value reaches the generated text *)

(** How a value of the service definition may reach the text of a
    template: as it is, through [cmd] only, or not at all. *)
Inductive usage : Type := Verbatim | ThroughCmd | Unused.

Definition allows_print (u : usage) : bool :=
  match u with Verbatim => true | _ => false end.

Definition allows_cmd (u : usage) : bool :=
  match u with Unused => false | _ => true end.

Definition operand_usage (u : field -> usage) (dot : usage) (o : operand)
    : usage :=
  match o with
  | OField f => u f
  | ODot => dot
  end.

(** The node keeps to the usages [u] of the fields and [ul] of the lists,
    in the branches that the fields of known value select; [dot] is the
    usage of [.]. *)
Fixpoint flows (u : field -> usage) (ul : listfield -> usage)
    (known : field -> option string) (dot : usage) (n : node) {struct n}
    : bool :=
  match n with
  | Text _ | Comment => true
  | Act (Print o) => allows_print (operand_usage u dot o)
  | Act (PrintCmd o) => allows_cmd (operand_usage u dot o)
  | Act (PrintJoin l _) => allows_print (ul l)
  | If (EqField f x) thens elses =>
      match known f with
      | Some v =>
          if String.eqb v x then forallb (flows u ul known dot) thens
          else forallb (flows u ul known dot) elses
      | None =>
          allows_print (u f)
          && forallb (flows u ul known dot) thens
          && forallb (flows u ul known dot) elses
      end
  | If (NonEmpty f) thens elses =>
      allows_cmd (u f)
      && forallb (flows u ul known dot) thens
      && forallb (flows u ul known dot) elses
  | Range l body =>
      allows_cmd (ul l) && forallb (flows u ul known (ul l)) body
  end.

(** Two values of a field or of [.] that a template of usage [u] cannot
    tell apart by printing them. *)
Definition same_printed (tf : FuncMap) (u : usage) (a b : option string)
    : Prop :=
  match u with
  | Verbatim => a = b
  | ThroughCmd => cmd tf <$> a = cmd tf <$> b
  | Unused => True
  end.

(** Two values that a template which keeps to [u] and [ul] cannot tell
    apart: the fields used as they are agree, those that go through [cmd]
    agree after [cmd] and are empty together, and the fields of known
    value have that value. *)
Record alike (tf : FuncMap) (u : field -> usage) (ul : listfield -> usage)
    (known : field -> option string) (d1 d2 : Data) : Prop := {
  alike_printed : forall f, same_printed tf (u f) (get d1 f) (get d2 f);
  alike_empty : forall f,
    u f = ThroughCmd ->
    String_nonempty <$> get d1 f = String_nonempty <$> get d2 f;
  alike_list : forall l,
    match ul l with
    | Verbatim => getlist d1 l = getlist d2 l
    | ThroughCmd => map (cmd tf) <$> getlist d1 l = map (cmd tf) <$> getlist d2 l
    | Unused => True
    end;
  alike_known : forall f v,
    known f = Some v -> get d1 f = Some v /\ get d2 f = Some v
}.

(** The usages of the three flavours. *)
Definition flavour_is (flavour : string) (f : field) : option string :=
  match f with FFlavour => Some flavour | _ => None end.

Definition debian_usage (f : field) : usage :=
  if user_supplied f then ThroughCmd else Verbatim.

Definition lsb_usage (f : field) : usage :=
  match f with
  | FUserName | FChRoot => Unused
  | FWorkingDirectory => ThroughCmd
  | _ => Verbatim
  end.

Definition redhat_usage (f : field) : usage :=
  match f with
  | FWorkingDirectory | FChRoot => Unused
  | _ => Verbatim
  end.

Definition arguments_usage (l : listfield) : usage :=
  if is_FArguments l then ThroughCmd else Verbatim.

(** The service definition with other user-supplied values. *)
Definition with_user_values (s : Config) (user dir root : string)
    (args : list string) : Config :=
  {| Name := Name s; DisplayName := DisplayName s;
     Description := Description s; UserName := user; Arguments := args;
     WorkingDirectory := dir; ChRoot := root; Option := Option s |}.

(** The value [to] that [Install] of src/unnamed/part_000 makes, and the
    text of the script for it. *)
Definition Part000_to (s : Config) (path flavour : string) : Part000.to_t :=
  {| Part000.to_Config := s;
     Part000.Path := path;
     Part000.Flavour := flavour;
     Part000.DefaultStart := Part000.defaultStartPriority;
     Part000.DefaultStop := Part000.defaultStopPriority;
     Part000.StartLevels := strings_Split_empty Part000.defaultStartLevels;
     Part000.StopLevels := strings_Split_empty Part000.defaultStopLevels |}.

Definition Part000_script (tf : FuncMap) (s : Config) (path flavour : string)
    : option string :=
  execute tf Part000.sysvScript (Part000.fields (Part000_to s path flavour)).

(** The same for src/service_sysv_linux.go. *)
Definition SysvLinux_to (s : Config) (path flavour : string) : SysvLinux.to_t :=
  {| SysvLinux.to_Config := s;
     SysvLinux.Path := path;
     SysvLinux.Flavour := flavour |}.

Definition SysvLinux_script (tf : FuncMap) (s : Config) (path flavour : string)
    : option string :=
  execute tf SysvLinux.sysvScript (SysvLinux.fields (SysvLinux_to s path flavour)).

(** Two values that [cmd] maps to one text, empty together. *)
Definition quoted_alike (tf : FuncMap) (a b : string) : Prop :=
  cmd tf a = cmd tf b /\ String_nonempty a = String_nonempty b.

(** ** Link-management tools *)

(** What an external command does on a host to a file system: the host
    fails the call, or the program runs. *)
Definition run_command (h : Host) (args : list string)
    (f : gmap string inode) : gmap string inode * goerror :=
  match fault h (CCommand args) with
  | Some e => (f, Some e)
  | None => command h args f
  end.

(** The error of [manageSymlinks] for a command that failed. *)
Definition failed_to_run (line : string) (err : goerror) : goerror :=
  match err with
  | Some e => Some (Errorf "Failed to run %q: %s" [ArgString line; ArgError e])
  | None => None
  end.

(** The commands and the command lines of the two tools. *)
Definition chkconfig_args (s : Config) (install : bool) : list string :=
  ["chkconfig"; if install then "--add" else "--del"; Name s].

Definition chkconfig_line (s : Config) (install : bool) : string :=
  "chkconfig " +:+ (if install then "--add " else "--del ") +:+ Name s.

Definition update_rc_d_args (s : Config) (install : bool) : list string :=
  if install then ["update-rc.d"; Name s; "defaults"]
  else ["update-rc.d"; "-f"; Name s; "remove"].

Definition update_rc_d_line (s : Config) (install : bool) : string :=
  if install then "update-rc.d " +:+ Name s +:+ " defaults"
  else "update-rc.d -f " +:+ Name s +:+ " remove".

(** The tool that takes care of the links on a host, with its command
    line: [chkconfig] when it is on the search path, [update-rc.d] when
    it is and [chkconfig] is not, none otherwise. *)
Definition link_tool (h : Host) (s : Config) (install : bool)
    : option (list string * string) :=
  if is_nil (lookpath_err h "chkconfig")
  then Some (chkconfig_args s install, chkconfig_line s install)
  else if is_nil (lookpath_err h "update-rc.d")
       then Some (update_rc_d_args s install, update_rc_d_line s install)
       else None.

(** ** The steps of [Install] *)

(** The links of [Install] of src/service_sysv_linux.go, which follow the
    script. *)
Definition legacy_links (s : Config) (confPath : string) : M goerror :=
  for_each ["2"; "3"; "4"; "5"]
    (fun i =>
       err <- os_Symlink confPath ("/etc/rc" +:+ i +:+ ".d/S50" +:+ Name s) ;;
       match err with
       | Some _ => ret tt
       | None => ret tt
       end) ;;;
  for_each ["0"; "1"; "6"]
    (fun i =>
       err <- os_Symlink confPath ("/etc/rc" +:+ i +:+ ".d/K02" +:+ Name s) ;;
       match err with
       | Some _ => ret tt
       | None => ret tt
       end) ;;;
  ret None.

(** The host fails no call of the kind [mk] on the activation links. *)
Definition links_unfailed (h : Host) (mk : string -> call) (base name : string)
    : Prop :=
  forall p, p ∈ activation_links base name -> fault h (mk p) = None.

(** None of the activation links is there. *)
Definition links_absent (h : Host) (base name : string) : Prop :=
  forall p, p ∈ activation_links base name -> fs h !! p = None.

(** The directory of each activation link is there. *)
Definition links_placed (h : Host) (base name : string) : Prop :=
  forall p, p ∈ activation_links base name -> fs h !! dirname p = Some Dir.

(** [install] fails with [e] on the host and leaves the control script
    behind, and nothing else; run again on the host it left, it refuses
    with the "already exists" error. *)
Definition leaves_script (s : Config) (e : error) (install : M goerror)
    (h : Host) : Prop :=
  exists h' content mode,
    install h = Returned (Some e) h'
    /\ fs h' = <[confPath_of s := File content mode]> (fs h)
    /\ result (install h') = Some (Some (already_exists s)).

(** The process is terminated with status 1 and [diagnostic] on the error
    stream, the file system as it was and no call made that could have
    changed it. *)
Definition exits_untouched (diagnostic : string) (h : Host)
    (o : outcome goerror) : Prop :=
  exists h' t,
    o = Exited 1 h'
    /\ stderr h' = stderr h ++ [diagnostic]
    /\ fs h' = fs h
    /\ log h' = log h ++ t /\ quiet t = true.

(** [install], run on a host where the service is installed, refuses
    with the "already exists" error and leaves the file system as it
    is. *)
Definition refused_again (s : Config) (install : M goerror) (h : Host)
    : Prop :=
  result (install h) = Some (Some (already_exists s))
  /\ fs (final (install h)) = fs h.


(** ** Example inputs *)

(** A function map as the templates need it: [cmd] puts a value between
    double quotes, a backslash before each double quote inside; [join] is
    [strings.Join]. *)
Fixpoint escape_quotes (s : string) : string :=
  match s with
  | EmptyString => EmptyString
  | String a rest =>
      if Ascii.eqb a (Ascii.ascii_of_nat 34)
      then String (Ascii.ascii_of_nat 92) (String a (escape_quotes rest))
      else String a (escape_quotes rest)
  end.

Definition quoting_tf : FuncMap :=
  {| cmd s := dq +:+ escape_quotes s +:+ dq; join := strings_Join |}.

(** A function map whose [cmd] drops its argument: what is left of a
    value in the output did not go through [cmd]. *)
Definition erasing_tf : FuncMap :=
  {| cmd _ := EmptyString; join := strings_Join |}.

(** [needle] occurs in [s]. *)
Fixpoint contains (needle s : string) : bool :=
  String.prefix needle s
  || match s with
     | EmptyString => false
     | String _ rest => contains needle rest
     end.

(** A service whose user name holds shell metacharacters. *)
Definition demo : Config :=
  {| Name := "demo";
     DisplayName := "Demo";
     Description := "A demo service";
     UserName := "nobody; reboot";
     Arguments := ["--port"; "80 80"];
     WorkingDirectory := "/srv/demo";
     ChRoot := "/srv";
     Option := ∅ |}.

(** The same service, asked for as a user service. *)
Definition demo_user : Config :=
  {| Name := "demo";
     DisplayName := "Demo";
     Description := "A demo service";
     UserName := "nobody; reboot";
     Arguments := ["--port"; "80 80"];
     WorkingDirectory := "/srv/demo";
     ChRoot := "/srv";
     Option := {[ optionUserService := OptBool true ]} |}.

(** The value the template is executed on, for [demo] and a flavour. *)
Definition demo_to (flavour : string) : Part000.to_t :=
  {| Part000.to_Config := demo;
     Part000.Path := "/usr/bin/demo";
     Part000.Flavour := flavour;
     Part000.DefaultStart := Part000.defaultStartPriority;
     Part000.DefaultStop := Part000.defaultStopPriority;
     Part000.StartLevels := strings_Split_empty Part000.defaultStartLevels;
     Part000.StopLevels := strings_Split_empty Part000.defaultStopLevels |}.

Definition demo_to_legacy (flavour : string) : SysvLinux.to_t :=
  {| SysvLinux.to_Config := demo;
     SysvLinux.Path := "/usr/bin/demo";
     SysvLinux.Flavour := flavour |}.

Definition host_of (files : list (string * inode)) (commands : list string)
    (sigs : list Signal) : Host :=
  {| fs := list_to_map files;
     search_path := list_to_set commands;
     executable := ("/usr/bin/demo", None);
     fault _ := None;
     command _ f := (f, None);
     iface_Start := None;
     iface_Stop := Some (ErrorsNew "stop failed");
     signals := sigs;
     notified := [];
     stderr := [];
     log := [] |}.

Definition runlevel_dirs : list (string * inode) :=
  [("/etc/init.d", Dir); ("/etc/rc0.d", Dir); ("/etc/rc1.d", Dir);
   ("/etc/rc2.d", Dir); ("/etc/rc3.d", Dir); ("/etc/rc4.d", Dir);
   ("/etc/rc5.d", Dir); ("/etc/rc6.d", Dir)].

(** A host with the LSB functions and flat runlevel directories, without
    [start-stop-daemon] and without a link-management tool. *)
Definition lsb_host : Host :=
  host_of (("/lib/lsb/init-functions", File "# lsb" 420%N) :: runlevel_dirs)
    [] [SIGTERM; SIGINT].

(** The same with [start-stop-daemon]. *)
Definition debian_host : Host :=
  host_of (("/lib/lsb/init-functions", File "# lsb" 420%N) :: runlevel_dirs)
    ["start-stop-daemon"] [].

(** [lsb_host] where a hang-up comes before the termination signal. *)
Definition hangup_host : Host :=
  host_of (("/lib/lsb/init-functions", File "# lsb" 420%N) :: runlevel_dirs)
    [] [SIGUSR1; SIGHUP; SIGTERM].

Definition nested_runlevel_dirs : list (string * inode) :=
  [("/etc/rc.d", Dir); ("/etc/rc.d/init.d", Dir);
   ("/etc/rc.d/rc0.d", Dir); ("/etc/rc.d/rc1.d", Dir);
   ("/etc/rc.d/rc2.d", Dir); ("/etc/rc.d/rc3.d", Dir);
   ("/etc/rc.d/rc4.d", Dir); ("/etc/rc.d/rc5.d", Dir);
   ("/etc/rc.d/rc6.d", Dir)].

(** A Red-Hat-style host: the function file, and the runlevel
    directories under /etc/rc.d. *)
Definition redhat_host : Host :=
  host_of (("/etc/rc.d/init.d/functions", File "# functions" 420%N)
           :: ("/etc/init.d", Dir) :: nested_runlevel_dirs)
    [] [SIGINT].

(** A host with the two layouts side by side: the Red-Hat function file
    and the runlevel directories under /etc/rc.d, and the flat runlevel
    directories /etc/rc0.d to /etc/rc6.d as well. *)
Definition two_layouts_host : Host :=
  host_of (("/etc/rc.d/init.d/functions", File "# functions" 420%N)
           :: nested_runlevel_dirs ++ runlevel_dirs)
    [] [].

(** A host with neither function file. *)
Definition bare_host : Host := host_of [("/etc/init.d", Dir)] [] [].

(** [lsb_host] with a link left at /etc/rc2.d/S50demo. *)
Definition stale_host : Host :=
  host_of (("/etc/rc2.d/S50demo", Link "/etc/init.d/demo")
           :: ("/lib/lsb/init-functions", File "# lsb" 420%N) :: runlevel_dirs)
    [] [].

(** [lsb_host] with the control script of [demo] in place. *)
Definition installed_host : Host :=
  host_of (("/etc/init.d/demo", File "#!/bin/bash" 493%N)
           :: ("/lib/lsb/init-functions", File "# lsb" 420%N) :: runlevel_dirs)
    [] [].

(** [lsb_host] where the program's [Start] callback fails. *)
Definition failing_start_host : Host :=
  {| fs := fs lsb_host; search_path := search_path lsb_host;
     executable := executable lsb_host; fault := fault lsb_host;
     command := command lsb_host;
     iface_Start := Some (ErrorsNew "start failed");
     iface_Stop := None;
     signals := [SIGTERM]; notified := []; stderr := []; log := [] |}.

(** [lsb_host] where [service demo stop] fails. *)
Definition failing_stop_host : Host :=
  {| fs := fs lsb_host; search_path := search_path lsb_host;
     executable := executable lsb_host; fault := fault lsb_host;
     command args f :=
       match args with
       | ["service"; _; "stop"] => (f, Some (ExitError 1))
       | _ => (f, None)
       end;
     iface_Start := None; iface_Stop := None;
     signals := []; notified := []; stderr := []; log := [] |}.

(** A host with the LSB functions and no runlevel directory at all. *)
Definition no_rc_host : Host :=
  host_of [("/lib/lsb/init-functions", File "# lsb" 420%N); ("/etc/init.d", Dir)]
    [] [].

(** A host like [lsb_host] with both tools on the search path, where
    [update-rc.d] fails. *)
Definition tools_host : Host :=
  {| fs := fs lsb_host; search_path := {[ "chkconfig"; "update-rc.d" ]};
     executable := executable lsb_host; fault := fault lsb_host;
     command args f :=
       match args with
       | "update-rc.d" :: _ => (f, Some (ExitError 1))
       | _ => (f, None)
       end;
     iface_Start := None; iface_Stop := None;
     signals := []; notified := []; stderr := []; log := [] |}.

(** The same with [update-rc.d] only. *)
Definition update_rc_d_host : Host :=
  {| fs := fs lsb_host; search_path := {[ "update-rc.d" ]};
     executable := executable lsb_host; fault := fault lsb_host;
     command := command tools_host;
     iface_Start := None; iface_Stop := None;
     signals := []; notified := []; stderr := []; log := [] |}.

(** A host where the executable of the program cannot be resolved. *)
Definition unresolved_host : Host :=
  {| fs := fs bare_host; search_path := search_path bare_host;
     executable := (EmptyString, Some (ErrorsNew "executable not resolvable"));
     fault := fault bare_host; command := command bare_host;
     iface_Start := None; iface_Stop := None;
     signals := []; notified := []; stderr := []; log := [] |}.

(** [lsb_host] on a disk where the mode of a file cannot be set. *)
Definition fixed_mode_host : Host :=
  {| fs := fs lsb_host; search_path := search_path lsb_host;
     executable := executable lsb_host;
     fault c := match c with CChmod _ _ => Some (Errno EROFS) | _ => None end;
     command := command lsb_host;
     iface_Start := None; iface_Stop := None;
     signals := []; notified := []; stderr := []; log := [] |}.

(** [lsb_host] after an installation of [demo] that stopped half-way:
    the control script and the first two links are there. *)
Definition half_installed_host : Host :=
  host_of (("/etc/init.d/demo", File "#!/bin/bash" 493%N)
           :: ("/etc/rc2.d/S50demo", Link "/etc/init.d/demo")
           :: ("/etc/rc3.d/S50demo", Link "/etc/init.d/demo")
           :: ("/lib/lsb/init-functions", File "# lsb" 420%N) :: runlevel_dirs)
    [] [].

(** [lsb_host] with a file left where the link of runlevel 4 goes. *)
Definition blocked_host : Host :=
  host_of (("/etc/rc4.d/S50demo", File "# left behind" 420%N)
           :: ("/lib/lsb/init-functions", File "# lsb" 420%N) :: runlevel_dirs)
    [] [].


(** * Properties *)

(** ** System calls *)

Ltac log_eq := simpl; rewrite <- ?app_assoc; reflexivity.

Lemma os_Stat_run path h :
  os_Stat path h
  = Returned (stat_err h path) (record (CStat path) (stat_err h path) h).
Proof.
  unfold os_Stat, syscall, stat_err. by destruct (fault h (CStat path)).
Qed.

Lemma exec_LookPath_run file h :
  exec_LookPath file h
  = Returned (lookpath_err h file)
      (record (CLookPath file) (lookpath_err h file) h).
Proof.
  unfold exec_LookPath, syscall, lookpath_err.
  by destruct (fault h (CLookPath file)).
Qed.

Lemma stat_err_record c e h path : stat_err (record c e h) path = stat_err h path.
Proof. reflexivity. Qed.

Lemma lookpath_err_record c e h file :
  lookpath_err (record c e h) file = lookpath_err h file.
Proof. reflexivity. Qed.

Lemma is_nil_true err : is_nil err = true <-> err = None.
Proof. destruct err; simpl; split; congruence. Qed.

Lemma is_nil_false err : is_nil err = false <-> err <> None.
Proof. destruct err; simpl; split; congruence. Qed.

Lemma env_record c e h : env (record c e h) = env h.
Proof. reflexivity. Qed.

Lemma env_fault h h' c : env h' = env h -> fault h' c = fault h c.
Proof. intros E. by injection E as _ _ -> _ _. Qed.

Lemma env_stderr h h' : env h' = env h -> stderr h' = stderr h.
Proof. intros E. by injection E. Qed.

Lemma env_lookpath_err h h' file :
  env h' = env h -> lookpath_err h' file = lookpath_err h file.
Proof.
  intros E. unfold lookpath_err. rewrite (env_fault _ _ _ E).
  by injection E as -> _ _ _ _.
Qed.

Lemma env_stat_err h h' path :
  env h' = env h -> fs h' !! trim_slash path = fs h !! trim_slash path ->
  stat_err h' path = stat_err h path.
Proof.
  intros E F. unfold stat_err, stat_fs. by rewrite (env_fault _ _ _ E), F.
Qed.

Lemma os_Create_new path h :
  fault h (CCreate path) = None -> fs h !! path = None ->
  os_Create path h
  = Returned None
      (record (CCreate path) None
         (set_fs (<[path := File EmptyString 438%N]> (fs h)) h)).
Proof. intros F E. unfold os_Create, syscall. by rewrite F, E. Qed.

Lemma file_Write_file path text h content mode :
  fault h (CExecute path text) = None ->
  fs h !! path = Some (File content mode) ->
  file_Write path text h
  = Returned None
      (record (CExecute path text) None
         (set_fs (<[path := File text mode]> (fs h)) h)).
Proof. intros F E. unfold file_Write, syscall. by rewrite F, E. Qed.

Lemma os_Chmod_file path mode h content mode0 :
  fault h (CChmod path mode) = None ->
  fs h !! path = Some (File content mode0) ->
  os_Chmod path mode h
  = Returned None
      (record (CChmod path mode) None
         (set_fs (<[path := File content mode]> (fs h)) h)).
Proof. intros F E. unfold os_Chmod, syscall. by rewrite F, E. Qed.

Lemma stat_fs_insert_ne f path p v :
  trim_slash p <> path -> stat_fs (<[path := v]> f) p = stat_fs f p.
Proof. intros N. unfold stat_fs. by rewrite lookup_insert_ne. Qed.

Lemma stat_err_set_fs_insert_ne h path p v :
  trim_slash p <> path ->
  stat_err (set_fs (<[path := v]> (fs h)) h) p = stat_err h p.
Proof.
  intros N. unfold stat_err. simpl. by rewrite stat_fs_insert_ne.
Qed.

Lemma count_calls_app p l1 l2 :
  count_calls p (l1 ++ l2) = count_calls p l1 + count_calls p l2.
Proof. unfold count_calls. by rewrite List.filter_app, length_app. Qed.

Lemma quiet_app t1 t2 : quiet (t1 ++ t2) = quiet t1 && quiet t2.
Proof. apply forallb_app. Qed.

Lemma succeeded_app mk a b :
  succeeded mk (a ++ b) = succeeded mk a ++ succeeded mk b.
Proof. apply map_app. Qed.

(** ** The flavour detector *)

(** The flavour detector, case by case. *)
Lemma determineDistroFlavour_run h :
  determineDistroFlavour h =
    let e1 := stat_err h rhFunctions in
    let h1 := record (CStat rhFunctions) e1 h in
    if is_nil e1 then Returned "redhat" h1
    else
      let e2 := stat_err h lsbFunctions in
      let h2 := record (CStat lsbFunctions) e2 h1 in
      if os_IsNotExist e2 then
        Exited 1
          (record (CExit 1) None
             (set_stderr (stderr h ++ [lsbDiagnostic])
                (record (CStderr lsbDiagnostic) None h2)))
      else
        let e3 := lookpath_err h "start-stop-daemon" in
        let h3 := record (CLookPath "start-stop-daemon") e3 h2 in
        if is_nil e3 then Returned "debian" h3 else Returned "lsb" h3.
Proof.
  unfold determineDistroFlavour, bind, rhFunctions, lsbFunctions, lsbDiagnostic.
  rewrite os_Stat_run. cbv zeta.
  destruct (is_nil (stat_err h _)); [reflexivity|].
  rewrite os_Stat_run, stat_err_record.
  destruct (os_IsNotExist (stat_err h _)); [reflexivity|].
  rewrite exec_LookPath_run, !lookpath_err_record.
  by destruct (is_nil (lookpath_err h _)).
Qed.

(** C4. The flavour detector returns "redhat" when the Red-Hat function
    file exists; otherwise it terminates the process (exit status 1) with
    a diagnostic on the error stream when /lib/lsb/init-functions is
    absent; otherwise it returns "debian" when start-stop-daemon is
    resolvable on the search path; otherwise it returns "lsb". *)
Theorem determineDistroFlavour_priority (h : Host) :
  (file_exists h rhFunctions ->
     result (determineDistroFlavour h) = Some "redhat")
  /\ (~ file_exists h rhFunctions -> file_absent h lsbFunctions ->
        exists h', determineDistroFlavour h = Exited 1 h'
                   /\ stderr h' = stderr h ++ [lsbDiagnostic])
  /\ (~ file_exists h rhFunctions -> ~ file_absent h lsbFunctions ->
        resolvable h "start-stop-daemon" ->
        result (determineDistroFlavour h) = Some "debian")
  /\ (~ file_exists h rhFunctions -> ~ file_absent h lsbFunctions ->
        ~ resolvable h "start-stop-daemon" ->
        result (determineDistroFlavour h) = Some "lsb").
Proof.
  unfold file_exists, file_absent, resolvable.
  rewrite determineDistroFlavour_run. cbv zeta.
  repeat split.
  - intros ->. reflexivity.
  - intros H1 H2. apply is_nil_false in H1. rewrite H1, H2. eauto.
  - intros H1 H2 H3. apply is_nil_false in H1.
    apply not_true_is_false in H2. rewrite H1, H2, H3. reflexivity.
  - intros H1 H2 H3. apply is_nil_false in H1, H3.
    apply not_true_is_false in H2. rewrite H1, H2, H3. reflexivity.
Qed.

Lemma determineDistroFlavour_priority_witness :
  result (determineDistroFlavour redhat_host) = Some "redhat"
  /\ (exists h', determineDistroFlavour bare_host = Exited 1 h'
                 /\ stderr h' = stderr bare_host ++ [lsbDiagnostic])
  /\ result (determineDistroFlavour debian_host) = Some "debian"
  /\ result (determineDistroFlavour lsb_host) = Some "lsb".
Proof.
  split; [|split; [|split]].
  - apply (proj1 (determineDistroFlavour_priority redhat_host)).
    reflexivity.
  - apply (proj1 (proj2 (determineDistroFlavour_priority bare_host)));
      [discriminate | reflexivity].
  - apply (proj1 (proj2 (proj2 (determineDistroFlavour_priority debian_host))));
      [discriminate | discriminate | reflexivity].
  - apply (proj2 (proj2 (proj2 (determineDistroFlavour_priority lsb_host))));
      discriminate.
Defined.

Lemma determineDistroFlavour_cases (h : Host) :
  (exists flavour hf t,
     determineDistroFlavour h = Returned flavour hf
     /\ fs hf = fs h /\ env hf = env h
     /\ log hf = log h ++ t /\ quiet t = true)
  \/ (exists hf t,
        determineDistroFlavour h = Exited 1 hf
        /\ fs hf = fs h /\ log hf = log h ++ t /\ quiet t = true).
Proof.
  rewrite determineDistroFlavour_run. cbv zeta.
  destruct (is_nil (stat_err h rhFunctions)).
  { left. do 3 eexists.
    split_and!; [reflexivity | reflexivity | reflexivity | log_eq | reflexivity]. }
  destruct (os_IsNotExist (stat_err h lsbFunctions)).
  { right. do 2 eexists.
    split_and!; [reflexivity | reflexivity | log_eq | reflexivity]. }
  destruct (is_nil (lookpath_err h "start-stop-daemon")).
  - left. do 3 eexists.
    split_and!; [reflexivity | reflexivity | reflexivity | log_eq | reflexivity].
  - left. do 3 eexists.
    split_and!; [reflexivity | reflexivity | reflexivity | log_eq | reflexivity].
Qed.

(** ** The runtime supervisor *)

Lemma next_signal_dropped relayed pre pending :
  Forall (fun x => ends_program x = false) pre ->
  Forall (fun x => ends_program x = true) relayed ->
  next_signal relayed (pre ++ pending) = next_signal relayed pending.
Proof.
  intros Hpre Hrel. induction Hpre as [|x pre Hx _ IH]; [done|]. simpl.
  rewrite Hx, IH.
  assert (E : existsb (Signal_eqb x) relayed = false); [|by rewrite E].
  apply not_true_is_false. intros E. apply existsb_exists in E as (y & Hy & Exy).
  rewrite List.Forall_forall in Hrel. specialize (Hrel y Hy).
  destruct x, y; simpl in *; congruence.
Qed.

Lemma termination_signals_end :
  Forall (fun x => ends_program x = true) termination_signals.
Proof. by repeat constructor. Qed.

(** C5. In [Run]: if the Start callback returns a failure, the Stop
    callback is never invoked and [Run] returns that failure; if Start
    succeeds, [Run] blocks until a termination signal (SIGTERM or
    interrupt) is observed, then invokes Stop exactly once and returns
    Stop's outcome.  The signals that come before the termination signal
    are signals that the runtime drops; when none that counts comes,
    [Run] waits for ever, and when a hang-up or a quit comes first, the
    process is ended by it and Stop is not invoked. *)
Theorem Run_supervises (s : Config) (h : Host) :
  (forall e, iface_Start h = Some e ->
     exists h', Run s h = Returned (Some e) h'
       /\ log h' = log h ++ [(CStart, Some e)]
       /\ count_calls is_CStop (log h') = count_calls is_CStop (log h))
  /\ (iface_Start h = None ->
      forall pre sg rest,
        signals h = pre ++ sg :: rest ->
        Forall (fun x => ends_program x = false) pre ->
        sg = SIGTERM \/ sg = SIGINT ->
        exists h', Run s h = Returned (iface_Stop h) h'
          /\ log h' = log h ++ [(CStart, None);
                                (CNotify 3 termination_signals, None);
                                (CReceive (Some sg), None);
                                (CStop, iface_Stop h)]
          /\ count_calls is_CStop (log h')
             = S (count_calls is_CStop (log h)))
  /\ (iface_Start h = None ->
      Forall (fun x => ends_program x = false) (signals h) ->
      exists h', Run s h = Blocked h'
        /\ log h' = log h ++ [(CStart, None);
                              (CNotify 3 termination_signals, None);
                              (CReceive None, None)]
        /\ count_calls is_CStop (log h') = count_calls is_CStop (log h))
  /\ (iface_Start h = None ->
      forall pre sg rest,
        signals h = pre ++ sg :: rest ->
        Forall (fun x => ends_program x = false) pre ->
        sg = SIGHUP \/ sg = SIGQUIT ->
        exists h', Run s h = Killed sg h'
          /\ log h' = log h ++ [(CStart, None);
                                (CNotify 3 termination_signals, None);
                                (CReceive None, None)]
          /\ count_calls is_CStop (log h') = count_calls is_CStop (log h)).
Proof.
  unfold Run, bind, i_Start, i_Stop, signal_Notify, chan_Receive, ret.
  split_and!.
  - intros e ->. eexists. split; [reflexivity|]. simpl. split; [reflexivity|].
    rewrite count_calls_app. unfold count_calls. simpl. lia.
  - intros -> pre sg rest Hsig Hpre Hsg. simpl.
    change [syscall_SIGTERM; os_Interrupt] with termination_signals.
    rewrite Hsig, (next_signal_dropped _ _ _ Hpre termination_signals_end).
    destruct Hsg as [-> | ->]; simpl.
    + eexists. split; [reflexivity|]. simpl. rewrite <- !app_assoc.
      split; [reflexivity|].
      rewrite count_calls_app. unfold count_calls. simpl. lia.
    + eexists. split; [reflexivity|]. simpl. rewrite <- !app_assoc.
      split; [reflexivity|].
      rewrite count_calls_app. unfold count_calls. simpl. lia.
  - intros -> Hall. simpl.
    change [syscall_SIGTERM; os_Interrupt] with termination_signals.
    rewrite <- (app_nil_r (signals h)),
      (next_signal_dropped _ _ _ Hall termination_signals_end).
    simpl. eexists. split; [reflexivity|]. simpl.
    rewrite <- !app_assoc. split; [reflexivity|].
    rewrite count_calls_app. unfold count_calls. simpl. lia.
  - intros -> pre sg rest Hsig Hpre Hsg. simpl.
    change [syscall_SIGTERM; os_Interrupt] with termination_signals.
    rewrite Hsig, (next_signal_dropped _ _ _ Hpre termination_signals_end).
    destruct Hsg as [-> | ->]; simpl.
    + eexists. split; [reflexivity|]. simpl. rewrite <- !app_assoc.
      split; [reflexivity|].
      rewrite count_calls_app. unfold count_calls. simpl. lia.
    + eexists. split; [reflexivity|]. simpl. rewrite <- !app_assoc.
      split; [reflexivity|].
      rewrite count_calls_app. unfold count_calls. simpl. lia.
Qed.

Lemma Run_supervises_witness :
  (exists h', Run demo failing_start_host
              = Returned (Some (ErrorsNew "start failed")) h'
     /\ log h' = log failing_start_host
                 ++ [(CStart, Some (ErrorsNew "start failed"))]
     /\ count_calls is_CStop (log h')
        = count_calls is_CStop (log failing_start_host))
  /\ (exists h', Run demo lsb_host = Returned (iface_Stop lsb_host) h'
        /\ log h' = log lsb_host ++ [(CStart, None);
                                     (CNotify 3 termination_signals, None);
                                     (CReceive (Some SIGTERM), None);
                                     (CStop, iface_Stop lsb_host)]
        /\ count_calls is_CStop (log h')
           = S (count_calls is_CStop (log lsb_host)))
  /\ (exists h', Run demo debian_host = Blocked h'
        /\ log h' = log debian_host ++ [(CStart, None);
                                        (CNotify 3 termination_signals, None);
                                        (CReceive None, None)]
        /\ count_calls is_CStop (log h')
           = count_calls is_CStop (log debian_host))
  /\ (exists h', Run demo hangup_host = Killed SIGHUP h'
        /\ log h' = log hangup_host ++ [(CStart, None);
                                        (CNotify 3 termination_signals, None);
                                        (CReceive None, None)]
        /\ count_calls is_CStop (log h')
           = count_calls is_CStop (log hangup_host)).
Proof.
  split_and!.
  - apply (proj1 (Run_supervises demo failing_start_host)). reflexivity.
  - apply (proj1 (proj2 (Run_supervises demo lsb_host)) eq_refl
             [] SIGTERM [SIGINT]); [reflexivity | constructor | by left].
  - apply (proj1 (proj2 (proj2 (Run_supervises demo debian_host))));
      [reflexivity | constructor].
  - apply (proj2 (proj2 (proj2 (Run_supervises demo hangup_host))) eq_refl
             [SIGUSR1] SIGHUP [SIGTERM]);
      [reflexivity | by repeat constructor | by left].
Defined.

(** ** The control proxy *)

Lemma cmd_Run_returns args h :
  exists err h', cmd_Run args h = Returned err h'
    /\ log h' = log h ++ [(CCommand args, err)].
Proof.
  unfold cmd_Run, syscall. destruct (fault h _); [by eauto|].
  destruct (command h args (fs h)) as [f err]. by eauto.
Qed.

(** C8. [Restart] invokes [Stop] first, then waits a fixed short delay
    (50 ms), then invokes [Start], in that order; if [Stop] returns an
    error, [Restart] returns that error without attempting [Start]. *)
Theorem Restart_stop_sleep_start (s : Config) (h : Host) :
  (exists err h1, Stop s h = Returned err h1)
  /\ (forall e h1, Stop s h = Returned (Some e) h1 ->
        Restart s h = Returned (Some e) h1
        /\ log h1 = log h ++ [(serviceStop s, Some e)])
  /\ (forall h1, Stop s h = Returned None h1 ->
        Restart s h = Start s (record restartDelay None h1)
        /\ exists err h2, Restart s h = Returned err h2
             /\ log h2 = log h ++ [(serviceStop s, None);
                                   (restartDelay, None);
                                   (serviceStart s, err)]).
Proof.
  unfold Restart, Stop, Start, run, bind, time_Sleep, ret.
  destruct (cmd_Run_returns ["service"; Name s; "stop"] h) as (err & h1 & E & L).
  rewrite E. split; [by eauto|]. split.
  - intros e h1' [= -> ->]. by split.
  - intros h1' [= -> ->]. split; [reflexivity|].
    destruct (cmd_Run_returns ["service"; Name s; "start"]
                (record (CSleep (50 * time_Millisecond)) None h1'))
      as (err2 & h2 & E2 & L2).
    exists err2, h2. split; [exact E2|].
    rewrite L2. simpl. rewrite L, <- !app_assoc. reflexivity.
Qed.

Lemma Restart_stop_sleep_start_witness :
  (Restart demo failing_stop_host
     = Returned (Some (ExitError 1))
         (record (serviceStop demo) (Some (ExitError 1)) failing_stop_host)
   /\ log (record (serviceStop demo) (Some (ExitError 1)) failing_stop_host)
      = log failing_stop_host ++ [(serviceStop demo, Some (ExitError 1))])
  /\ (Restart demo lsb_host
        = Start demo (record restartDelay None
                        (record (serviceStop demo) None lsb_host))
      /\ exists err h2, Restart demo lsb_host = Returned err h2
           /\ log h2 = log lsb_host ++ [(serviceStop demo, None);
                                        (restartDelay, None);
                                        (serviceStart demo, err)]).
Proof.
  split.
  - apply (proj1 (proj2 (Restart_stop_sleep_start demo failing_stop_host))).
    reflexivity.
  - apply (proj2 (proj2 (Restart_stop_sleep_start demo lsb_host))).
    reflexivity.
Defined.

(** ** The user-service flag *)

(** C7. For every service definition whose Option set has the
    user-service flag set, [Install] fails with the "not supported" error
    before any file-system operation, whatever the other fields: the host
    is as it was, and nothing was added to its log.  Both files. *)
Theorem Install_user_service_not_supported
    (tf : FuncMap) (s : Config) (h : Host) :
  user_service s = true ->
  Part000.Install tf s h = Returned (Some errNoUserServiceSystemV) h
  /\ SysvLinux.Install tf s h = Returned (Some errNoUserServiceSystemV) h.
Proof.
  unfold user_service, Part000.Install, SysvLinux.Install, configPath.
  intros ->. split; reflexivity.
Qed.

Lemma Install_user_service_not_supported_witness :
  user_service demo_user = true
  /\ Part000.Install quoting_tf demo_user installed_host
     = Returned (Some errNoUserServiceSystemV) installed_host
  /\ SysvLinux.Install quoting_tf demo_user installed_host
     = Returned (Some errNoUserServiceSystemV) installed_host.
Proof.
  split; [reflexivity|].
  apply (Install_user_service_not_supported quoting_tf demo_user installed_host).
  reflexivity.
Defined.

(** ** The generated script *)

(** Whatever [cmd] is, that option holds the user name as it is. *)
Lemma redhat_user_option_raw (tf : FuncMap) (d : Data) (a : Ascii.ascii)
    (u : string) :
  get d FUserName = Some (String a u) ->
  execute_node tf d None redhat_user_option
  = Some ("--user=" +:+ String a u +:+ EmptyString).
Proof. intros H. unfold redhat_user_option. cbn. rewrite H. reflexivity. Qed.

(** C1, on the code.  In the Red-Hat branch of both templates the user
    name is printed without [cmd]; the Debian and LSB branches print no
    user-supplied value without it.  For [demo], whose user name is
    [nobody; reboot], the Red-Hat script holds the user name even when
    [cmd] erases what it is given, and with a quoting [cmd] it holds
    [--user=nobody; reboot] unquoted. *)
Theorem sysvScript_redhat_UserName_unquoted :
  unquoted_in "redhat" Part000.sysvScript = [OField FUserName]
  /\ unquoted_in "redhat" SysvLinux.sysvScript = [OField FUserName]
  /\ unquoted_in "debian" Part000.sysvScript = []
  /\ unquoted_in "lsb" Part000.sysvScript = []
  /\ unquoted_in "debian" SysvLinux.sysvScript = []
  /\ unquoted_in "lsb" SysvLinux.sysvScript = []
  /\ contains "--user=nobody; reboot "
       (generated erasing_tf Part000.sysvScript
          (Part000.fields (demo_to "redhat"))) = true
  /\ contains "--user=nobody; reboot "
       (generated quoting_tf Part000.sysvScript
          (Part000.fields (demo_to "redhat"))) = true
  /\ contains "--user=nobody; reboot "
       (generated quoting_tf SysvLinux.sysvScript
          (SysvLinux.fields (demo_to_legacy "redhat"))) = true
  /\ contains "nobody; reboot"
       (generated erasing_tf Part000.sysvScript
          (Part000.fields (demo_to "debian"))) = false
  /\ contains ("--chuid " +:+ cmd quoting_tf "nobody; reboot")
       (generated quoting_tf Part000.sysvScript
          (Part000.fields (demo_to "debian"))) = true.
Proof. repeat split; vm_compute; reflexivity. Qed.

Lemma execute_list_defined (exec1 : node -> option string) (l : list node) :
  Forall (fun n => is_Some (exec1 n)) l -> is_Some (execute_list exec1 l).
Proof.
  induction 1 as [|n rest [a Ha] _ [b Hb]]; simpl; [by eexists|].
  rewrite Ha, Hb. by eexists.
Qed.

Lemma execute_each_defined (body : string -> option string) (l : list string) :
  (forall x, is_Some (body x)) -> is_Some (execute_each body l).
Proof.
  intros H. induction l as [|x rest [b Hb]]; simpl; [by eexists|].
  destruct (H x) as [a Ha]. rewrite Ha, Hb. by eexists.
Qed.

Lemma execute_node_defined (tf : FuncMap) (d : Data) (n : node) :
  forall dot in_range,
    (in_range = true -> is_Some dot) ->
    node_defined d in_range n = true ->
    is_Some (execute_node tf d dot n).
Proof.
  induction n as [s|a| |c thens elses IHt IHe|l body IHb] using node_induction;
    intros dot in_range Hdot Hn; simpl in *.
  - by eexists.
  - destruct a as [o|o|l sep]; simpl in *.
    + destruct o; simpl in *; [by apply bool_decide_eq_true in Hn | by apply Hdot].
    + apply fmap_is_Some.
      destruct o; simpl in *; [by apply bool_decide_eq_true in Hn | by apply Hdot].
    + apply fmap_is_Some. by apply bool_decide_eq_true in Hn.
  - by eexists.
  - apply andb_true_iff in Hn as [Hn He]. apply andb_true_iff in Hn as [Hc Ht].
    assert (Hcond : is_Some (eval_condition d c)).
    { destruct c; simpl in *; apply fmap_is_Some;
        by apply bool_decide_eq_true in Hc. }
    destruct Hcond as [b ->].
    rewrite forallb_forall in Ht, He. rewrite Forall_forall in IHt, IHe.
    destruct b; apply execute_list_defined, Forall_forall; intros n Hin.
    + apply (IHt n Hin dot in_range Hdot), Ht. by apply list_elem_of_In.
    + apply (IHe n Hin dot in_range Hdot), He. by apply list_elem_of_In.
  - apply andb_true_iff in Hn as [Hl Hb].
    apply bool_decide_eq_true in Hl as [items ->].
    apply execute_each_defined. intros x.
    rewrite forallb_forall in Hb. rewrite Forall_forall in IHb.
    apply execute_list_defined, Forall_forall. intros n Hin.
    apply (IHb n Hin (Some x) true); [by eexists|].
    apply Hb. by apply list_elem_of_In.
Qed.

Lemma execute_defined (tf : FuncMap) (t : list node) (d : Data) :
  forallb (node_defined d false) t = true -> is_Some (execute tf t d).
Proof.
  intros H. apply execute_list_defined, Forall_forall. intros n Hin.
  apply (execute_node_defined tf d n None false); [discriminate|].
  rewrite forallb_forall in H. apply H. by apply list_elem_of_In.
Qed.

(** The two templates execute on the values [Install] makes. *)
Lemma Part000_sysvScript_executes (tf : FuncMap) (to : Part000.to_t) :
  is_Some (execute tf Part000.sysvScript (Part000.fields to)).
Proof. apply execute_defined. vm_compute. reflexivity. Qed.

Lemma SysvLinux_sysvScript_executes (tf : FuncMap) (to : SysvLinux.to_t) :
  is_Some (execute tf SysvLinux.sysvScript (SysvLinux.fields to)).
Proof. apply execute_defined. vm_compute. reflexivity. Qed.

(** ** The links of src/service_sysv_linux.go *)

(** [Uninstall] of src/service_sysv_linux.go touches the control script
    and nothing else. *)
Lemma SysvLinux_Uninstall_only_script (s : Config) (h : Host) :
  fs (final (SysvLinux.Uninstall s h)) = fs h
  \/ fs (final (SysvLinux.Uninstall s h)) = delete (confPath_of s) (fs h).
Proof.
  unfold SysvLinux.Uninstall, configPath, confPath_of.
  destruct (KeyValue_bool _ _ _); [by left|].
  unfold bind, os_Remove, syscall.
  destruct (fault h _); [by left|].
  destruct (fs h !! _); [by right | by left].
Qed.

(** C2, on the code.  On [lsb_host], [Install] then [Uninstall] of
    src/service_sysv_linux.go both succeed for [demo], the control script
    is gone, and the seven activation links that [Install] made are still
    there: the file system is not what it was. *)
Theorem SysvLinux_Uninstall_leaves_links :
  let h1 := final (SysvLinux.Install quoting_tf demo lsb_host) in
  let h2 := final (SysvLinux.Uninstall demo h1) in
  result (SysvLinux.Install quoting_tf demo lsb_host) = Some None
  /\ result (SysvLinux.Uninstall demo h1) = Some None
  /\ fs h2 !! confPath_of demo = None
  /\ links_to (confPath_of demo) (fs lsb_host) = ∅
  /\ links_to (confPath_of demo) (fs h2)
     = list_to_set (activation_links "/etc" "demo")
  /\ fs h2 <> fs lsb_host.
Proof.
  cbv zeta. repeat split; try (vm_compute; reflexivity).
  intros H.
  assert (E : fs (final (SysvLinux.Uninstall demo
                 (final (SysvLinux.Install quoting_tf demo lsb_host))))
              !! "/etc/rc2.d/S50demo" = fs lsb_host !! "/etc/rc2.d/S50demo")
    by (rewrite H; reflexivity).
  vm_compute in E. discriminate E.
Qed.

(** C3, on the code.  On [stale_host] the link /etc/rc2.d/S50demo is
    there already: [os.Symlink] reports EEXIST for it, and [Install] of
    src/service_sysv_linux.go goes on and returns nil.  [Install] of
    src/unnamed/part_000 returns the error. *)
Theorem SysvLinux_Install_swallows_Symlink_error :
  result (SysvLinux.Install quoting_tf demo stale_host) = Some None
  /\ symlink_calls (log (final (SysvLinux.Install quoting_tf demo stale_host)))
     = (confPath_of demo, "/etc/rc2.d/S50demo", Some (Errno EEXIST))
       :: map (fun p => (confPath_of demo, p, None))
            (tail (activation_links "/etc" "demo"))
  /\ result (Part000.Install quoting_tf demo stale_host)
     = Some (Some (Errorf "Failed to create startup link %s: %s"
                     [ArgString "/etc/rc2.d/S50demo";
                      ArgError (Errno EEXIST)])).
Proof. repeat split; vm_compute; reflexivity. Qed.

(** C9, on the code.  On [two_layouts_host] the directory /etc/rc.d
    exists, the runlevel directories are there under /etc/rc.d and under
    /etc, and no link tool is on the search path.  [Install] of
    src/service_sysv_linux.go makes its seven links under /etc all the
    same, and they are the links to the script that the file system has
    afterwards; [Install] of src/unnamed/part_000 makes them under
    /etc/rc.d. *)
Theorem SysvLinux_Install_links_flat :
  file_exists two_layouts_host "/etc/rc.d/"
  /\ ~ resolvable two_layouts_host "chkconfig"
  /\ ~ resolvable two_layouts_host "update-rc.d"
  /\ links_placed two_layouts_host "/etc" "demo"
  /\ links_placed two_layouts_host "/etc/rc.d" "demo"
  /\ result (SysvLinux.Install quoting_tf demo two_layouts_host) = Some None
  /\ symlink_calls
       (log (final (SysvLinux.Install quoting_tf demo two_layouts_host)))
     = map (fun p => (confPath_of demo, p, None)) (activation_links "/etc" "demo")
  /\ links_to (confPath_of demo)
       (fs (final (SysvLinux.Install quoting_tf demo two_layouts_host)))
     = list_to_set (activation_links "/etc" "demo")
  /\ result (Part000.Install quoting_tf demo two_layouts_host) = Some None
  /\ symlink_calls
       (log (final (Part000.Install quoting_tf demo two_layouts_host)))
     = map (fun p => (confPath_of demo, p, None))
         (activation_links "/etc/rc.d" "demo")
  /\ links_to (confPath_of demo)
       (fs (final (Part000.Install quoting_tf demo two_layouts_host)))
     = list_to_set (activation_links "/etc/rc.d" "demo")
  /\ activation_links "/etc" "demo" <> activation_links "/etc/rc.d" "demo".
Proof.
  split_and!; try (vm_compute; reflexivity); try discriminate.
  - intros p Hp. unfold activation_links in Hp. simpl in Hp.
    repeat (apply elem_of_cons in Hp as [->|Hp]; [reflexivity|]).
    by apply elem_of_nil in Hp.
  - intros p Hp. unfold activation_links in Hp. simpl in Hp.
    repeat (apply elem_of_cons in Hp as [->|Hp]; [reflexivity|]).
    by apply elem_of_nil in Hp.
Qed.

(** ** The existence check of [Install] *)

(** C6 as it is stated fails: a control script exists at /etc/init.d/demo
    on [installed_host], and [Install] of a definition with the
    user-service flag fails with the "not supported" error, not with
    "already exists". *)
Lemma Install_already_exists_counterexample :
  file_exists installed_host (confPath_of demo_user)
  /\ Part000.Install quoting_tf demo_user installed_host
     = Returned (Some errNoUserServiceSystemV) installed_host
  /\ SysvLinux.Install quoting_tf demo_user installed_host
     = Returned (Some errNoUserServiceSystemV) installed_host
  /\ errNoUserServiceSystemV <> already_exists demo_user.
Proof. repeat split; try reflexivity. discriminate. Qed.

Ltac count_log :=
  simpl; repeat rewrite count_calls_app; unfold count_calls; simpl; lia.

Ltac run_Install_to_Stat s h H :=
  unfold configPath, confPath_of, user_service, file_exists in *;
  destruct (KeyValue_bool (Option s) optionUserService optionUserServiceDefault);
  [ | unfold bind, execPath;
      destruct (executable h) as [path [e|]]; cbn [snd];
      [ | rewrite determineDistroFlavour_run; cbv zeta;
          rewrite ?stat_err_record, ?lookpath_err_record;
          destruct (is_nil (stat_err h rhFunctions)) eqn:Erh;
          [ | destruct (os_IsNotExist (stat_err h lsbFunctions)) eqn:Elsb;
              [ | destruct (is_nil (lookpath_err h "start-stop-daemon")) ] ];
          try (rewrite os_Stat_run, ?stat_err_record, H; cbn [is_nil]) ] ].

Lemma Part000_Install_refuses (tf : FuncMap) (s : Config) (h : Host) :
  file_exists h (confPath_of s) ->
  refuses_unchanged h (Part000.Install tf s h)
  /\ (user_service s = false -> snd (executable h) = None ->
      flavour_known h ->
      result (Part000.Install tf s h) = Some (Some (already_exists s))).
Proof.
  intros H. unfold refuses_unchanged, flavour_known, Part000.Install.
  run_Install_to_Stat s h H; unfold ret; cbn [final result fs log];
    (split; [split; [reflexivity | split; [count_log | discriminate]] | ]);
    intros U X F; try discriminate; try reflexivity.
  exfalso. unfold file_absent in F. apply is_nil_false in Erh. tauto.
Qed.

Lemma SysvLinux_Install_refuses (tf : FuncMap) (s : Config) (h : Host) :
  file_exists h (confPath_of s) ->
  refuses_unchanged h (SysvLinux.Install tf s h)
  /\ (user_service s = false -> snd (executable h) = None ->
      flavour_known h ->
      result (SysvLinux.Install tf s h) = Some (Some (already_exists s))).
Proof.
  intros H. unfold refuses_unchanged, flavour_known, SysvLinux.Install.
  run_Install_to_Stat s h H; unfold ret; cbn [final result fs log];
    (split; [split; [reflexivity | split; [count_log | discriminate]] | ]);
    intros U X F; try discriminate; try reflexivity.
  exfalso. unfold file_absent in F. apply is_nil_false in Erh. tauto.
Qed.

(** C6, amended.  On a host where a control script exists at
    /etc/init.d/<Name>, [Install] makes no change to the file system (no
    write, no chmod, no link creation, no command) and does not succeed;
    when the definition has no user-service flag, the executable path
    resolves and flavour detection returns, it fails with the "already
    exists" error.  Both files. *)
Theorem Install_already_exists (tf : FuncMap) (s : Config) (h : Host) :
  file_exists h (confPath_of s) ->
  (refuses_unchanged h (Part000.Install tf s h)
   /\ refuses_unchanged h (SysvLinux.Install tf s h))
  /\ (user_service s = false -> snd (executable h) = None ->
      flavour_known h ->
      result (Part000.Install tf s h) = Some (Some (already_exists s))
      /\ result (SysvLinux.Install tf s h) = Some (Some (already_exists s))).
Proof.
  intros H.
  destruct (Part000_Install_refuses tf s h H) as [A1 A2].
  destruct (SysvLinux_Install_refuses tf s h H) as [B1 B2].
  split; [by split|]. intros U X F. split; [by apply A2 | by apply B2].
Qed.

Lemma Install_already_exists_witness :
  file_exists installed_host (confPath_of demo)
  /\ (refuses_unchanged installed_host
        (Part000.Install quoting_tf demo installed_host)
      /\ refuses_unchanged installed_host
           (SysvLinux.Install quoting_tf demo installed_host))
  /\ result (Part000.Install quoting_tf demo installed_host)
     = Some (Some (already_exists demo))
  /\ result (SysvLinux.Install quoting_tf demo installed_host)
     = Some (Some (already_exists demo)).
Proof.
  assert (H : file_exists installed_host (confPath_of demo)) by reflexivity.
  split; [exact H|].
  destruct (Install_already_exists quoting_tf demo installed_host H) as [A B].
  split; [exact A|]. apply B; [reflexivity | reflexivity |].
  right. discriminate.
Defined.

(** ** No runlevel directory *)

Lemma manageSymlinks_no_rc_directory (s : Config) (confPath : string)
    (install : bool) (h : Host) :
  no_link_tool h -> no_rc_directory h ->
  exists h', Part000.manageSymlinks s confPath install h = Exited 1 h'
    /\ stderr h' = stderr h ++ [rcDiagnostic]
    /\ fs h' = fs h
    /\ exists t, log h' = log h ++ t
                 /\ forallb (fun entry => negb (mutating (fst entry))) t = true.
Proof.
  unfold no_link_tool, no_rc_directory, resolvable, file_exists, file_absent.
  intros [T1 T2] [D1 D2].
  apply is_nil_false in T1, T2, D1.
  unfold Part000.manageSymlinks, bind.
  rewrite exec_LookPath_run, T1.
  rewrite exec_LookPath_run, lookpath_err_record, T2.
  unfold ret. rewrite os_Stat_run, !stat_err_record, D1.
  change ("/etc" +:+ "/rc0.d") with "/etc/rc0.d".
  rewrite os_Stat_run, !stat_err_record, D2.
  eexists. split; [reflexivity|]. split; [reflexivity|]. split; [reflexivity|].
  eexists. split; [simpl; rewrite <- ?app_assoc; reflexivity | reflexivity].
Qed.

(** Two paths that differ at a character of their fixed parts. *)
Ltac paths_differ :=
  let E := fresh "E" in
  unfold confPath_of; intros E; vm_compute in E; discriminate E.

(** C10.  In the symlink-management fallback (no chkconfig and no
    update-rc.d on the search path), when /etc/rc.d does not exist and
    /etc/rc0.d does not exist either, [Uninstall] and [Install] of
    src/unnamed/part_000 terminate the process (status 1) with a
    diagnostic on the error stream and return nothing to the caller:
    [Uninstall] at once, [Install] once the script is written. *)
Theorem no_rc_directory_terminates (tf : FuncMap) (s : Config) (h : Host) :
  no_link_tool h -> no_rc_directory h -> user_service s = false ->
  exits_with_rcDiagnostic h (Part000.Uninstall s h)
  /\ (snd (executable h) = None -> flavour_known h -> script_writable h s ->
      exits_with_rcDiagnostic h (Part000.Install tf s h)).
Proof.
  intros T D U. unfold exits_with_rcDiagnostic. split.
  - unfold Part000.Uninstall, configPath. unfold user_service in U. rewrite U.
    unfold bind.
    destruct (manageSymlinks_no_rc_directory s ("/etc/init.d/" +:+ Name s)
                false h T D) as (h' & -> & E & _).
    eauto.
  - intros X F (S1 & S2 & S3 & S4 & S5).
    assert (exists flavour hf,
              determineDistroFlavour (record CExecPath None h)
              = Returned flavour hf
              /\ fs hf = fs h /\ (forall c, fault hf c = fault h c)
              /\ stderr hf = stderr h
              /\ search_path hf = search_path h) as (flavour & hf & Ef & Hfs & Hfault & Herr & Hsp).
    { rewrite determineDistroFlavour_run. cbv zeta.
      rewrite ?stat_err_record, ?lookpath_err_record.
      destruct F as [F|F].
      - unfold file_exists in F. rewrite F. simpl. eauto 10.
      - destruct (is_nil (stat_err h rhFunctions)); [simpl; by eauto 10|].
        unfold file_absent in F. apply not_true_is_false in F. rewrite F.
        destruct (is_nil (lookpath_err h _)); simpl; eauto 10. }
    unfold Part000.Install, configPath. unfold user_service in U. rewrite U.
    fold (confPath_of s) in *.
    unfold bind at 1. unfold execPath.
    destruct (executable h) as [path err]. simpl in X. subst err. cbn [snd].
    unfold bind at 1. rewrite Ef.
    match goal with |- context [execute tf Part000.sysvScript (Part000.fields ?to)] =>
      destruct (Part000_sysvScript_executes tf to) as [text ->] end.
    assert (Sf : stat_err hf (confPath_of s) = stat_err h (confPath_of s)).
    { unfold stat_err. by rewrite Hfault, Hfs. }
    unfold file_exists in S1. apply is_nil_false in S1.
    unfold bind at 1. rewrite os_Stat_run, Sf, S1.
    unfold bind at 1. rewrite os_Create_new; [|simpl; congruence..].
    unfold defer. unfold bind at 1. unfold bind at 1. unfold bind at 1.
    erewrite file_Write_file;
      [|simpl; rewrite Hfault; apply S4 | simpl; apply lookup_insert_eq].
    unfold bind at 1.
    erewrite os_Chmod_file;
      [|simpl; rewrite Hfault; apply S5 | simpl; apply lookup_insert_eq].
    match goal with |- context [Part000.manageSymlinks s _ true ?h0] =>
      destruct (manageSymlinks_no_rc_directory s (confPath_of s) true h0)
        as (h' & -> & E & _) end.
    + destruct T as [T1 T2]. split.
      * unfold resolvable, lookpath_err in *. simpl. by rewrite Hfault, Hsp.
      * unfold resolvable, lookpath_err in *. simpl. by rewrite Hfault, Hsp.
    + destruct D as [D1 D2].
      unfold no_rc_directory, file_exists, file_absent, stat_err in *.
      simpl. rewrite !Hfault.
      rewrite !stat_fs_insert_ne, Hfs by paths_differ. by split.
    + eexists. split; [reflexivity|]. rewrite E. simpl. by rewrite Herr.
Qed.

Lemma no_rc_directory_terminates_witness :
  exits_with_rcDiagnostic no_rc_host (Part000.Uninstall demo no_rc_host)
  /\ exits_with_rcDiagnostic no_rc_host
       (Part000.Install quoting_tf demo no_rc_host).
Proof.
  assert (T : no_link_tool no_rc_host) by (split; discriminate).
  assert (D : no_rc_directory no_rc_host) by (split; [discriminate | reflexivity]).
  destruct (no_rc_directory_terminates quoting_tf demo no_rc_host T D eq_refl)
    as [A B].
  split; [exact A|]. apply B.
  - reflexivity.
  - right. discriminate.
  - repeat split; try reflexivity. discriminate.
Defined.

(** ** The link loops of [manageSymlinks] *)

Lemma os_Symlink_cases oldname newname h :
  (exists e,
     os_Symlink oldname newname h
     = Returned (Some e) (record (CSymlink oldname newname) (Some e) h))
  \/ (fault h (CSymlink oldname newname) = None
      /\ fs h !! dirname newname = Some Dir
      /\ fs h !! newname = None
      /\ os_Symlink oldname newname h
         = Returned None
             (record (CSymlink oldname newname) None
                (set_fs (<[newname := Link oldname]> (fs h)) h))).
Proof.
  unfold os_Symlink, syscall.
  destruct (fault h _) as [e|]; [left; by eexists|].
  destruct (fs h !! dirname newname) as [[| |]|]; try (left; by eexists).
  destruct (fs h !! newname); [left; by eexists|]. by right.
Qed.

Lemma make_links_run (confPath format : string) (paths : list string) :
  forall h, exists r h' done,
    for_range paths (make_link confPath format) h = Returned r h'
    /\ env h' = env h
    /\ loop_ended (CSymlink confPath) format paths h r h' done
    /\ NoDup done
    /\ (forall p, p ∈ done -> fs h !! p = None)
    /\ (forall k, fs h' !! k
                  = if decide (k ∈ done) then Some (Link confPath)
                    else fs h !! k).
Proof.
  induction paths as [|p rest IH]; intros h.
  - exists None, h, []. split_and!; try done.
    + split; [done|]. unfold succeeded. simpl. by rewrite app_nil_r.
    + constructor.
    + intros p Hp. by apply elem_of_nil in Hp.
  - simpl. unfold bind at 1. unfold make_link at 1. unfold bind at 1.
    destruct (os_Symlink_cases confPath p h) as [[e ->]|(F & D & L & ->)].
    { exists (Some (Errorf format [ArgString p; ArgError e])),
        (record (CSymlink confPath p) (Some e) h), [].
      split_and!; try done.
      - exists p, e, rest. by split_and!.
      - constructor.
      - intros q Hq. by apply elem_of_nil in Hq. }
    unfold ret at 1.
    destruct (IH (record (CSymlink confPath p) None
                    (set_fs (<[p:=Link confPath]> (fs h)) h)))
      as (r & h' & done & E & Henv & Hend & Hnd & Habs & Hfs).
    exists r, h', (p :: done). rewrite E. simpl in *.
    assert (Hp : p ∉ done).
    { intros Hin. specialize (Habs p Hin). by rewrite lookup_insert_eq in Habs. }
    split_and!; try done.
    + destruct r as [e'|].
      * destruct Hend as (q & e & rest' & -> & -> & Hlog).
        exists q, e, rest'. split_and!; try done.
        rewrite Hlog. unfold succeeded. simpl. by rewrite <- !app_assoc.
      * destruct Hend as [-> Hlog]. split; [done|].
        rewrite Hlog. unfold succeeded. simpl. by rewrite <- !app_assoc.
    + by constructor.
    + intros q Hq. apply elem_of_cons in Hq as [->|Hq]; [done|].
      specialize (Habs q Hq). apply lookup_insert_None in Habs. tauto.
    + intros k. rewrite Hfs.
      destruct (decide (k ∈ done)) as [Hk|Hk].
      * rewrite decide_True; [done | by apply elem_of_cons; right].
      * destruct (decide (k = p)) as [->|Hkp].
        -- rewrite decide_True; [by rewrite lookup_insert_eq | by apply elem_of_cons; left].
        -- rewrite decide_False, lookup_insert_ne; [done | done |].
           intros Hin. apply elem_of_cons in Hin as [?|?]; done.
Qed.

Lemma remove_links_run (format : string) (paths : list string) :
  forall h, exists r h' done,
    for_range paths (remove_link format) h = Returned r h'
    /\ env h' = env h
    /\ loop_ended CRemove format paths h r h' done
    /\ (forall k, fs h' !! k
                  = if decide (k ∈ done) then None else fs h !! k).
Proof.
  induction paths as [|p rest IH]; intros h.
  - exists None, h, []. split_and!; try done.
    split; [done|]. unfold succeeded. simpl. by rewrite app_nil_r.
  - simpl. unfold bind at 1. unfold remove_link at 1. unfold bind at 1.
    unfold os_Remove, syscall.
    destruct (fault h (CRemove p)) as [e|] eqn:F.
    { exists (Some (Errorf format [ArgString p; ArgError e])),
        (record (CRemove p) (Some e) h), [].
      split_and!; try done.
      exists p, e, rest. by split_and!. }
    destruct (fs h !! p) as [n|] eqn:L.
    2:{ exists (Some (Errorf format [ArgString p; ArgError (Errno ENOENT)])),
          (record (CRemove p) (Some (Errno ENOENT)) h), [].
        split_and!; try done.
        exists p, (Errno ENOENT), rest. by split_and!. }
    unfold ret at 1.
    destruct (IH (record (CRemove p) None (set_fs (delete p (fs h)) h)))
      as (r & h' & done & E & Henv & Hend & Hfs).
    exists r, h', (p :: done). rewrite E. simpl in *.
    split_and!; try done.
    + destruct r as [e'|].
      * destruct Hend as (q & e & rest' & -> & -> & Hlog).
        exists q, e, rest'. split_and!; try done.
        rewrite Hlog. unfold succeeded. simpl. by rewrite <- !app_assoc.
      * destruct Hend as [-> Hlog]. split; [done|].
        rewrite Hlog. unfold succeeded. simpl. by rewrite <- !app_assoc.
    + intros k. rewrite Hfs.
      destruct (decide (k ∈ done)) as [Hk|Hk].
      * rewrite decide_True; [done | by apply elem_of_cons; right].
      * destruct (decide (k = p)) as [->|Hkp].
        -- rewrite decide_True; [by rewrite lookup_delete_eq | by apply elem_of_cons; left].
        -- rewrite decide_False, lookup_delete_ne; [done | done |].
           intros Hin. apply elem_of_cons in Hin as [?|?]; done.
Qed.

Lemma activation_links_start_stop base name :
  activation_links base name = start_links base name ++ stop_links base name.
Proof. reflexivity. Qed.

Lemma manageSymlinks_direct (s : Config) (confPath : string) (install : bool)
    (h : Host) (base : string) :
  no_link_tool h -> rc_base h = Some base ->
  exists hp,
    Part000.manageSymlinks s confPath install h
    = link_loops s confPath install base hp
    /\ env hp = env h /\ fs hp = fs h
    /\ log hp = log h ++ link_probes h.
Proof.
  unfold no_link_tool, resolvable, rc_base, link_probes.
  intros [T1 T2] B. apply is_nil_false in T1, T2.
  unfold Part000.manageSymlinks, link_loops, bind.
  rewrite exec_LookPath_run, T1.
  rewrite exec_LookPath_run, lookpath_err_record, T2. unfold ret at 1.
  rewrite os_Stat_run, !stat_err_record.
  destruct (is_nil (stat_err h "/etc/rc.d/")).
  - injection B as <-. unfold ret at 1. eexists. split.
    + destruct install; reflexivity.
    + split_and!; try reflexivity. simpl. by rewrite <- !app_assoc.
  - change ("/etc" +:+ "/rc0.d") with "/etc/rc0.d".
    rewrite os_Stat_run, !stat_err_record.
    destruct (os_IsNotExist (stat_err h "/etc/rc0.d")); [discriminate|].
    injection B as <-. unfold ret at 1. eexists. split.
    + destruct install; reflexivity.
    + split_and!; try reflexivity. simpl. by rewrite <- !app_assoc.
Qed.

Lemma link_loops_install (s : Config) (confPath base : string) (h : Host) :
  exists r h' done,
    link_loops s confPath true base h = Returned r h'
    /\ env h' = env h
    /\ links_ended (CSymlink confPath) (activation_links base (Name s))
         h r h' done
    /\ NoDup done
    /\ (forall p, p ∈ done -> fs h !! p = None)
    /\ (forall k, fs h' !! k
                  = if decide (k ∈ done) then Some (Link confPath)
                    else fs h !! k).
Proof.
  unfold link_loops, bind at 1.
  destruct (make_links_run confPath "Failed to create startup link %s: %s"
              (start_links base (Name s)) h)
    as (r1 & h1 & done1 & E1 & Henv1 & Hend1 & Hnd1 & Habs1 & Hfs1).
  rewrite E1. destruct r1 as [e1|].
  - exists (Some e1), h1, done1. split_and!; try done.
    destruct Hend1 as (p & e & rest & Hp & -> & Hlog).
    exists p, e, (rest ++ stop_links base (Name s)). eexists.
    split_and!; [|reflexivity|done].
    rewrite activation_links_start_stop, Hp. by rewrite <- app_assoc.
  - destruct Hend1 as [-> Hlog1].
    destruct (make_links_run confPath "Failed to create shutdown link %s: %s"
                (stop_links base (Name s)) h1)
      as (r2 & h2 & done2 & E2 & Henv2 & Hend2 & Hnd2 & Habs2 & Hfs2).
    exists r2, h2, (start_links base (Name s) ++ done2).
    rewrite E2. split_and!; try done.
    + congruence.
    + destruct r2 as [e2|].
      * destruct Hend2 as (p & e & rest & Hp & -> & Hlog).
        exists p, e, rest. eexists. split_and!; [|reflexivity|].
        -- rewrite activation_links_start_stop, Hp. by rewrite <- app_assoc.
        -- rewrite Hlog, Hlog1, succeeded_app. by rewrite <- !app_assoc.
      * destruct Hend2 as [-> Hlog].
        split; [by rewrite activation_links_start_stop|].
        rewrite Hlog, Hlog1, activation_links_start_stop, succeeded_app.
        by rewrite <- !app_assoc.
    + apply NoDup_app. split_and!; try done.
      intros p Hp1 Hp2. specialize (Habs2 p Hp2).
      rewrite Hfs1, decide_True in Habs2; done.
    + intros p Hp. apply elem_of_app in Hp as [Hp|Hp]; [by apply Habs1|].
      specialize (Habs2 p Hp). rewrite Hfs1 in Habs2.
      by destruct (decide (p ∈ start_links base (Name s))).
    + intros k. rewrite Hfs2, Hfs1.
      destruct (decide (k ∈ done2)) as [Hk|Hk].
      * rewrite decide_True; [done | apply elem_of_app; by right].
      * destruct (decide (k ∈ start_links base (Name s))) as [Hk1|Hk1].
        -- rewrite decide_True; [done | apply elem_of_app; by left].
        -- rewrite decide_False; [done|].
           intros Hin. apply elem_of_app in Hin as [?|?]; done.
Qed.

Lemma link_loops_uninstall (s : Config) (confPath base : string) (h : Host) :
  exists r h' done,
    link_loops s confPath false base h = Returned r h'
    /\ env h' = env h
    /\ links_ended CRemove (activation_links base (Name s)) h r h' done
    /\ (forall k, fs h' !! k
                  = if decide (k ∈ done) then None else fs h !! k).
Proof.
  unfold link_loops, bind at 1.
  destruct (remove_links_run "Failed to remove startup link %s: %s"
              (start_links base (Name s)) h)
    as (r1 & h1 & done1 & E1 & Henv1 & Hend1 & Hfs1).
  rewrite E1. destruct r1 as [e1|].
  - exists (Some e1), h1, done1. split_and!; try done.
    destruct Hend1 as (p & e & rest & Hp & -> & Hlog).
    exists p, e, (rest ++ stop_links base (Name s)). eexists.
    split_and!; [|reflexivity|done].
    rewrite activation_links_start_stop, Hp. by rewrite <- app_assoc.
  - destruct Hend1 as [-> Hlog1].
    destruct (remove_links_run "Failed to remove shutdown link %s: %s"
                (stop_links base (Name s)) h1)
      as (r2 & h2 & done2 & E2 & Henv2 & Hend2 & Hfs2).
    exists r2, h2, (start_links base (Name s) ++ done2).
    rewrite E2. split_and!; try done.
    + congruence.
    + destruct r2 as [e2|].
      * destruct Hend2 as (p & e & rest & Hp & -> & Hlog).
        exists p, e, rest. eexists. split_and!; [|reflexivity|].
        -- rewrite activation_links_start_stop, Hp. by rewrite <- app_assoc.
        -- rewrite Hlog, Hlog1, succeeded_app. by rewrite <- !app_assoc.
      * destruct Hend2 as [-> Hlog].
        split; [by rewrite activation_links_start_stop|].
        rewrite Hlog, Hlog1, activation_links_start_stop, succeeded_app.
        by rewrite <- !app_assoc.
    + intros k. rewrite Hfs2, Hfs1.
      destruct (decide (k ∈ done2)) as [Hk|Hk].
      * rewrite decide_True; [done | apply elem_of_app; by right].
      * destruct (decide (k ∈ start_links base (Name s))) as [Hk1|Hk1].
        -- rewrite decide_True; [done | apply elem_of_app; by left].
        -- rewrite decide_False; [done|].
           intros Hin. apply elem_of_app in Hin as [?|?]; done.
Qed.

(** ** A successful [Install] of src/unnamed/part_000 *)

Lemma rc_d_not_link base name :
  base = "/etc/rc.d" \/ base = "/etc" ->
  ("/etc/rc.d" ∉ activation_links base name)
  /\ ("/etc/rc0.d" ∉ activation_links base name)
  /\ ("/etc/init.d/" +:+ name ∉ activation_links base name).
Proof.
  intros [-> | ->]; split_and!; intros Hin;
    repeat (apply elem_of_cons in Hin as [E|Hin];
            [vm_compute in E; discriminate E|]);
    by apply elem_of_nil in Hin.
Qed.

Lemma rc_base_cases h base :
  rc_base h = Some base -> base = "/etc/rc.d" \/ base = "/etc".
Proof.
  unfold rc_base. destruct (is_nil _); [intros [= <-]; by left|].
  destruct (os_IsNotExist _); [discriminate|]. intros [= <-]. by right.
Qed.

Lemma rc_base_stable h h' :
  env h' = env h ->
  fs h' !! "/etc/rc.d" = fs h !! "/etc/rc.d" ->
  fs h' !! "/etc/rc0.d" = fs h !! "/etc/rc0.d" ->
  rc_base h' = rc_base h.
Proof.
  intros E F1 F2. unfold rc_base.
  rewrite (env_stat_err h h' "/etc/rc.d/" E F1).
  by rewrite (env_stat_err h h' "/etc/rc0.d" E F2).
Qed.

Lemma no_link_tool_stable h h' : env h' = env h -> no_link_tool h -> no_link_tool h'.
Proof.
  intros E. unfold no_link_tool, resolvable.
  by rewrite !(env_lookpath_err h h' _ E).
Qed.

Lemma defer_file_Close (path : string) (body : M goerror) (h : Host) :
  defer (file_Close path) body h
  = match body h with
    | Returned r h' =>
        Returned r (record (CClose path) (fault h' (CClose path)) h')
    | Exited code h' => Exited code h'
    | Blocked h' => Blocked h'
    | Killed sg h' => Killed sg h'
    end.
Proof.
  unfold defer, bind.
  destruct (body h) as [r h'|code h'|h'|sg h']; try reflexivity.
  unfold file_Close, syscall. by destruct (fault h' (CClose path)).
Qed.

Lemma rc_base_None h :
  rc_base h = None -> no_rc_directory h.
Proof.
  unfold rc_base, no_rc_directory, file_exists, file_absent.
  destruct (is_nil _) eqn:E1; [discriminate|].
  destruct (os_IsNotExist _) eqn:E2; [|discriminate].
  intros _. split; [by apply is_nil_false | done].
Qed.

(** The script is written: what [Install] did between the existence
    check and the links, when it got that far. *)
Lemma script_written (s : Config) (text : string) (k : M goerror)
    (h : Host) (r : goerror) (h' : Host) :
  (err <- os_Create (confPath_of s) ;;
   match err with
   | Some e => ret (Some e)
   | None =>
       defer (file_Close (confPath_of s))
         (err <- file_Write (confPath_of s) text ;;
          match err with
          | Some e => ret (Some e)
          | None =>
              err <- os_Chmod (confPath_of s) 493 ;;
              match err with
              | Some e => ret (Some e)
              | None => k
              end
          end)
   end) h = Returned r h' ->
  (exists e, r = Some e)
  \/ exists hm hk,
       k hm = Returned r hk
       /\ h' = record (CClose (confPath_of s)) (fault hk (CClose (confPath_of s))) hk
       /\ env hm = env h
       /\ fs hm = <[confPath_of s := File text 493%N]> (fs h)
       /\ log hm = log h ++ [(CCreate (confPath_of s), None);
                             (CExecute (confPath_of s) text, None);
                             (CChmod (confPath_of s) 493, None)].
Proof.
  unfold bind at 1. unfold os_Create, syscall.
  destruct (fault h (CCreate _)); [intros [= <- _]; left; by eexists|].
  destruct (fs h !! confPath_of s) as [[|c m|l]|] eqn:L;
    try (intros [= <- _]; left; by eexists).
  - rewrite defer_file_Close. unfold bind at 1. unfold file_Write, syscall.
    cbn [fault record set_fs set_log fs].
    destruct (fault h (CExecute _ _)); [intros [= <- _]; left; by eexists|].
    rewrite lookup_insert_eq. unfold bind at 1. unfold os_Chmod, syscall.
    cbn [fault record set_fs set_log fs].
    destruct (fault h (CChmod _ _)); [intros [= <- _]; left; by eexists|].
    rewrite lookup_insert_eq. rewrite !insert_insert_eq.
    match goal with |- context [k ?h0] => set (hm := h0) end.
    destruct (k hm) as [r0 hk|code hk|hk|sg hk] eqn:K; try discriminate.
    intros [= -> <-]. right. exists hm, hk. split_and!; try done. log_eq.
  - rewrite defer_file_Close. unfold bind at 1. unfold file_Write, syscall.
    cbn [fault record set_fs set_log fs].
    destruct (fault h (CExecute _ _)); [intros [= <- _]; left; by eexists|].
    rewrite lookup_insert_eq. unfold bind at 1. unfold os_Chmod, syscall.
    cbn [fault record set_fs set_log fs].
    destruct (fault h (CChmod _ _)); [intros [= <- _]; left; by eexists|].
    rewrite lookup_insert_eq. rewrite !insert_insert_eq.
    match goal with |- context [k ?h0] => set (hm := h0) end.
    destruct (k hm) as [r0 hk|code hk|hk|sg hk] eqn:K; try discriminate.
    intros [= -> <-]. right. exists hm, hk. split_and!; try done. log_eq.
Qed.

Lemma symlink_calls_app a b :
  symlink_calls (a ++ b) = symlink_calls a ++ symlink_calls b.
Proof. unfold symlink_calls. by rewrite flat_map_app. Qed.

Lemma symlink_calls_quiet t : quiet t = true -> symlink_calls t = [].
Proof.
  induction t as [|[c e] t IH]; [done|]. simpl.
  intros H. apply andb_true_iff in H as [Hc Ht]. rewrite (IH Ht).
  by destruct c.
Qed.

Lemma symlink_calls_succeeded confPath paths :
  symlink_calls (succeeded (CSymlink confPath) paths)
  = map (fun p => (confPath, p, None)) paths.
Proof. induction paths as [|p rest IH]; [done|]. simpl. by rewrite <- IH. Qed.

(** What a successful [Install] did, when no link tool is on the search
    path: the script is a file of mode 0755 holding the generated text,
    and the links are the activation links under the base. *)
Lemma Part000_Install_direct (tf : FuncMap) (s : Config) (h h1 : Host) :
  no_link_tool h ->
  Part000.Install tf s h = Returned None h1 ->
  exists base text t0 t1,
    user_service s = false
    /\ rc_base h = Some base
    /\ env h1 = env h
    /\ NoDup (activation_links base (Name s))
    /\ (forall p, p ∈ activation_links base (Name s) -> fs h !! p = None)
    /\ (forall k, fs h1 !! k
          = if decide (k ∈ activation_links base (Name s))
            then Some (Link (confPath_of s))
            else if decide (k = confPath_of s) then Some (File text 493%N)
            else fs h !! k)
    /\ log h1 = log h ++ t0
                ++ succeeded (CSymlink (confPath_of s))
                     (activation_links base (Name s))
                ++ t1
    /\ symlink_calls t0 = [] /\ symlink_calls t1 = [].
Proof.
  intros T. unfold Part000.Install, configPath, user_service.
  destruct (KeyValue_bool _ _ _); [discriminate|].
  fold (confPath_of s).
  unfold bind at 1. unfold execPath.
  destruct (executable h) as [path [e|]] eqn:X; [discriminate|]. cbn [snd].
  unfold bind at 1.
  destruct (determineDistroFlavour_cases (record CExecPath None h))
    as [(flavour & hf & tf0 & -> & Hfs & Henv & Hlog & Hq)
       |(hf & tf0 & -> & _)]; [|discriminate].
  match goal with |- context [execute tf Part000.sysvScript (Part000.fields ?to)] =>
    destruct (Part000_sysvScript_executes tf to) as [text ->] end.
  unfold bind at 1. rewrite os_Stat_run.
  destruct (is_nil (stat_err hf (confPath_of s))); [discriminate|].
  intros E. apply script_written in E as [[e [=]]|(hm & hk & K & -> & Em & Fm & Lm)].
  rewrite env_record in Henv, Em. simpl in Hfs, Hlog, Fm, Lm.
  assert (Envm : env hm = env h) by (by rewrite Em, Henv).
  assert (Tm : no_link_tool hm) by (by apply (no_link_tool_stable h)).
  assert (Bm : rc_base hm = rc_base h).
  { apply rc_base_stable; [done|..];
      by rewrite Fm, lookup_insert_ne, Hfs by paths_differ. }
  destruct (rc_base h) as [base|] eqn:B.
  2:{ apply rc_base_None in Bm.
      destruct (manageSymlinks_no_rc_directory s (confPath_of s) true hm Tm Bm)
        as (h' & K' & _). congruence. }
  destruct (manageSymlinks_direct s (confPath_of s) true hm base Tm Bm)
    as (hp & Kp & Envp & Fp & Lp).
  rewrite Kp in K.
  destruct (link_loops_install s (confPath_of s) base hp)
    as (r & h' & done & K' & Env' & Hend & Hnd & Habs & Hfs').
  rewrite K' in K. injection K as -> <-.
  destruct Hend as [-> Hlog'].
  destruct (rc_d_not_link base (Name s) (rc_base_cases h base B))
    as (_ & _ & Ncp).
  fold (confPath_of s) in Ncp.
  exists base, text,
    ((CExecPath, None) :: tf0
     ++ [(CStat (confPath_of s), stat_err hf (confPath_of s));
         (CCreate (confPath_of s), None);
         (CExecute (confPath_of s) text, None);
         (CChmod (confPath_of s) 493%N, None)]
     ++ link_probes hm),
    [(CClose (confPath_of s), fault h' (CClose (confPath_of s)))].
  split_and!; try done.
  - by rewrite env_record, Env', Envp.
  - intros p Hp. specialize (Habs p Hp).
    rewrite Fp, Fm, lookup_insert_ne, Hfs in Habs; [done|].
    intros <-. done.
  - intros k. simpl. rewrite Hfs'.
    destruct (decide (k ∈ activation_links base (Name s))); [done|].
    rewrite Fp, Fm. destruct (decide (k = confPath_of s)) as [->|Hk].
    + by rewrite lookup_insert_eq.
    + by rewrite lookup_insert_ne, Hfs.
  - simpl. rewrite Hlog', Lp, Lm, Hlog. simpl. by rewrite <- !app_assoc.
  - simpl. rewrite !symlink_calls_app, (symlink_calls_quiet _ Hq).
    unfold link_probes. by destruct (is_nil _).
Qed.

(** X2.  The direct links of src/unnamed/part_000 are the activation links:
    when no link tool is on the search path and [Install] succeeds, the
    links it asked for are <base>/rc<N>.d/S50<Name> for N = 2, 3, 4, 5 and
    <base>/rc<N>.d/K02<Name> for N = 0, 1, 6, in this order and no other,
    each made anew, where <base> is /etc/rc.d when that directory exists
    and /etc otherwise; nothing but the script and these links changed. *)
Theorem Part000_Install_activation_links
    (tf : FuncMap) (s : Config) (h h1 : Host) :
  no_link_tool h ->
  Part000.Install tf s h = Returned None h1 ->
  exists base t,
    (file_exists h "/etc/rc.d/" -> base = "/etc/rc.d")
    /\ (~ file_exists h "/etc/rc.d/" -> base = "/etc")
    /\ log h1 = log h ++ t
    /\ symlink_calls t
       = map (fun p => (confPath_of s, p, None))
           (activation_links base (Name s))
    /\ (forall p, p ∈ activation_links base (Name s) ->
          fs h !! p = None /\ fs h1 !! p = Some (Link (confPath_of s)))
    /\ (forall k, k ∉ activation_links base (Name s) -> k <> confPath_of s ->
          fs h1 !! k = fs h !! k).
Proof.
  intros T E.
  destruct (Part000_Install_direct tf s h h1 T E)
    as (base & text & t0 & t1 & _ & B & _ & _ & Habs & Hfs & Hlog & H0 & H1).
  exists base, (t0 ++ succeeded (CSymlink (confPath_of s))
                        (activation_links base (Name s)) ++ t1).
  split_and!.
  - unfold file_exists. intros F. unfold rc_base in B. rewrite F in B.
    simpl in B. congruence.
  - unfold file_exists. intros F. apply is_nil_false in F.
    unfold rc_base in B. rewrite F in B.
    destruct (os_IsNotExist _); congruence.
  - done.
  - rewrite !symlink_calls_app, H0, H1, symlink_calls_succeeded.
    by rewrite app_nil_r.
  - intros p Hp. split; [by apply Habs|]. by rewrite Hfs, decide_True.
  - intros k Hk Hcp. by rewrite Hfs, !decide_False.
Qed.

Lemma Part000_Install_activation_links_witness :
  exists base t,
    (file_exists redhat_host "/etc/rc.d/" -> base = "/etc/rc.d")
    /\ (~ file_exists redhat_host "/etc/rc.d/" -> base = "/etc")
    /\ log (final (Part000.Install quoting_tf demo redhat_host))
       = log redhat_host ++ t
    /\ symlink_calls t
       = map (fun p => (confPath_of demo, p, None))
           (activation_links base (Name demo))
    /\ (forall p, p ∈ activation_links base (Name demo) ->
          fs redhat_host !! p = None
          /\ fs (final (Part000.Install quoting_tf demo redhat_host)) !! p
             = Some (Link (confPath_of demo)))
    /\ (forall k, k ∉ activation_links base (Name demo) ->
          k <> confPath_of demo ->
          fs (final (Part000.Install quoting_tf demo redhat_host)) !! k
          = fs redhat_host !! k).
Proof.
  apply (Part000_Install_activation_links quoting_tf demo redhat_host).
  - split; discriminate.
  - vm_compute. reflexivity.
Defined.

(** X3.  [Install] then [Uninstall] of src/unnamed/part_000 restore the file
    system: when no link tool is on the search path, no script is there
    before, and both succeed, the file system after [Uninstall] is the
    file system before [Install]. *)
Theorem Part000_Install_Uninstall_restores
    (tf : FuncMap) (s : Config) (h h1 h2 : Host) :
  no_link_tool h ->
  fs h !! confPath_of s = None ->
  Part000.Install tf s h = Returned None h1 ->
  Part000.Uninstall s h1 = Returned None h2 ->
  fs h2 = fs h.
Proof.
  intros T Hcp E1 E2.
  destruct (Part000_Install_direct tf s h h1 T E1)
    as (base & text & t0 & t1 & U & B & Env1 & _ & Habs & Hfs & _).
  destruct (rc_d_not_link base (Name s) (rc_base_cases h base B))
    as (N1 & N2 & N3).
  fold (confPath_of s) in N3.
  assert (T1 : no_link_tool h1) by (by apply (no_link_tool_stable h)).
  assert (B1 : rc_base h1 = Some base).
  { rewrite <- B. apply rc_base_stable; [done|..];
      by rewrite Hfs, !decide_False by (done || paths_differ). }
  revert E2. unfold Part000.Uninstall, configPath.
  unfold user_service in U. rewrite U. fold (confPath_of s).
  unfold bind at 1.
  destruct (manageSymlinks_direct s (confPath_of s) false h1 base T1 B1)
    as (hp & -> & Envp & Fp & _).
  destruct (link_loops_uninstall s (confPath_of s) base hp)
    as (r & h' & done & -> & _ & Hend & Hfs').
  destruct r as [e|]; [discriminate|]. destruct Hend as [-> _].
  unfold os_Remove, syscall. destruct (fault h' _); [discriminate|].
  destruct (fs h' !! confPath_of s); [|discriminate].
  intros [= <-]. simpl. apply map_eq. intros k.
  destruct (decide (k = confPath_of s)) as [->|Hk].
  { by rewrite lookup_delete_eq. }
  rewrite lookup_delete_ne, Hfs', Fp, Hfs by done.
  destruct (decide (k ∈ activation_links base (Name s))) as [Hin|Hin].
  - symmetry. by apply Habs.
  - by rewrite decide_False.
Qed.

Lemma Part000_Install_Uninstall_restores_witness :
  fs (final (Part000.Uninstall demo
               (final (Part000.Install quoting_tf demo lsb_host))))
  = fs lsb_host.
Proof.
  apply (Part000_Install_Uninstall_restores quoting_tf demo lsb_host
           (final (Part000.Install quoting_tf demo lsb_host))).
  - split; discriminate.
  - reflexivity.
  - vm_compute. reflexivity.
  - vm_compute. reflexivity.
Defined.

(** ** Failures of the steps are returned *)

Lemma first_failure_quiet t : quiet t = true -> first_failure t = None.
Proof.
  induction t as [|[c [e|]] t IH]; simpl; [done|..];
    intros H; apply andb_true_iff in H as [Hc Ht]; [|by apply IH].
  apply negb_true_iff in Hc. rewrite Hc. by apply IH.
Qed.

Lemma first_failure_app_None t1 t2 :
  first_failure t1 = None -> first_failure (t1 ++ t2) = first_failure t2.
Proof.
  induction t1 as [|[c [e|]] t1 IH]; simpl; [done|..]; [|done].
  by destruct (mutating c).
Qed.

Lemma first_failure_app_Some t1 t2 e after :
  first_failure t1 = Some (e, after) ->
  first_failure (t1 ++ t2) = Some (e, after ++ t2).
Proof.
  induction t1 as [|[c [e0|]] t1 IH]; simpl; [done|..]; [|done].
  destruct (mutating c); [|done]. by intros [= -> ->].
Qed.

Lemma first_failure_succeeded mk paths : first_failure (succeeded mk paths) = None.
Proof. by induction paths. Qed.

(** A failure anywhere in the log is the first one. *)
Lemma surfaced_everywhere t o :
  surfaced t o ->
  forall pre c e post,
    t = pre ++ (c, Some e) :: post -> mutating c = true ->
    (exists e' h', o = Returned (Some e') h' /\ mentions e' e)
    /\ quiet post = true.
Proof.
  unfold surfaced. intros S pre c e post -> Hc.
  destruct (first_failure pre) as [[e0 after]|] eqn:F.
  - rewrite (first_failure_app_Some _ _ _ _ F) in S.
    destruct S as [Q _]. rewrite quiet_app in Q.
    apply andb_true_iff in Q as [_ Q]. simpl in Q. by rewrite Hc in Q.
  - rewrite (first_failure_app_None _ _ F) in S. simpl in S.
    rewrite Hc in S. destruct S as [Q R]. by split.
Qed.

Lemma links_ended_surfaced mk paths h r h' done :
  (forall p, mutating (mk p) = true) ->
  links_ended mk paths h r h' done ->
  exists t, log h' = log h ++ t
    /\ surfaced t (Returned r h')
    /\ (r = None -> first_failure t = None).
Proof.
  intros Hmk. destruct r as [e'|]; simpl.
  - intros (p & e & rest & format & _ & -> & Hlog).
    eexists. split; [exact Hlog|]. unfold surfaced.
    rewrite (first_failure_app_None _ _ (first_failure_succeeded _ _)).
    simpl. rewrite Hmk. split; [|done]. split; [done|].
    eexists _, _. split; [done|]. right. eexists _, _. split; [done|].
    apply elem_of_cons. right. by apply elem_of_cons; left.
  - intros [_ Hlog]. eexists. split; [exact Hlog|]. unfold surfaced.
    by rewrite first_failure_succeeded.
Qed.

Lemma manageSymlinks_surfaced (s : Config) (confPath : string)
    (install : bool) (h : Host) :
  exists t, log (final (Part000.manageSymlinks s confPath install h))
            = log h ++ t
    /\ surfaced t (Part000.manageSymlinks s confPath install h)
    /\ (result (Part000.manageSymlinks s confPath install h) = Some None ->
        first_failure t = None).
Proof.
  destruct (lookpath_err h "chkconfig") as [e1|] eqn:T1.
  2:{ (* chkconfig *)
      unfold Part000.manageSymlinks, bind.
      rewrite exec_LookPath_run, T1. cbn [is_nil]. unfold ret. cbv beta iota.
      match goal with |- context [cmd_Run ?a ?h0] =>
        destruct (cmd_Run_returns a h0) as (err & h' & -> & Hlog) end.
      destruct err as [e|]; unfold ret; simpl final; simpl result;
        rewrite Hlog; simpl log; eexists; (split; [log_eq|]).
      - unfold surfaced. simpl. split; [|done]. split; [done|].
        eexists _, _. split; [done|]. right. eexists _, _. split; [done|].
        apply elem_of_cons. right. by apply elem_of_cons; left.
      - by unfold surfaced. }
  destruct (lookpath_err h "update-rc.d") as [e2|] eqn:T2.
  2:{ (* update-rc.d *)
      unfold Part000.manageSymlinks, bind.
      rewrite exec_LookPath_run, T1. cbn [is_nil]. cbv beta iota.
      rewrite exec_LookPath_run, lookpath_err_record, T2. cbn [is_nil].
      unfold ret. cbv beta iota.
      match goal with |- context [cmd_Run ?a ?h0] =>
        destruct (cmd_Run_returns a h0) as (err & h' & -> & Hlog) end.
      destruct err as [e|]; unfold ret; simpl final; simpl result;
        rewrite Hlog; simpl log; eexists; (split; [log_eq|]).
      - unfold surfaced. simpl. split; [|done]. split; [done|].
        eexists _, _. split; [done|]. right. eexists _, _. split; [done|].
        apply elem_of_cons. right. by apply elem_of_cons; left.
      - by unfold surfaced. }
  assert (T : no_link_tool h).
  { unfold no_link_tool, resolvable. rewrite T1, T2. by split. }
  destruct (rc_base h) as [base|] eqn:B.
  2:{ destruct (manageSymlinks_no_rc_directory s confPath install h T
                  (rc_base_None h B)) as (h' & -> & _ & _ & t & Hlog & Hq).
      exists t. split; [done|]. unfold surfaced.
      rewrite (first_failure_quiet t Hq). by split. }
  destruct (manageSymlinks_direct s confPath install h base T B)
    as (hp & -> & _ & _ & Lp).
  assert (exists r h' t,
            link_loops s confPath install base hp = Returned r h'
            /\ log h' = log hp ++ t
            /\ surfaced t (Returned r h')
            /\ (r = None -> first_failure t = None))
    as (r & h' & t & -> & Hlog & Hs & Hn).
  { destruct install.
    - destruct (link_loops_install s confPath base hp)
        as (r & h' & done & E & _ & Hend & _).
      destruct (links_ended_surfaced (CSymlink confPath) _ _ _ _ _
                  (fun _ => eq_refl) Hend) as (t & ? & ? & ?).
      by exists r, h', t.
    - destruct (link_loops_uninstall s confPath base hp)
        as (r & h' & done & E & _ & Hend & _).
      destruct (links_ended_surfaced CRemove _ _ _ _ _
                  (fun _ => eq_refl) Hend) as (t & ? & ? & ?).
      by exists r, h', t. }
  assert (Q : first_failure (link_probes h) = None).
  { apply first_failure_quiet. unfold link_probes. by destruct (is_nil _). }
  exists (link_probes h ++ t). cbn [final result]. split_and!.
  - rewrite Hlog, Lp. by rewrite <- app_assoc.
  - unfold surfaced in *. by rewrite (first_failure_app_None _ _ Q).
  - intros [= ->]. rewrite (first_failure_app_None _ _ Q). by apply Hn.
Qed.

(** What [surfaced] asks, for a program that went on after a first part
    without a failure. *)
Lemma surfaced_after t1 t2 o :
  first_failure t1 = None -> surfaced t2 o -> surfaced (t1 ++ t2) o.
Proof. intros F. unfold surfaced. by rewrite (first_failure_app_None _ _ F). Qed.

Lemma Part000_Uninstall_surfaced (s : Config) (h : Host) :
  exists t, log (final (Part000.Uninstall s h)) = log h ++ t
            /\ surfaced t (Part000.Uninstall s h).
Proof.
  unfold Part000.Uninstall, configPath.
  destruct (KeyValue_bool _ _ _).
  { exists []. split; [by rewrite app_nil_r | done]. }
  destruct (manageSymlinks_surfaced s ("/etc/init.d/" +:+ Name s) false h)
    as (t & Hlog & Hs & Hn).
  unfold bind.
  destruct (Part000.manageSymlinks s _ false h) as [[e|] h'|code h'|h'|sg h'].
  - by exists t.
  - simpl in Hlog. specialize (Hn eq_refl).
    unfold os_Remove, syscall.
    destruct (fault h' _) as [e|].
    { exists (t ++ [(CRemove ("/etc/init.d/" +:+ Name s), Some e)]). split.
      - simpl. rewrite Hlog. by rewrite <- app_assoc.
      - apply surfaced_after; [done|]. unfold surfaced. simpl.
        split; [done|]. eexists _, _. split; [done|]. by left. }
    destruct (fs h' !! _).
    + exists (t ++ [(CRemove ("/etc/init.d/" +:+ Name s), None)]). split.
      * simpl. rewrite Hlog. by rewrite <- app_assoc.
      * by apply surfaced_after.
    + exists (t ++ [(CRemove ("/etc/init.d/" +:+ Name s), Some (Errno ENOENT))]).
      split.
      * simpl. rewrite Hlog. by rewrite <- app_assoc.
      * apply surfaced_after; [done|]. unfold surfaced. simpl.
        split; [done|]. eexists _, _. split; [done|]. by left.
  - exists t. split; [done|]. unfold surfaced in *.
    destruct (first_failure t) as [[e after]|]; [|done].
    destruct Hs as [_ (e' & h0 & [=] & _)].
  - exists t. split; [done|]. unfold surfaced in *.
    destruct (first_failure t) as [[e after]|]; [|done].
    destruct Hs as [_ (e' & h0 & [=] & _)].
  - exists t. split; [done|]. unfold surfaced in *.
    destruct (first_failure t) as [[e after]|]; [|done].
    destruct Hs as [_ (e' & h0 & [=] & _)].
Qed.

Lemma surfaced_failed_last t c e h after :
  first_failure t = None -> mutating c = true -> quiet after = true ->
  surfaced (t ++ (c, Some e) :: after) (Returned (Some e) h).
Proof.
  intros F M Q. apply surfaced_after; [done|]. unfold surfaced. simpl.
  rewrite M. split; [done|]. eexists _, _. split; [done|]. by left.
Qed.

Lemma surfaced_closed path t (o : outcome goerror) :
  surfaced t o ->
  match o with
  | Returned r h' =>
      surfaced (t ++ [(CClose path, fault h' (CClose path))])
        (Returned r (record (CClose path) (fault h' (CClose path)) h'))
  | _ => True
  end.
Proof.
  destruct o as [r h'|code h'|h'|sg h']; [|done..]. unfold surfaced.
  destruct (first_failure t) as [[e after]|] eqn:F.
  - rewrite (first_failure_app_Some _ _ _ _ F).
    intros [Q (e' & h0 & [= -> ->] & M)]. split.
    + rewrite quiet_app, Q. done.
    + by eexists _, _.
  - rewrite (first_failure_app_None _ _ F). simpl.
    by destruct (fault h' _).
Qed.

Lemma surfaces_at_outcome (m : M goerror) (h : Host) (o : outcome goerror)
    (t : list (call * goerror)) :
  m h = o -> log (final o) = log h ++ t -> surfaced t o -> surfaces_at m h.
Proof. intros <- L S. by exists t. Qed.

Lemma write_script_surfaces (s : Config) (text : string) (k : M goerror)
    (h : Host) (mode : N) :
  (forall hm, surfaces_at k hm) ->
  fs h !! confPath_of s = Some (File EmptyString mode) ->
  surfaces_at (write_script s text k) h.
Proof.
  intros Hk L.
  destruct (fault h (CExecute (confPath_of s) text)) as [e|] eqn:F1.
  { eapply (surfaces_at_outcome _ _ _
              [(CExecute (confPath_of s) text, Some e); _]).
    - unfold write_script. rewrite defer_file_Close.
      unfold bind, file_Write, syscall. rewrite F1. reflexivity.
    - log_eq.
    - by apply (surfaced_failed_last []). }
  destruct (fault h (CChmod (confPath_of s) 493)) as [e|] eqn:F2.
  { eapply (surfaces_at_outcome _ _ _
              [(CExecute (confPath_of s) text, None);
               (CChmod (confPath_of s) 493%N, Some e); _]).
    - unfold write_script. rewrite defer_file_Close.
      unfold bind, file_Write, os_Chmod, syscall. rewrite F1, L.
      cbn [fault record set_fs set_log]. rewrite F2. reflexivity.
    - log_eq.
    - by apply (surfaced_failed_last [(CExecute (confPath_of s) text, None)]). }
  set (hm := record (CChmod (confPath_of s) 493) None
               (set_fs (<[confPath_of s:=File text 493%N]>
                          (<[confPath_of s:=File text mode]> (fs h)))
                  (record (CExecute (confPath_of s) text) None
                     (set_fs (<[confPath_of s:=File text mode]> (fs h)) h)))).
  assert (E : write_script s text k h
              = match k hm with
                | Returned r h' =>
                    Returned r (record (CClose (confPath_of s))
                                  (fault h' (CClose (confPath_of s))) h')
                | Exited code h' => Exited code h'
                | Blocked h' => Blocked h'
                | Killed sg h' => Killed sg h'
                end).
  { unfold write_script. rewrite defer_file_Close.
    unfold bind, file_Write, os_Chmod, syscall. rewrite F1, L.
    cbn [fault record set_fs set_log fs]. rewrite F2, lookup_insert_eq.
    reflexivity. }
  destruct (Hk hm) as (tk & Lk & Sk).
  pose proof (surfaced_closed (confPath_of s) tk (k hm) Sk) as Sc.
  destruct (k hm) as [r hk|code hk|hk|sg hk]; simpl in Lk.
  - eapply (surfaces_at_outcome _ _ _
              ([(CExecute (confPath_of s) text, None);
                (CChmod (confPath_of s) 493%N, None)] ++ tk ++ [_]) E).
    + simpl. rewrite Lk. by rewrite <- !app_assoc.
    + by apply surfaced_after.
  - eapply (surfaces_at_outcome _ _ _
              ([(CExecute (confPath_of s) text, None);
                (CChmod (confPath_of s) 493%N, None)] ++ tk) E).
    + simpl. rewrite Lk. by rewrite <- !app_assoc.
    + by apply surfaced_after.
  - eapply (surfaces_at_outcome _ _ _
              ([(CExecute (confPath_of s) text, None);
                (CChmod (confPath_of s) 493%N, None)] ++ tk) E).
    + simpl. rewrite Lk. by rewrite <- !app_assoc.
    + by apply surfaced_after.
  - eapply (surfaces_at_outcome _ _ _
              ([(CExecute (confPath_of s) text, None);
                (CChmod (confPath_of s) 493%N, None)] ++ tk) E).
    + simpl. rewrite Lk. by rewrite <- !app_assoc.
    + by apply surfaced_after.
Qed.

Lemma create_script_surfaces (s : Config) (text : string) (k : M goerror)
    (h : Host) :
  (forall hm, surfaces_at k hm) -> surfaces_at (create_script s text k) h.
Proof.
  intros Hk.
  assert (Hfail : forall e,
            create_script s text k h
            = Returned (Some e) (record (CCreate (confPath_of s)) (Some e) h) ->
            surfaces_at (create_script s text k) h).
  { intros e E.
    apply (surfaces_at_outcome _ _ _ [(CCreate (confPath_of s), Some e)] E);
      [done|]. by apply (surfaced_failed_last []). }
  assert (Hok : forall mode,
            create_script s text k h
            = write_script s text k
                (record (CCreate (confPath_of s)) None
                   (set_fs (<[confPath_of s:=File EmptyString mode]> (fs h)) h)) ->
            surfaces_at (create_script s text k) h).
  { intros mode E.
    destruct (write_script_surfaces s text k
                (record (CCreate (confPath_of s)) None
                   (set_fs (<[confPath_of s:=File EmptyString mode]> (fs h)) h))
                mode Hk) as (t & Lt & St); [by apply lookup_insert_eq|].
    rewrite <- E in Lt, St.
    exists ((CCreate (confPath_of s), None) :: t). split.
    - rewrite Lt. log_eq.
    - by apply (surfaced_after [_]). }
  destruct (fault h (CCreate (confPath_of s))) as [e|] eqn:F.
  { apply (Hfail e). unfold create_script, bind, os_Create, syscall.
    by rewrite F. }
  destruct (fs h !! confPath_of s) as [[|c m|l]|] eqn:L.
  - apply (Hfail (Errno EISDIR)).
    unfold create_script, bind, os_Create, syscall. by rewrite F, L.
  - apply (Hok m).
    unfold create_script, bind at 1. unfold os_Create, syscall. by rewrite F, L.
  - apply (Hfail (Errno EACCES)).
    unfold create_script, bind, os_Create, syscall. by rewrite F, L.
  - apply (Hok 438%N).
    unfold create_script, bind at 1. unfold os_Create, syscall. by rewrite F, L.
Qed.

Lemma surfaces_at_quiet (m : M goerror) (h : Host) (o : outcome goerror)
    (t : list (call * goerror)) :
  m h = o -> log (final o) = log h ++ t -> quiet t = true -> surfaces_at m h.
Proof.
  intros E L Q. apply (surfaces_at_outcome m h o t E L).
  unfold surfaced. by rewrite (first_failure_quiet t Q).
Qed.

Lemma Part000_Install_surfaces (tf : FuncMap) (s : Config) (h : Host) :
  surfaces_at (Part000.Install tf s) h.
Proof.
  destruct (user_service s) eqn:U.
  { apply (surfaces_at_quiet _ _ (Returned (Some errNoUserServiceSystemV) h) []);
      [|by rewrite app_nil_r|done].
    unfold Part000.Install, configPath. unfold user_service in U. by rewrite U. }
  destruct (executable h) as [path [e|]] eqn:X.
  { eapply (surfaces_at_quiet _ _ _ [(CExecPath, Some e)]).
    - unfold Part000.Install, configPath. unfold user_service in U. rewrite U.
      unfold bind, execPath. rewrite X. reflexivity.
    - log_eq.
    - done. }
  destruct (determineDistroFlavour_cases (record CExecPath None h))
    as [(flavour & hf & tf0 & Ef & Hfs & Henv & Hlog & Hq)
       |(hf & tf0 & Ef & _ & Hlog & Hq)].
  2:{ eapply (surfaces_at_quiet _ _ (Exited 1 hf) ((CExecPath, None) :: tf0)).
      - unfold Part000.Install, configPath. unfold user_service in U. rewrite U.
        unfold bind at 1. unfold execPath. rewrite X. cbn [snd].
        unfold bind at 1. by rewrite Ef.
      - simpl. rewrite Hlog. log_eq.
      - done. }
  destruct (Part000_sysvScript_executes tf
              {| Part000.to_Config := s; Part000.Path := path;
                 Part000.Flavour := flavour;
                 Part000.DefaultStart := Part000.defaultStartPriority;
                 Part000.DefaultStop := Part000.defaultStopPriority;
                 Part000.StartLevels :=
                   strings_Split_empty Part000.defaultStartLevels;
                 Part000.StopLevels :=
                   strings_Split_empty Part000.defaultStopLevels |})
    as [text Htext].
  destruct (is_nil (stat_err hf (confPath_of s))) eqn:S.
  { eapply (surfaces_at_quiet _ _ _
              ((CExecPath, None) :: tf0
               ++ [(CStat (confPath_of s), stat_err hf (confPath_of s))])).
    - unfold Part000.Install, configPath. unfold user_service in U. rewrite U.
      fold (confPath_of s).
      unfold bind at 1. unfold execPath. rewrite X. cbn [snd].
      unfold bind at 1. rewrite Ef.
      unfold bind at 1. rewrite os_Stat_run, S. reflexivity.
    - simpl. rewrite Hlog. log_eq.
    - simpl. rewrite quiet_app, Hq. done. }
  assert (E : Part000.Install tf s h
              = create_script s text
                  (Part000.manageSymlinks s (confPath_of s) true)
                  (record (CStat (confPath_of s))
                     (stat_err hf (confPath_of s)) hf)).
  { unfold Part000.Install, configPath. unfold user_service in U. rewrite U.
    fold (confPath_of s).
    unfold bind at 1. unfold execPath. rewrite X. cbn [snd].
    unfold bind at 1. rewrite Ef. rewrite Htext.
    unfold bind at 1. rewrite os_Stat_run, S. reflexivity. }
  destruct (create_script_surfaces s text
              (Part000.manageSymlinks s (confPath_of s) true)
              (record (CStat (confPath_of s)) (stat_err hf (confPath_of s)) hf))
    as (t & Lt & St).
  { intros hm.
    destruct (manageSymlinks_surfaced s (confPath_of s) true hm)
      as (tk & ? & ? & _). by exists tk. }
  rewrite <- E in Lt, St.
  exists (((CExecPath, None) :: tf0
           ++ [(CStat (confPath_of s), stat_err hf (confPath_of s))]) ++ t).
  split.
  - rewrite Lt. simpl. rewrite Hlog. log_eq.
  - apply surfaced_after; [|done]. apply first_failure_quiet.
    simpl. by rewrite quiet_app, Hq.
Qed.

(** X5.  The failures of the steps of src/unnamed/part_000 are returned: in a
    run of [Install] or [Uninstall], when a call that changes the file
    system (creating or writing the script, setting its mode, making or
    removing a link, removing the script, running a link tool) reports
    an error, the function returns an error that is that error or wraps
    it, and no further such call is made. *)
Theorem Part000_failures_returned (tf : FuncMap) (s : Config) (h : Host)
    (o : outcome goerror) (pre post : list (call * goerror))
    (c : call) (e : error) :
  o = Part000.Install tf s h \/ o = Part000.Uninstall s h ->
  log (final o) = log h ++ pre ++ (c, Some e) :: post ->
  mutating c = true ->
  (exists e' h', o = Returned (Some e') h' /\ mentions e' e)
  /\ quiet post = true.
Proof.
  intros Ho L M.
  assert (exists t, log (final o) = log h ++ t /\ surfaced t o)
    as (t & Lt & St).
  { destruct Ho as [-> | ->];
      [apply Part000_Install_surfaces | apply Part000_Uninstall_surfaced]. }
  rewrite L in Lt. apply app_inv_head in Lt. subst t.
  by apply (surfaced_everywhere _ _ St pre c e post).
Qed.

Lemma Part000_failures_returned_witness :
  (exists e' h',
     Part000.Install quoting_tf demo stale_host = Returned (Some e') h'
     /\ mentions e' (Errno EEXIST))
  /\ quiet [(CClose (confPath_of demo), None)] = true.
Proof.
  apply (Part000_failures_returned quoting_tf demo stale_host
           (Part000.Install quoting_tf demo stale_host)
           [(CExecPath, None);
            (CStat "/etc/rc.d/init.d/functions", Some (Errno ENOENT));
            (CStat "/lib/lsb/init-functions", None);
            (CLookPath "start-stop-daemon", Some ErrNotFound);
            (CStat (confPath_of demo), Some (Errno ENOENT));
            (CCreate (confPath_of demo), None);
            (CExecute (confPath_of demo)
               (generated quoting_tf Part000.sysvScript
                  (Part000.fields (demo_to "lsb"))), None);
            (CChmod (confPath_of demo) 493%N, None);
            (CLookPath "chkconfig", Some ErrNotFound);
            (CLookPath "update-rc.d", Some ErrNotFound);
            (CStat "/etc/rc.d/", Some (Errno ENOENT));
            (CStat "/etc/rc0.d", None)]
           [(CClose (confPath_of demo), None)]
           (CSymlink (confPath_of demo) "/etc/rc2.d/S50demo")
           (Errno EEXIST)).
  - by left.
  - vm_compute. reflexivity.
  - reflexivity.
Defined.

(** ** Before the script is written *)

(** X15.  [Uninstall] of a service definition that has the user-service flag
    fails with the "not supported" error and does nothing: no tool is
    looked for, no link and no file is touched.  Both files. *)
Theorem Uninstall_user_service_not_supported (s : Config) (h : Host) :
  user_service s = true ->
  Part000.Uninstall s h = Returned (Some errNoUserServiceSystemV) h
  /\ SysvLinux.Uninstall s h = Returned (Some errNoUserServiceSystemV) h.
Proof.
  unfold user_service, Part000.Uninstall, SysvLinux.Uninstall, configPath.
  intros ->. split; reflexivity.
Qed.

Lemma Uninstall_user_service_not_supported_witness :
  Part000.Uninstall demo_user installed_host
  = Returned (Some errNoUserServiceSystemV) installed_host
  /\ SysvLinux.Uninstall demo_user installed_host
     = Returned (Some errNoUserServiceSystemV) installed_host.
Proof.
  apply (Uninstall_user_service_not_supported demo_user installed_host).
  reflexivity.
Defined.

(** X16.  When the executable of the program cannot be resolved, [Install]
    returns that error at once: the flavour is not looked for (so the
    process is not terminated on a host without LSB support) and the file
    system is not looked at.  Both files. *)
Theorem Install_execPath_error (tf : FuncMap) (s : Config) (h : Host)
    (e : error) :
  user_service s = false -> snd (executable h) = Some e ->
  Part000.Install tf s h = Returned (Some e) (record CExecPath (Some e) h)
  /\ SysvLinux.Install tf s h = Returned (Some e) (record CExecPath (Some e) h).
Proof.
  unfold user_service, Part000.Install, SysvLinux.Install, configPath.
  intros -> X. unfold bind, execPath.
  destruct (executable h) as [path err]. simpl in X. subst err.
  split; reflexivity.
Qed.

Lemma Install_execPath_error_witness :
  Part000.Install quoting_tf demo unresolved_host
  = Returned (Some (ErrorsNew "executable not resolvable"))
      (record CExecPath (Some (ErrorsNew "executable not resolvable"))
         unresolved_host)
  /\ SysvLinux.Install quoting_tf demo unresolved_host
     = Returned (Some (ErrorsNew "executable not resolvable"))
         (record CExecPath (Some (ErrorsNew "executable not resolvable"))
            unresolved_host).
Proof.
  apply (Install_execPath_error quoting_tf demo unresolved_host);
    reflexivity.
Defined.

(** X17.  On a host that has neither the Red-Hat function file nor
    /lib/lsb/init-functions, [Install] does not return: the process is
    terminated with status 1 and the LSB diagnostic on the error stream,
    before the control script is looked for, so also when it exists
    already; nothing is written.  Both files. *)
Theorem Install_without_LSB_exits (tf : FuncMap) (s : Config) (h : Host) :
  user_service s = false -> snd (executable h) = None ->
  ~ file_exists h rhFunctions -> file_absent h lsbFunctions ->
  exits_untouched lsbDiagnostic h (Part000.Install tf s h)
  /\ exits_untouched lsbDiagnostic h (SysvLinux.Install tf s h).
Proof.
  unfold user_service, Part000.Install, SysvLinux.Install, configPath.
  unfold file_exists, file_absent, exits_untouched.
  intros -> X R L. apply is_nil_false in R.
  destruct (executable h) as [path err] eqn:Ex. simpl in X. subst err.
  split.
  - unfold bind at 1. unfold execPath. rewrite Ex. cbn [snd].
    unfold bind at 1. rewrite determineDistroFlavour_run. cbv zeta.
    rewrite !stat_err_record, R, L. do 2 eexists.
    split_and!; [reflexivity | reflexivity | reflexivity | log_eq | reflexivity].
  - unfold bind at 1. unfold execPath. rewrite Ex. cbn [snd].
    unfold bind at 1. rewrite determineDistroFlavour_run. cbv zeta.
    rewrite !stat_err_record, R, L. do 2 eexists.
    split_and!; [reflexivity | reflexivity | reflexivity | log_eq | reflexivity].
Qed.

Lemma Install_without_LSB_exits_witness :
  exits_untouched lsbDiagnostic bare_host
    (Part000.Install quoting_tf demo bare_host)
  /\ exits_untouched lsbDiagnostic bare_host
       (SysvLinux.Install quoting_tf demo bare_host).
Proof.
  apply (Install_without_LSB_exits quoting_tf demo bare_host);
    [reflexivity | reflexivity | discriminate | reflexivity].
Defined.

(** X18.  The flavour detector only looks: whatever the host, it leaves the
    file system as it is, makes no call that could change it, and ends by
    returning or by terminating the process with status 1, never by
    waiting. *)
Theorem determineDistroFlavour_only_looks (h : Host) :
  exists t,
    log (final (determineDistroFlavour h)) = log h ++ t
    /\ quiet t = true
    /\ fs (final (determineDistroFlavour h)) = fs h
    /\ ((exists flavour h', determineDistroFlavour h = Returned flavour h')
        \/ exists h', determineDistroFlavour h = Exited 1 h').
Proof.
  destruct (determineDistroFlavour_cases h)
    as [(flavour & hf & t & E & F & _ & L & Q)|(hf & t & E & F & L & Q)];
    rewrite E; exists t; split_and!; eauto.
Qed.

(** ** Link-management tools *)

Lemma cmd_Run_run args h :
  exists h',
    cmd_Run args h = Returned (run_command h args (fs h)).2 h'
    /\ fs h' = (run_command h args (fs h)).1
    /\ env h' = env h
    /\ log h' = log h ++ [(CCommand args, (run_command h args (fs h)).2)].
Proof.
  unfold cmd_Run, syscall, run_command. destruct (fault h _); [by eauto|].
  destruct (command h args (fs h)) as [f err]. by eauto.
Qed.

Lemma strings_Join_chkconfig s install :
  strings_Join (chkconfig_args s install) " " = chkconfig_line s install.
Proof. by destruct install. Qed.

Lemma strings_Join_update_rc_d s install :
  strings_Join (update_rc_d_args s install) " " = update_rc_d_line s install.
Proof.
  by destruct install.
Qed.

Lemma manageSymlinks_tool (s : Config) (confPath : string) (install : bool)
    (h : Host) :
  ~ no_link_tool h ->
  exists args probes h',
    (resolvable h "chkconfig"
     /\ args = chkconfig_args s install
     /\ probes = [(CLookPath "chkconfig", None)]
     \/ ~ resolvable h "chkconfig" /\ resolvable h "update-rc.d"
        /\ args = update_rc_d_args s install
        /\ probes = [(CLookPath "chkconfig", lookpath_err h "chkconfig");
                     (CLookPath "update-rc.d", None)])
    /\ Part000.manageSymlinks s confPath install h
       = Returned (failed_to_run (strings_Join args " ")
                     (run_command h args (fs h)).2) h'
    /\ fs h' = (run_command h args (fs h)).1
    /\ env h' = env h
    /\ log h' = log h ++ probes
                ++ [(CCommand args, (run_command h args (fs h)).2)].
Proof.
  intros T. unfold Part000.manageSymlinks, bind.
  rewrite exec_LookPath_run.
  destruct (lookpath_err h "chkconfig") as [e1|] eqn:L1; cbn [is_nil].
  - rewrite exec_LookPath_run, lookpath_err_record.
    destruct (lookpath_err h "update-rc.d") as [e2|] eqn:L2; cbn [is_nil].
    { destruct T. unfold no_link_tool, resolvable. rewrite L1, L2. by split. }
    unfold ret at 1.
    change (if install then ["update-rc.d"; Name s; "defaults"]
            else ["update-rc.d"; "-f"; Name s; "remove"])
      with (update_rc_d_args s install).
    match goal with |- context [cmd_Run ?a ?h0] =>
      destruct (cmd_Run_run a h0) as (h' & -> & F & E & L) end.
    assert (R : forall f,
              run_command (record (CLookPath "update-rc.d") None
                             (record (CLookPath "chkconfig") (Some e1) h))
                (update_rc_d_args s install) f
              = run_command h (update_rc_d_args s install) f) by done.
    simpl in F, L. rewrite R in *.
    exists (update_rc_d_args s install),
      [(CLookPath "chkconfig", Some e1); (CLookPath "update-rc.d", None)], h'.
    split_and!.
    + right. unfold resolvable. rewrite L1, L2.
      split; [done|]. split; [done|]. by split.
    + cbn [fs record set_log].
      by destruct ((run_command h (update_rc_d_args s install) (fs h)).2).
    + done.
    + by rewrite E.
    + rewrite L. by rewrite <- !app_assoc.
  - unfold ret at 1.
    assert (A : (if install then ["chkconfig"; "--add"; Name s]
                 else ["chkconfig"; "--del"; Name s])
                = chkconfig_args s install) by (by destruct install).
    rewrite A.
    match goal with |- context [cmd_Run ?a ?h0] =>
      destruct (cmd_Run_run a h0) as (h' & -> & F & E & L) end.
    assert (R : forall f,
              run_command (record (CLookPath "chkconfig") None h)
                (chkconfig_args s install) f
              = run_command h (chkconfig_args s install) f) by done.
    simpl in F, L. rewrite R in *.
    exists (chkconfig_args s install), [(CLookPath "chkconfig", None)], h'.
    split_and!.
    + left. unfold resolvable. by rewrite L1.
    + cbn [fs record set_log].
      by destruct ((run_command h (chkconfig_args s install) (fs h)).2).
    + done.
    + by rewrite E.
    + rewrite L. by rewrite <- !app_assoc.
Qed.

(** X11.  With [chkconfig] on the search path, [manageSymlinks] hands the links
    to it and does nothing else: it runs [chkconfig --add <Name>] to
    install and [chkconfig --del <Name>] to uninstall, whether
    [update-rc.d] is there or not; it looks at no runlevel directory and
    makes or removes no link itself; it returns nil when the command
    succeeds and its failure, wrapped with the command line, otherwise. *)
Theorem manageSymlinks_chkconfig (s : Config) (confPath : string)
    (install : bool) (h : Host) :
  resolvable h "chkconfig" ->
  exists h',
    Part000.manageSymlinks s confPath install h
    = Returned (failed_to_run (chkconfig_line s install)
                  (run_command h (chkconfig_args s install) (fs h)).2) h'
    /\ fs h' = (run_command h (chkconfig_args s install) (fs h)).1
    /\ log h' = log h
                ++ [(CLookPath "chkconfig", None);
                    (CCommand (chkconfig_args s install),
                     (run_command h (chkconfig_args s install) (fs h)).2)].
Proof.
  intros R.
  destruct (manageSymlinks_tool s confPath install h)
    as (args & probes & h' & [(_ & -> & ->)|(N & _)] & E & F & _ & L);
    [by intros [N _] | | done].
  rewrite strings_Join_chkconfig in E. by exists h'.
Qed.

Lemma manageSymlinks_chkconfig_witness :
  exists h',
    Part000.manageSymlinks demo (confPath_of demo) true tools_host
    = Returned (failed_to_run (chkconfig_line demo true)
                  (run_command tools_host (chkconfig_args demo true)
                     (fs tools_host)).2) h'
    /\ fs h' = (run_command tools_host (chkconfig_args demo true)
                  (fs tools_host)).1
    /\ log h' = log tools_host
                ++ [(CLookPath "chkconfig", None);
                    (CCommand (chkconfig_args demo true),
                     (run_command tools_host (chkconfig_args demo true)
                        (fs tools_host)).2)].
Proof.
  apply (manageSymlinks_chkconfig demo (confPath_of demo) true tools_host).
  reflexivity.
Defined.

(** X12.  With [update-rc.d] on the search path and no [chkconfig],
    [manageSymlinks] hands the links to [update-rc.d <Name> defaults] to
    install and to [update-rc.d -f <Name> remove] to uninstall, and does
    nothing else; a failure of the command is returned, wrapped with the
    command line. *)
Theorem manageSymlinks_update_rc_d (s : Config) (confPath : string)
    (install : bool) (h : Host) :
  ~ resolvable h "chkconfig" -> resolvable h "update-rc.d" ->
  exists h',
    Part000.manageSymlinks s confPath install h
    = Returned (failed_to_run (update_rc_d_line s install)
                  (run_command h (update_rc_d_args s install) (fs h)).2) h'
    /\ fs h' = (run_command h (update_rc_d_args s install) (fs h)).1
    /\ log h' = log h
                ++ [(CLookPath "chkconfig", lookpath_err h "chkconfig");
                    (CLookPath "update-rc.d", None);
                    (CCommand (update_rc_d_args s install),
                     (run_command h (update_rc_d_args s install) (fs h)).2)].
Proof.
  intros N R.
  destruct (manageSymlinks_tool s confPath install h)
    as (args & probes & h' & [(R' & _)|(_ & _ & -> & ->)] & E & F & _ & L);
    [by intros [_ N'] | done |].
  rewrite strings_Join_update_rc_d in E. by exists h'.
Qed.

Lemma manageSymlinks_update_rc_d_witness :
  exists h',
    Part000.manageSymlinks demo (confPath_of demo) false update_rc_d_host
    = Returned (failed_to_run (update_rc_d_line demo false)
                  (run_command update_rc_d_host (update_rc_d_args demo false)
                     (fs update_rc_d_host)).2) h'
    /\ fs h' = (run_command update_rc_d_host (update_rc_d_args demo false)
                  (fs update_rc_d_host)).1
    /\ log h' = log update_rc_d_host
                ++ [(CLookPath "chkconfig",
                     lookpath_err update_rc_d_host "chkconfig");
                    (CLookPath "update-rc.d", None);
                    (CCommand (update_rc_d_args demo false),
                     (run_command update_rc_d_host (update_rc_d_args demo false)
                        (fs update_rc_d_host)).2)].
Proof.
  apply (manageSymlinks_update_rc_d demo (confPath_of demo) false
           update_rc_d_host).
  - discriminate.
  - reflexivity.
Defined.

(** ** The steps of [Install] *)

Lemma determineDistroFlavour_record c e h :
  result (determineDistroFlavour (record c e h))
  = result (determineDistroFlavour h).
Proof.
  rewrite !determineDistroFlavour_run. cbv zeta.
  rewrite !stat_err_record, !lookpath_err_record.
  destruct (is_nil (stat_err h rhFunctions)); [done|].
  destruct (os_IsNotExist (stat_err h lsbFunctions)); [done|].
  by destruct (is_nil (lookpath_err h "start-stop-daemon")).
Qed.

Lemma determineDistroFlavour_known h :
  flavour_known h ->
  exists flavour hf t,
    determineDistroFlavour h = Returned flavour hf
    /\ fs hf = fs h /\ env hf = env h
    /\ log hf = log h ++ t /\ quiet t = true.
Proof.
  intros K.
  destruct (determineDistroFlavour_cases h)
    as [(flavour & hf & t & E & ?)|(hf & t & E & _)]; [by eauto 10|].
  exfalso. revert E. rewrite determineDistroFlavour_run. cbv zeta.
  unfold flavour_known, file_exists, file_absent in K.
  destruct K as [K|K].
  - by rewrite K.
  - destruct (is_nil (stat_err h rhFunctions)); [done|].
    apply not_true_is_false in K. rewrite K.
    by destruct (is_nil (lookpath_err h "start-stop-daemon")).
Qed.

(** [Install] up to the creation of the script, when nothing stops it
    before. *)
Lemma Part000_Install_reaches_script (tf : FuncMap) (s : Config) (h : Host) :
  user_service s = false -> snd (executable h) = None -> flavour_known h ->
  ~ file_exists h (confPath_of s) ->
  exists flavour text hs t,
    result (determineDistroFlavour h) = Some flavour
    /\ Part000_script tf s (executable h).1 flavour = Some text
    /\ Part000.Install tf s h
       = create_script s text (Part000.manageSymlinks s (confPath_of s) true) hs
    /\ fs hs = fs h /\ env hs = env h
    /\ log hs = log h ++ t /\ quiet t = true.
Proof.
  intros U X K S. unfold file_exists in S. apply is_nil_false in S.
  destruct (executable h) as [path err] eqn:Ex. simpl in X. subst err.
  destruct (determineDistroFlavour_known (record CExecPath None h))
    as (flavour & hf & t & Ef & Hfs & Henv & Hlog & Hq); [done|].
  destruct (Part000_sysvScript_executes tf (Part000_to s path flavour))
    as [text Htext].
  assert (Sf : stat_err hf (confPath_of s) = stat_err h (confPath_of s)).
  { apply env_stat_err; [by rewrite Henv | by rewrite Hfs]. }
  exists flavour, text,
    (record (CStat (confPath_of s)) (stat_err hf (confPath_of s)) hf),
    ((CExecPath, None) :: t
     ++ [(CStat (confPath_of s), stat_err hf (confPath_of s))]).
  split_and!.
  - rewrite <- (determineDistroFlavour_record CExecPath None). by rewrite Ef.
  - done.
  - unfold Part000.Install, configPath. unfold user_service in U. rewrite U.
    fold (confPath_of s).
    unfold bind at 1. unfold execPath. rewrite Ex. cbn [snd].
    unfold bind at 1. rewrite Ef.
    unfold Part000_script, Part000_to in Htext. rewrite Htext.
    unfold bind at 1. rewrite os_Stat_run, Sf, S. reflexivity.
  - done.
  - by rewrite env_record.
  - simpl. rewrite Hlog. log_eq.
  - simpl. rewrite quiet_app, Hq. done.
Qed.

Lemma SysvLinux_Install_reaches_script (tf : FuncMap) (s : Config) (h : Host) :
  user_service s = false -> snd (executable h) = None -> flavour_known h ->
  ~ file_exists h (confPath_of s) ->
  exists flavour text hs t,
    result (determineDistroFlavour h) = Some flavour
    /\ SysvLinux_script tf s (executable h).1 flavour = Some text
    /\ SysvLinux.Install tf s h
       = create_script s text (legacy_links s (confPath_of s)) hs
    /\ fs hs = fs h /\ env hs = env h
    /\ log hs = log h ++ t /\ quiet t = true.
Proof.
  intros U X K S. unfold file_exists in S. apply is_nil_false in S.
  destruct (executable h) as [path err] eqn:Ex. simpl in X. subst err.
  destruct (determineDistroFlavour_known (record CExecPath None h))
    as (flavour & hf & t & Ef & Hfs & Henv & Hlog & Hq); [done|].
  destruct (SysvLinux_sysvScript_executes tf (SysvLinux_to s path flavour))
    as [text Htext].
  assert (Sf : stat_err hf (confPath_of s) = stat_err h (confPath_of s)).
  { apply env_stat_err; [by rewrite Henv | by rewrite Hfs]. }
  exists flavour, text,
    (record (CStat (confPath_of s)) (stat_err hf (confPath_of s)) hf),
    ((CExecPath, None) :: t
     ++ [(CStat (confPath_of s), stat_err hf (confPath_of s))]).
  split_and!.
  - rewrite <- (determineDistroFlavour_record CExecPath None). by rewrite Ef.
  - done.
  - unfold SysvLinux.Install, configPath. unfold user_service in U. rewrite U.
    fold (confPath_of s).
    unfold bind at 1. unfold execPath. rewrite Ex. cbn [snd].
    unfold bind at 1. rewrite Ef.
    unfold SysvLinux_script, SysvLinux_to in Htext. rewrite Htext.
    unfold bind at 1. rewrite os_Stat_run, Sf, S. reflexivity.
  - done.
  - by rewrite env_record.
  - simpl. rewrite Hlog. log_eq.
  - simpl. rewrite quiet_app, Hq. done.
Qed.

(** The script is created, written and given its mode, when the host
    lets these three calls through: what follows runs on a host that has
    the script. *)
Lemma create_script_run (s : Config) (text : string) (h : Host) :
  fs h !! confPath_of s = None ->
  fault h (CCreate (confPath_of s)) = None ->
  fault h (CExecute (confPath_of s) text) = None ->
  fault h (CChmod (confPath_of s) 493) = None ->
  exists hm,
    (forall k, create_script s text k h
               = defer (file_Close (confPath_of s)) k hm)
    /\ env hm = env h
    /\ fs hm = <[confPath_of s := File text 493%N]> (fs h)
    /\ log hm = log h ++ [(CCreate (confPath_of s), None);
                          (CExecute (confPath_of s) text, None);
                          (CChmod (confPath_of s) 493, None)].
Proof.
  intros L F1 F2 F3. eexists. split_and!.
  - intros k. unfold create_script. unfold bind at 1.
    rewrite os_Create_new by done. unfold write_script.
    rewrite !defer_file_Close. unfold bind at 1.
    erewrite file_Write_file; [|done|simpl; apply lookup_insert_eq].
    unfold bind at 1.
    erewrite os_Chmod_file; [|done|simpl; apply lookup_insert_eq].
    reflexivity.
  - reflexivity.
  - simpl. by rewrite !insert_insert_eq.
  - log_eq.
Qed.

(** The script is created and the writing or the setting of the mode
    fails: the error is returned, and the file that was created stays. *)
Lemma create_script_fails (s : Config) (text : string) (k : M goerror)
    (h : Host) (e : error) :
  fs h !! confPath_of s = None ->
  fault h (CCreate (confPath_of s)) = None ->
  fault h (CExecute (confPath_of s) text) = Some e
  \/ fault h (CExecute (confPath_of s) text) = None
     /\ fault h (CChmod (confPath_of s) 493) = Some e ->
  exists h' content,
    create_script s text k h = Returned (Some e) h'
    /\ env h' = env h
    /\ fs h' = <[confPath_of s := File content 438%N]> (fs h).
Proof.
  intros L F1 [F2|[F2 F3]].
  - do 2 eexists. split_and!.
    + unfold create_script. unfold bind at 1.
      rewrite os_Create_new by done. unfold write_script.
      rewrite defer_file_Close. unfold bind at 1.
      unfold file_Write, syscall. cbn [fault record set_fs set_log].
      rewrite F2. reflexivity.
    + reflexivity.
    + reflexivity.
  - do 2 eexists. split_and!.
    + unfold create_script. unfold bind at 1.
      rewrite os_Create_new by done. unfold write_script.
      rewrite defer_file_Close. unfold bind at 1.
      erewrite file_Write_file; [|done|simpl; apply lookup_insert_eq].
      unfold bind at 1. unfold os_Chmod, syscall.
      cbn [fault record set_fs set_log]. rewrite F3. reflexivity.
    + reflexivity.
    + simpl. by rewrite insert_insert_eq.
Qed.

Lemma env_executable h h' : env h' = env h -> executable h' = executable h.
Proof. intros E. by injection E as _ -> _ _ _. Qed.

Lemma stat_err_plain h path :
  has_trailing_slash path = false -> fault h (CStat path) = None ->
  stat_err h path
  = match fs h !! path with Some _ => None | None => Some (Errno ENOENT) end.
Proof.
  intros T F. unfold stat_err, stat_fs. rewrite F, T.
  unfold has_trailing_slash in T. apply negb_false_iff, String.eqb_eq in T.
  rewrite T. by destruct (fs h !! path) as [[| |]|].
Qed.

Lemma flavour_known_script s h h' v :
  env h' = env h -> fs h' = <[confPath_of s := v]> (fs h) ->
  flavour_known h -> flavour_known h'.
Proof.
  intros E F. unfold flavour_known, file_exists, file_absent.
  rewrite !(env_stat_err h h') by
    (done || (rewrite F; apply lookup_insert_ne; paths_differ)).
  done.
Qed.

(** X8.  When the script was created and the writing of the text or the
    setting of the mode fails, [Install] returns that error and leaves
    the file it created where it is, with no link: nothing is undone.
    A second [Install] then refuses with the "already exists" error.
    Both files. *)
Theorem Install_failed_write_leaves_script
    (tf : FuncMap) (s : Config) (h : Host) (e : error) :
  user_service s = false -> snd (executable h) = None -> flavour_known h ->
  has_trailing_slash (confPath_of s) = false ->
  fs h !! confPath_of s = None ->
  fault h (CStat (confPath_of s)) = None ->
  fault h (CCreate (confPath_of s)) = None ->
  (forall text, fault h (CExecute (confPath_of s) text) = Some e)
  \/ (forall text, fault h (CExecute (confPath_of s) text) = None)
     /\ fault h (CChmod (confPath_of s) 493) = Some e ->
  leaves_script s e (Part000.Install tf s) h
  /\ leaves_script s e (SysvLinux.Install tf s) h.
Proof.
  intros U X K T L F0 F1 F2.
  assert (S : ~ file_exists h (confPath_of s)).
  { unfold file_exists. by rewrite stat_err_plain, L. }
  assert (R : forall h' content,
            env h' = env h ->
            fs h' = <[confPath_of s := File content 438%N]> (fs h) ->
            file_exists h' (confPath_of s)
            /\ snd (executable h') = None /\ flavour_known h').
  { intros h' content E F. split_and!.
    - unfold file_exists. rewrite stat_err_plain; [|done|].
      + by rewrite F, lookup_insert_eq.
      + by rewrite (env_fault h h').
    - by rewrite (env_executable h h').
    - by apply (flavour_known_script s h h' (File content 438%N)). }
  unfold leaves_script. split.
  - destruct (Part000_Install_reaches_script tf s h U X K S)
      as (flavour & text & hs & t & _ & _ & -> & Hfs & Henv & _).
    destruct (create_script_fails s text
                (Part000.manageSymlinks s (confPath_of s) true) hs e)
      as (h' & content & -> & E & F).
    + by rewrite Hfs.
    + by rewrite (env_fault h hs).
    + rewrite !(env_fault h hs) by done. destruct F2 as [F2|[F2 F3]]; auto.
    + rewrite Hfs in F. rewrite Henv in E.
      destruct (R h' content E F) as (S' & X' & K').
      exists h', content, 438%N. split_and!; [done..|].
      by apply Part000_Install_refuses.
  - destruct (SysvLinux_Install_reaches_script tf s h U X K S)
      as (flavour & text & hs & t & _ & _ & -> & Hfs & Henv & _).
    destruct (create_script_fails s text
                (legacy_links s (confPath_of s)) hs e)
      as (h' & content & -> & E & F).
    + by rewrite Hfs.
    + by rewrite (env_fault h hs).
    + rewrite !(env_fault h hs) by done. destruct F2 as [F2|[F2 F3]]; auto.
    + rewrite Hfs in F. rewrite Henv in E.
      destruct (R h' content E F) as (S' & X' & K').
      exists h', content, 438%N. split_and!; [done..|].
      by apply SysvLinux_Install_refuses.
Qed.

Lemma Install_failed_write_leaves_script_witness :
  leaves_script demo (Errno EROFS) (Part000.Install quoting_tf demo)
    fixed_mode_host
  /\ leaves_script demo (Errno EROFS) (SysvLinux.Install quoting_tf demo)
       fixed_mode_host.
Proof.
  apply (Install_failed_write_leaves_script quoting_tf demo fixed_mode_host);
    try reflexivity.
  - right. discriminate.
  - right. by split.
Defined.

(** ** A clean host *)

Lemma NoDup_activation_links base name : NoDup (activation_links base name).
Proof.
  unfold activation_links. simpl.
  repeat (apply NoDup_cons; split;
          [rewrite ?elem_of_cons, elem_of_nil;
           intros E; repeat (destruct E as [E|E]; [|]); try done;
           apply (inj (String.append base)) in E; vm_compute in E;
           discriminate E|]).
  apply NoDup_nil_2.
Qed.

Lemma make_links_succeed (confPath format : string) (paths : list string) :
  forall h,
    NoDup paths ->
    (forall p, p ∈ paths ->
       fs h !! p = None /\ fault h (CSymlink confPath p) = None
       /\ fs h !! dirname p = Some Dir) ->
    exists h',
      for_range paths (make_link confPath format) h = Returned None h'
      /\ env h' = env h
      /\ log h' = log h ++ succeeded (CSymlink confPath) paths
      /\ (forall k, fs h' !! k
                    = if decide (k ∈ paths) then Some (Link confPath)
                      else fs h !! k).
Proof.
  induction paths as [|p rest IH]; intros h Hnd Hfree.
  - exists h. split_and!; try done. unfold succeeded. simpl.
    by rewrite app_nil_r.
  - apply NoDup_cons in Hnd as [Hp Hnd].
    destruct (Hfree p) as (L & F & D); [by apply elem_of_cons; left|].
    simpl. unfold bind at 1. unfold make_link at 1. unfold bind at 1.
    unfold os_Symlink, syscall. rewrite F, D, L. unfold ret at 1.
    destruct (IH (record (CSymlink confPath p) None
                    (set_fs (<[p:=Link confPath]> (fs h)) h)) Hnd)
      as (h' & E & Henv & Hlog & Hfs).
    { intros q Hq.
      destruct (Hfree q) as (Lq & Fq & Dq); [by apply elem_of_cons; right|].
      split_and!; [|done|].
      - simpl. rewrite lookup_insert_ne; [done|]. intros <-. done.
      - simpl. rewrite lookup_insert_ne; [done|]. intros E. congruence. }
    exists h'. rewrite E. split_and!; try done.
    + rewrite Hlog. unfold succeeded. simpl. by rewrite <- !app_assoc.
    + intros k. rewrite Hfs. simpl.
      destruct (decide (k ∈ rest)) as [Hk|Hk].
      * rewrite decide_True; [done | by apply elem_of_cons; right].
      * destruct (decide (k = p)) as [->|Hkp].
        -- rewrite decide_True; [by rewrite lookup_insert_eq | by apply elem_of_cons; left].
        -- rewrite decide_False, lookup_insert_ne; [done | done |].
           intros Hin. apply elem_of_cons in Hin as [?|?]; done.
Qed.

Lemma remove_links_succeed (format : string) (paths : list string) :
  forall h,
    NoDup paths ->
    (forall p, p ∈ paths ->
       is_Some (fs h !! p) /\ fault h (CRemove p) = None) ->
    exists h',
      for_range paths (remove_link format) h = Returned None h'
      /\ env h' = env h
      /\ log h' = log h ++ succeeded CRemove paths
      /\ (forall k, fs h' !! k
                    = if decide (k ∈ paths) then None else fs h !! k).
Proof.
  induction paths as [|p rest IH]; intros h Hnd Hthere.
  - exists h. split_and!; try done. unfold succeeded. simpl.
    by rewrite app_nil_r.
  - apply NoDup_cons in Hnd as [Hp Hnd].
    destruct (Hthere p) as [[n L] F]; [by apply elem_of_cons; left|].
    simpl. unfold bind at 1. unfold remove_link at 1. unfold bind at 1.
    unfold os_Remove, syscall. rewrite F, L. unfold ret at 1.
    destruct (IH (record (CRemove p) None (set_fs (delete p (fs h)) h)) Hnd)
      as (h' & E & Henv & Hlog & Hfs).
    { intros q Hq. destruct (Hthere q) as [Lq Fq]; [by apply elem_of_cons; right|].
      split; [|done]. simpl. rewrite lookup_delete_ne; [done|].
      intros <-. done. }
    exists h'. rewrite E. split_and!; try done.
    + rewrite Hlog. unfold succeeded. simpl. by rewrite <- !app_assoc.
    + intros k. rewrite Hfs. simpl.
      destruct (decide (k ∈ rest)) as [Hk|Hk].
      * rewrite decide_True; [done | by apply elem_of_cons; right].
      * destruct (decide (k = p)) as [->|Hkp].
        -- rewrite decide_True; [by rewrite lookup_delete_eq | by apply elem_of_cons; left].
        -- rewrite decide_False, lookup_delete_ne; [done | done |].
           intros Hin. apply elem_of_cons in Hin as [?|?]; done.
Qed.

Lemma link_loops_install_succeed (s : Config) (confPath base : string)
    (h : Host) :
  links_absent h base (Name s) ->
  links_unfailed h (CSymlink confPath) base (Name s) ->
  links_placed h base (Name s) ->
  exists h',
    link_loops s confPath true base h = Returned None h'
    /\ env h' = env h
    /\ log h' = log h
                ++ succeeded (CSymlink confPath) (activation_links base (Name s))
    /\ (forall k, fs h' !! k
                  = if decide (k ∈ activation_links base (Name s))
                    then Some (Link confPath) else fs h !! k).
Proof.
  intros A F D.
  pose proof (NoDup_activation_links base (Name s)) as Hnd.
  rewrite activation_links_start_stop in Hnd.
  apply NoDup_app in Hnd as (N1 & N12 & N2).
  unfold link_loops. unfold bind at 1.
  destruct (make_links_succeed confPath "Failed to create startup link %s: %s"
              (start_links base (Name s)) h N1) as (h1 & -> & E1 & L1 & F1).
  { intros p Hp. split_and!; [apply A | apply F | apply D];
      rewrite activation_links_start_stop; apply elem_of_app; by left. }
  destruct (make_links_succeed confPath "Failed to create shutdown link %s: %s"
              (stop_links base (Name s)) h1 N2) as (h2 & -> & E2 & L2 & F2).
  { intros p Hp.
    assert (Hin : p ∈ activation_links base (Name s)).
    { rewrite activation_links_start_stop. apply elem_of_app. by right. }
    split_and!.
    - rewrite F1, decide_False; [by apply A|]. intros Hs. by apply (N12 p).
    - rewrite (env_fault h h1) by done. by apply F.
    - rewrite F1, decide_False; [by apply D|]. intros Hs.
      assert (Hd : dirname p ∈ activation_links base (Name s)).
      { rewrite activation_links_start_stop. apply elem_of_app. by left. }
      specialize (A _ Hd). specialize (D _ Hin). congruence. }
  exists h2. split_and!.
  - done.
  - by rewrite E2.
  - rewrite L2, L1, activation_links_start_stop, succeeded_app.
    by rewrite <- app_assoc.
  - intros k. rewrite F2, F1, activation_links_start_stop.
    destruct (decide (k ∈ stop_links base (Name s))) as [H2|H2].
    + rewrite decide_True; [done | apply elem_of_app; by right].
    + destruct (decide (k ∈ start_links base (Name s))) as [H1|H1].
      * rewrite decide_True; [done | apply elem_of_app; by left].
      * rewrite decide_False; [done|]. intros Hin.
        apply elem_of_app in Hin as [?|?]; done.
Qed.

Lemma link_loops_uninstall_succeed (s : Config) (confPath base : string)
    (h : Host) :
  (forall p, p ∈ activation_links base (Name s) -> is_Some (fs h !! p)) ->
  links_unfailed h CRemove base (Name s) ->
  exists h',
    link_loops s confPath false base h = Returned None h'
    /\ env h' = env h
    /\ log h' = log h ++ succeeded CRemove (activation_links base (Name s))
    /\ (forall k, fs h' !! k
                  = if decide (k ∈ activation_links base (Name s))
                    then None else fs h !! k).
Proof.
  intros A F.
  pose proof (NoDup_activation_links base (Name s)) as Hnd.
  rewrite activation_links_start_stop in Hnd.
  apply NoDup_app in Hnd as (N1 & N12 & N2).
  unfold link_loops. unfold bind at 1.
  destruct (remove_links_succeed "Failed to remove startup link %s: %s"
              (start_links base (Name s)) h N1) as (h1 & -> & E1 & L1 & F1).
  { intros p Hp. split; [apply A | apply F];
      rewrite activation_links_start_stop; apply elem_of_app; by left. }
  destruct (remove_links_succeed "Failed to remove shutdown link %s: %s"
              (stop_links base (Name s)) h1 N2) as (h2 & -> & E2 & L2 & F2).
  { intros p Hp.
    assert (Hin : p ∈ activation_links base (Name s)).
    { rewrite activation_links_start_stop. apply elem_of_app. by right. }
    split.
    - rewrite F1, decide_False; [by apply A|]. intros Hs. by apply (N12 p).
    - rewrite (env_fault h h1) by done. by apply F. }
  exists h2. split_and!.
  - done.
  - by rewrite E2.
  - rewrite L2, L1, activation_links_start_stop, succeeded_app.
    by rewrite <- app_assoc.
  - intros k. rewrite F2, F1, activation_links_start_stop.
    destruct (decide (k ∈ stop_links base (Name s))) as [H2|H2].
    + rewrite decide_True; [done | apply elem_of_app; by right].
    + destruct (decide (k ∈ start_links base (Name s))) as [H1|H1].
      * rewrite decide_True; [done | apply elem_of_app; by left].
      * rewrite decide_False; [done|]. intros Hin.
        apply elem_of_app in Hin as [?|?]; done.
Qed.

(** X1.  On a clean host [Install] of src/unnamed/part_000 succeeds.  When
    the definition is not a user service, the executable resolves, the
    flavour is known, the control script is not there and can be written,
    no link tool is on the search path, a runlevel base exists, and the
    activation links are not there and can be made (the host fails none
    of them and their directories are there), [Install] returns nil;
    the control script then holds the text of the template for the
    flavour of the host, with mode 0755, the seven activation links point
    to it, and nothing else has changed. *)
Theorem Part000_Install_succeeds
    (tf : FuncMap) (s : Config) (h : Host) (base : string) :
  user_service s = false -> snd (executable h) = None -> flavour_known h ->
  script_writable h s -> no_link_tool h -> rc_base h = Some base ->
  links_absent h base (Name s) ->
  links_unfailed h (CSymlink (confPath_of s)) base (Name s) ->
  links_placed h base (Name s) ->
  exists flavour text h1,
    result (determineDistroFlavour h) = Some flavour
    /\ Part000_script tf s (executable h).1 flavour = Some text
    /\ Part000.Install tf s h = Returned None h1
    /\ (forall k, fs h1 !! k
          = if decide (k ∈ activation_links base (Name s))
            then Some (Link (confPath_of s))
            else if decide (k = confPath_of s) then Some (File text 493%N)
            else fs h !! k).
Proof.
  intros U X K (S1 & S2 & S3 & S4 & S5) T B A F D.
  destruct (Part000_Install_reaches_script tf s h U X K S1)
    as (flavour & text & hs & t & Hfl & Htext & -> & Hfs & Henv & _).
  destruct (create_script_run s text hs) as (hm & -> & Em & Fm & _).
  { by rewrite Hfs. }
  { by rewrite (env_fault h hs). }
  { by rewrite (env_fault h hs). }
  { by rewrite (env_fault h hs). }
  rewrite Henv in Em. rewrite Hfs in Fm.
  destruct (rc_d_not_link base (Name s) (rc_base_cases h base B))
    as (_ & _ & Ncp).
  fold (confPath_of s) in Ncp.
  assert (Tm : no_link_tool hm) by (by apply (no_link_tool_stable h)).
  assert (Bm : rc_base hm = Some base).
  { rewrite <- B. apply rc_base_stable; [done|..];
      by rewrite Fm, lookup_insert_ne by paths_differ. }
  rewrite defer_file_Close.
  destruct (manageSymlinks_direct s (confPath_of s) true hm base Tm Bm)
    as (hp & -> & Envp & Fp & _).
  destruct (link_loops_install_succeed s (confPath_of s) base hp)
    as (h' & -> & Env' & _ & Hfs').
  { intros p Hp. rewrite Fp, Fm, lookup_insert_ne; [by apply A|].
    intros <-. done. }
  { intros p Hp. rewrite (env_fault h hp) by (by rewrite Envp). by apply F. }
  { intros p Hp. rewrite Fp, Fm, lookup_insert_ne; [by apply D|].
    intros E. specialize (D p Hp). congruence. }
  exists flavour, text. eexists. split_and!; [done | done | reflexivity |].
  intros k. simpl. rewrite Hfs'.
  destruct (decide (k ∈ activation_links base (Name s))); [done|].
  rewrite Fp, Fm. destruct (decide (k = confPath_of s)) as [->|Hk].
  - by rewrite lookup_insert_eq.
  - by rewrite lookup_insert_ne.
Qed.

Lemma Part000_Install_succeeds_witness :
  exists flavour text h1,
    result (determineDistroFlavour lsb_host) = Some flavour
    /\ Part000_script quoting_tf demo (executable lsb_host).1 flavour = Some text
    /\ Part000.Install quoting_tf demo lsb_host = Returned None h1
    /\ (forall k, fs h1 !! k
          = if decide (k ∈ activation_links "/etc" (Name demo))
            then Some (Link (confPath_of demo))
            else if decide (k = confPath_of demo) then Some (File text 493%N)
            else fs lsb_host !! k).
Proof.
  apply (Part000_Install_succeeds quoting_tf demo lsb_host "/etc").
  - reflexivity.
  - reflexivity.
  - right. discriminate.
  - repeat split; try reflexivity. discriminate.
  - split; discriminate.
  - reflexivity.
  - intros p Hp. unfold activation_links in Hp. simpl in Hp.
    repeat (apply elem_of_cons in Hp as [->|Hp]; [reflexivity|]).
    by apply elem_of_nil in Hp.
  - intros p Hp. reflexivity.
  - intros p Hp. unfold activation_links in Hp. simpl in Hp.
    repeat (apply elem_of_cons in Hp as [->|Hp]; [reflexivity|]).
    by apply elem_of_nil in Hp.
Defined.

(** X4.  After a successful [Install] of src/unnamed/part_000 that made the
    links itself, on a host that fails no removal, [Uninstall] succeeds
    and the file system is again what it was before [Install]. *)
Theorem Part000_Uninstall_after_Install
    (tf : FuncMap) (s : Config) (h h1 : Host) :
  no_link_tool h ->
  fs h !! confPath_of s = None ->
  (forall p, fault h (CRemove p) = None) ->
  Part000.Install tf s h = Returned None h1 ->
  exists h2, Part000.Uninstall s h1 = Returned None h2 /\ fs h2 = fs h.
Proof.
  intros T Hcp R E1.
  destruct (Part000_Install_direct tf s h h1 T E1)
    as (base & text & t0 & t1 & U & B & Env1 & _ & Habs & Hfs & _).
  destruct (rc_d_not_link base (Name s) (rc_base_cases h base B))
    as (N1 & N2 & N3).
  fold (confPath_of s) in N3.
  assert (T1 : no_link_tool h1) by (by apply (no_link_tool_stable h)).
  assert (B1 : rc_base h1 = Some base).
  { rewrite <- B. apply rc_base_stable; [done|..];
      by rewrite Hfs, !decide_False by (done || paths_differ). }
  unfold Part000.Uninstall, configPath.
  unfold user_service in U. rewrite U. fold (confPath_of s).
  unfold bind at 1.
  destruct (manageSymlinks_direct s (confPath_of s) false h1 base T1 B1)
    as (hp & -> & Envp & Fp & _).
  destruct (link_loops_uninstall_succeed s (confPath_of s) base hp)
    as (h' & -> & Env' & _ & Hfs').
  { intros p Hp. rewrite Fp, Hfs, decide_True by done. by eexists. }
  { intros p Hp. rewrite (env_fault h hp); [done|]. by rewrite Envp. }
  assert (Env : env h' = env h) by (by rewrite Env', Envp).
  unfold os_Remove, syscall. rewrite (env_fault h h') by done. rewrite R.
  rewrite Hfs', Fp, Hfs.
  destruct (decide (confPath_of s ∈ activation_links base (Name s))); [done|].
  destruct (decide (confPath_of s = confPath_of s)); [|done].
  eexists. split; [reflexivity|]. simpl. apply map_eq. intros k.
  destruct (decide (k = confPath_of s)) as [->|Hk].
  { by rewrite lookup_delete_eq. }
  rewrite lookup_delete_ne, Hfs', Fp, Hfs by done.
  destruct (decide (k ∈ activation_links base (Name s))) as [Hin|Hin].
  - symmetry. by apply Habs.
  - by rewrite decide_False.
Qed.

Lemma Part000_Uninstall_after_Install_witness :
  exists h2,
    Part000.Uninstall demo (final (Part000.Install quoting_tf demo lsb_host))
    = Returned None h2
    /\ fs h2 = fs lsb_host.
Proof.
  apply (Part000_Uninstall_after_Install quoting_tf demo lsb_host).
  - split; discriminate.
  - reflexivity.
  - reflexivity.
  - vm_compute. reflexivity.
Defined.

(** ** Failures half-way *)

Lemma links_ended_elem mk links h r h' done p :
  links_ended mk links h r h' done -> p ∈ done -> p ∈ links.
Proof.
  destruct r as [e|]; simpl.
  - intros (q & e0 & rest & format & -> & _) Hp. apply elem_of_app. by left.
  - by intros [-> _].
Qed.

(** X7.  [Uninstall] of src/unnamed/part_000 undoes nothing and leaves the
    rest.  When it removes the links itself and returns an error, the
    links it had removed before the failure are gone, and everything else
    is as it was: the later links are still there, and so is the control
    script.  The error is that of the first link that could not be
    removed, wrapped in a message that names the link, or, when all
    seven links are gone, that of the removal of the script. *)
Theorem Part000_Uninstall_stops_at_first_failure
    (s : Config) (h h' : Host) (base : string) (e : error) :
  user_service s = false -> no_link_tool h -> rc_base h = Some base ->
  Part000.Uninstall s h = Returned (Some e) h' ->
  exists done,
    (forall k, fs h' !! k = if decide (k ∈ done) then None else fs h !! k)
    /\ fs h' !! confPath_of s = fs h !! confPath_of s
    /\ ((exists p rest format e0,
           activation_links base (Name s) = done ++ p :: rest
           /\ e = Errorf format [ArgString p; ArgError e0]
           /\ log h' = log h ++ link_probes h ++ succeeded CRemove done
                       ++ [(CRemove p, Some e0)])
        \/ done = activation_links base (Name s)
           /\ log h' = log h ++ link_probes h ++ succeeded CRemove done
                       ++ [(CRemove (confPath_of s), Some e)]).
Proof.
  intros U T B.
  destruct (rc_d_not_link base (Name s) (rc_base_cases h base B))
    as (_ & _ & Ncp).
  fold (confPath_of s) in Ncp.
  unfold Part000.Uninstall, configPath.
  unfold user_service in U. rewrite U. fold (confPath_of s).
  unfold bind at 1.
  destruct (manageSymlinks_direct s (confPath_of s) false h base T B)
    as (hp & -> & Envp & Fp & Lp).
  destruct (link_loops_uninstall s (confPath_of s) base hp)
    as (r & h1 & done & -> & Env1 & Hend & Hfs).
  assert (Hcp : confPath_of s ∉ done).
  { intros Hin. apply Ncp. by apply (links_ended_elem _ _ _ _ _ _ _ Hend). }
  destruct r as [e1|].
  - intros [= -> ->]. exists done. split_and!.
    + intros k. by rewrite Hfs, Fp.
    + by rewrite Hfs, Fp, decide_False.
    + left. destruct Hend as (p & e0 & rest & format & Hl & -> & L1).
      exists p, rest, format, e0. split_and!; try done.
      rewrite L1, Lp. by rewrite <- !app_assoc.
  - destruct Hend as [-> L1].
    unfold os_Remove, syscall.
    destruct (fault h1 (CRemove (confPath_of s))) as [e1|].
    + intros [= -> <-]. exists (activation_links base (Name s)). split_and!.
      * intros k. simpl. by rewrite Hfs, Fp.
      * simpl. by rewrite Hfs, Fp, decide_False.
      * right. split; [done|]. simpl. rewrite L1, Lp. by rewrite <- !app_assoc.
    + destruct (fs h1 !! confPath_of s); [discriminate|].
      intros [= <- <-]. exists (activation_links base (Name s)). split_and!.
      * intros k. simpl. by rewrite Hfs, Fp.
      * simpl. by rewrite Hfs, Fp, decide_False.
      * right. split; [done|]. simpl. rewrite L1, Lp. by rewrite <- !app_assoc.
Qed.

Lemma Part000_Uninstall_stops_at_first_failure_witness :
  exists done,
    (forall k,
       fs (final (Part000.Uninstall demo half_installed_host)) !! k
       = if decide (k ∈ done) then None else fs half_installed_host !! k)
    /\ fs (final (Part000.Uninstall demo half_installed_host))
         !! confPath_of demo
       = fs half_installed_host !! confPath_of demo
    /\ ((exists p rest format e0,
           activation_links "/etc" (Name demo) = done ++ p :: rest
           /\ Errorf "Failed to remove startup link %s: %s"
                [ArgString "/etc/rc4.d/S50demo"; ArgError (Errno ENOENT)]
              = Errorf format [ArgString p; ArgError e0]
           /\ log (final (Part000.Uninstall demo half_installed_host))
              = log half_installed_host ++ link_probes half_installed_host
                ++ succeeded CRemove done ++ [(CRemove p, Some e0)])
        \/ done = activation_links "/etc" (Name demo)
           /\ log (final (Part000.Uninstall demo half_installed_host))
              = log half_installed_host ++ link_probes half_installed_host
                ++ succeeded CRemove done
                ++ [(CRemove (confPath_of demo),
                     Some (Errorf "Failed to remove startup link %s: %s"
                             [ArgString "/etc/rc4.d/S50demo";
                              ArgError (Errno ENOENT)]))]).
Proof.
  apply (Part000_Uninstall_stops_at_first_failure demo half_installed_host
           (final (Part000.Uninstall demo half_installed_host)) "/etc").
  - reflexivity.
  - split; discriminate.
  - reflexivity.
  - vm_compute. reflexivity.
Defined.

(** X6.  [Install] of src/unnamed/part_000 makes the links in order and stops
    at the first that cannot be made.  When the script can be written and
    [Install] makes the links itself, it returns; the control script is
    then in place with mode 0755, the links made before the first failure
    point to it, and nothing else has changed: on a failure nothing is
    taken back.  It returns nil when all seven links were made, and
    otherwise the error of the link that failed, wrapped in a message that
    names the link. *)
Theorem Part000_Install_stops_at_first_link
    (tf : FuncMap) (s : Config) (h : Host) (base : string) :
  user_service s = false -> snd (executable h) = None -> flavour_known h ->
  script_writable h s -> no_link_tool h -> rc_base h = Some base ->
  exists r h' text done,
    Part000.Install tf s h = Returned r h'
    /\ (forall k, fs h' !! k
          = if decide (k ∈ done) then Some (Link (confPath_of s))
            else if decide (k = confPath_of s) then Some (File text 493%N)
            else fs h !! k)
    /\ (r = None /\ done = activation_links base (Name s)
        \/ exists p rest format e0,
             activation_links base (Name s) = done ++ p :: rest
             /\ r = Some (Errorf format [ArgString p; ArgError e0])
             /\ (CSymlink (confPath_of s) p, Some e0) ∈ log h').
Proof.
  intros U X K (S1 & S2 & S3 & S4 & S5) T B.
  destruct (Part000_Install_reaches_script tf s h U X K S1)
    as (flavour & text & hs & t & Hfl & Htext & -> & Hfs & Henv & _).
  destruct (create_script_run s text hs) as (hm & -> & Em & Fm & _).
  { by rewrite Hfs. }
  { by rewrite (env_fault h hs). }
  { by rewrite (env_fault h hs). }
  { by rewrite (env_fault h hs). }
  rewrite Henv in Em. rewrite Hfs in Fm.
  destruct (rc_d_not_link base (Name s) (rc_base_cases h base B))
    as (_ & _ & Ncp).
  fold (confPath_of s) in Ncp.
  assert (Tm : no_link_tool hm) by (by apply (no_link_tool_stable h)).
  assert (Bm : rc_base hm = Some base).
  { rewrite <- B. apply rc_base_stable; [done|..];
      by rewrite Fm, lookup_insert_ne by paths_differ. }
  rewrite defer_file_Close.
  destruct (manageSymlinks_direct s (confPath_of s) true hm base Tm Bm)
    as (hp & -> & Envp & Fp & _).
  destruct (link_loops_install s (confPath_of s) base hp)
    as (r & h1 & done & -> & Env1 & Hend & _ & _ & Hfs1).
  assert (Hcp : confPath_of s ∉ done).
  { intros Hin. apply Ncp. by apply (links_ended_elem _ _ _ _ _ _ _ Hend). }
  exists r. eexists. exists text, done. split_and!.
  - reflexivity.
  - intros k. simpl. rewrite Hfs1.
    destruct (decide (k ∈ done)); [done|].
    rewrite Fp, Fm. destruct (decide (k = confPath_of s)) as [->|Hk].
    + by rewrite lookup_insert_eq.
    + by rewrite lookup_insert_ne.
  - destruct r as [e|].
    + right. destruct Hend as (p & e0 & rest & format & Hl & -> & L1).
      exists p, rest, format, e0. split_and!; try done.
      simpl. rewrite L1. rewrite !elem_of_app. left. right. right.
      by apply elem_of_cons; left.
    + left. by destruct Hend as [-> _].
Qed.

Lemma Part000_Install_stops_at_first_link_witness :
  exists r h' text done,
    Part000.Install quoting_tf demo blocked_host = Returned r h'
    /\ (forall k, fs h' !! k
          = if decide (k ∈ done) then Some (Link (confPath_of demo))
            else if decide (k = confPath_of demo) then Some (File text 493%N)
            else fs blocked_host !! k)
    /\ (r = None /\ done = activation_links "/etc" (Name demo)
        \/ exists p rest format e0,
             activation_links "/etc" (Name demo) = done ++ p :: rest
             /\ r = Some (Errorf format [ArgString p; ArgError e0])
             /\ (CSymlink (confPath_of demo) p, Some e0) ∈ log h').
Proof.
  apply (Part000_Install_stops_at_first_link quoting_tf demo blocked_host "/etc").
  - reflexivity.
  - reflexivity.
  - right. discriminate.
  - repeat split; try reflexivity. discriminate.
  - split; discriminate.
  - reflexivity.
Defined.

(** ** The links of src/service_sysv_linux.go, on any host *)

Lemma os_Symlink_run oldname newname h :
  exists err h',
    os_Symlink oldname newname h = Returned err h'
    /\ env h' = env h
    /\ log h' = log h ++ [(CSymlink oldname newname, err)]
    /\ (forall k, k <> newname -> fs h' !! k = fs h !! k).
Proof.
  destruct (os_Symlink_cases oldname newname h) as [[e ->]|(_ & _ & _ & ->)].
  - by eauto 10.
  - do 2 eexists. split_and!; try reflexivity.
    intros k Hk. simpl. by rewrite lookup_insert_ne.
Qed.

Lemma legacy_loop_run (confPath : string) (mk : string -> string)
    (levels : list string) :
  forall h, exists h' t,
    for_each levels
      (fun i =>
         err <- os_Symlink confPath (mk i) ;;
         match err with
         | Some _ => ret tt
         | None => ret tt
         end) h = Returned tt h'
    /\ env h' = env h
    /\ log h' = log h ++ t
    /\ map fst (symlink_calls t) = map (fun i => (confPath, mk i)) levels
    /\ (forall k, k ∉ map mk levels -> fs h' !! k = fs h !! k).
Proof.
  induction levels as [|i rest IH]; intros h.
  - exists h, []. split_and!; try done. by rewrite app_nil_r.
  - simpl. unfold bind at 1. unfold bind at 1.
    destruct (os_Symlink_run confPath (mk i) h)
      as (err & h1 & -> & E1 & L1 & F1).
    assert (R : match err with Some _ => ret tt | None => ret tt end h1
                = Returned tt h1) by (by destruct err).
    rewrite R.
    destruct (IH h1) as (h' & t & -> & Env & L & Hs & Hfs).
    exists h', ((CSymlink confPath (mk i), err) :: t).
    split_and!; try done.
    + by rewrite Env.
    + rewrite L, L1. log_eq.
    + simpl. by rewrite Hs.
    + intros k Hk. rewrite Hfs, F1; [done|..].
      * intros ->. apply Hk. by apply elem_of_cons; left.
      * intros Hin. apply Hk. by apply elem_of_cons; right.
Qed.

Lemma legacy_links_run (s : Config) (confPath : string) (h : Host) :
  exists h' t,
    legacy_links s confPath h = Returned None h'
    /\ env h' = env h
    /\ log h' = log h ++ t
    /\ map fst (symlink_calls t)
       = map (fun p => (confPath, p)) (activation_links "/etc" (Name s))
    /\ (forall k, k ∉ activation_links "/etc" (Name s) ->
          fs h' !! k = fs h !! k).
Proof.
  unfold legacy_links. unfold bind at 1.
  destruct (legacy_loop_run confPath
              (fun i => "/etc/rc" +:+ i +:+ ".d/S50" +:+ Name s)
              ["2"; "3"; "4"; "5"] h) as (h1 & t1 & -> & E1 & L1 & S1 & F1).
  unfold bind at 1.
  destruct (legacy_loop_run confPath
              (fun i => "/etc/rc" +:+ i +:+ ".d/K02" +:+ Name s)
              ["0"; "1"; "6"] h1) as (h2 & t2 & -> & E2 & L2 & S2 & F2).
  exists h2, (t1 ++ t2). split_and!.
  - done.
  - by rewrite E2.
  - rewrite L2, L1. by rewrite <- app_assoc.
  - rewrite symlink_calls_app, map_app, S1, S2. reflexivity.
  - intros k Hk. rewrite F2, F1; [done|..];
      intros Hin; apply Hk; unfold activation_links; apply elem_of_app;
      [left | right]; exact Hin.
Qed.

(** X19.  [Install] of src/service_sysv_linux.go returns nil whatever becomes
    of the links.  When the script can be written, it asks for the seven
    links /etc/rc<N>.d/S50<Name> (N = 2, 3, 4, 5) and
    /etc/rc<N>.d/K02<Name> (N = 0, 1, 6), always under /etc and in this
    order, goes on after a link that fails, and returns nil. *)
Theorem SysvLinux_Install_ignores_link_failures
    (tf : FuncMap) (s : Config) (h : Host) :
  user_service s = false -> snd (executable h) = None -> flavour_known h ->
  script_writable h s ->
  exists h' t,
    SysvLinux.Install tf s h = Returned None h'
    /\ log h' = log h ++ t
    /\ map fst (symlink_calls t)
       = map (fun p => (confPath_of s, p)) (activation_links "/etc" (Name s)).
Proof.
  intros U X K (S1 & S2 & S3 & S4 & S5).
  destruct (SysvLinux_Install_reaches_script tf s h U X K S1)
    as (flavour & text & hs & t & Hfl & Htext & -> & Hfs & Henv & Ls & Qs).
  destruct (create_script_run s text hs) as (hm & -> & Em & Fm & Lm).
  { by rewrite Hfs. }
  { by rewrite (env_fault h hs). }
  { by rewrite (env_fault h hs). }
  { by rewrite (env_fault h hs). }
  rewrite defer_file_Close.
  destruct (legacy_links_run s (confPath_of s) hm)
    as (h1 & t1 & -> & E1 & L1 & Hs & _).
  do 2 eexists. split_and!.
  - reflexivity.
  - simpl. rewrite L1, Lm, Ls. rewrite <- !app_assoc. reflexivity.
  - rewrite !symlink_calls_app, (symlink_calls_quiet _ Qs). simpl.
    by rewrite app_nil_r.
Qed.

Lemma SysvLinux_Install_ignores_link_failures_witness :
  exists h' t,
    SysvLinux.Install quoting_tf demo blocked_host = Returned None h'
    /\ log h' = log blocked_host ++ t
    /\ map fst (symlink_calls t)
       = map (fun p => (confPath_of demo, p))
           (activation_links "/etc" (Name demo)).
Proof.
  apply (SysvLinux_Install_ignores_link_failures quoting_tf demo blocked_host).
  - reflexivity.
  - reflexivity.
  - right. discriminate.
  - repeat split; try reflexivity. discriminate.
Defined.

(** X20.  [Uninstall] of src/service_sysv_linux.go touches the control script
    and nothing else: it makes one call at most, the removal of
    /etc/init.d/<Name>, and every other path, the activation links among
    them, is after it what it was before. *)
Theorem SysvLinux_Uninstall_touches_script_only (s : Config) (h : Host) :
  exists t,
    log (final (SysvLinux.Uninstall s h)) = log h ++ t
    /\ (t = [] \/ exists err, t = [(CRemove (confPath_of s), err)])
    /\ (forall k, k <> confPath_of s ->
          fs (final (SysvLinux.Uninstall s h)) !! k = fs h !! k).
Proof.
  unfold SysvLinux.Uninstall, configPath.
  destruct (KeyValue_bool _ _ _).
  { exists []. split_and!; [by rewrite app_nil_r | by left | done]. }
  fold (confPath_of s). unfold bind, os_Remove, syscall.
  destruct (fault h _) as [e|].
  { eexists. split_and!; [reflexivity | right; by eexists | done]. }
  destruct (fs h !! confPath_of s).
  - eexists. split_and!; [reflexivity | right; by eexists |].
    intros k Hk. simpl. by rewrite lookup_delete_ne.
  - eexists. split_and!; [reflexivity | right; by eexists | done].
Qed.

(** ** [Install] and [Uninstall] with a link tool *)

Lemma manageSymlinks_link_tool (s : Config) (confPath : string)
    (install : bool) (h : Host) (args : list string) (line : string) :
  link_tool h s install = Some (args, line) ->
  exists h' t,
    Part000.manageSymlinks s confPath install h
    = Returned (failed_to_run line (run_command h args (fs h)).2) h'
    /\ fs h' = (run_command h args (fs h)).1
    /\ env h' = env h
    /\ log h' = log h ++ t ++ [(CCommand args, (run_command h args (fs h)).2)]
    /\ quiet t = true.
Proof.
  unfold link_tool. intros L.
  destruct (manageSymlinks_tool s confPath install h)
    as (args' & probes & h' & Hcase & E & F & Env & Lg).
  { intros [T1 T2]. unfold resolvable in T1, T2.
    apply is_nil_false in T1, T2. by rewrite T1, T2 in L. }
  destruct Hcase as [(R & -> & ->)|(N & R & -> & ->)].
  - unfold resolvable in R. rewrite R in L. injection L as <- <-.
    rewrite strings_Join_chkconfig in E.
    by exists h', [(CLookPath "chkconfig", None)].
  - unfold resolvable in N, R. apply is_nil_false in N. rewrite N, R in L.
    injection L as <- <-.
    rewrite strings_Join_update_rc_d in E.
    exists h', [(CLookPath "chkconfig", lookpath_err h "chkconfig");
                (CLookPath "update-rc.d", None)].
    by split_and!.
Qed.

Lemma link_tool_stable (s : Config) (install : bool) (h h' : Host) :
  env h' = env h -> link_tool h' s install = link_tool h s install.
Proof. intros E. unfold link_tool. by rewrite !(env_lookpath_err h h'). Qed.

Lemma run_command_stable (h h' : Host) args f :
  env h' = env h -> run_command h' args f = run_command h args f.
Proof.
  intros E. unfold run_command. rewrite (env_fault h h') by done.
  by injection E as _ _ _ -> _.
Qed.

(** X13.  With a link tool on the search path, [Install] of
    src/unnamed/part_000 writes the script and then hands the links to
    the tool: the command runs on a file system that holds the control
    script with its text and mode 0755; [Install] makes no link itself,
    and returns nil when the command succeeds and its failure, wrapped
    with the command line, otherwise, the script staying where it is. *)
Theorem Part000_Install_with_tool
    (tf : FuncMap) (s : Config) (h : Host) (args : list string)
    (line : string) :
  user_service s = false -> snd (executable h) = None -> flavour_known h ->
  script_writable h s -> link_tool h s true = Some (args, line) ->
  exists text h' t,
    let written := <[confPath_of s := File text 493%N]> (fs h) in
    Part000.Install tf s h
    = Returned (failed_to_run line (run_command h args written).2) h'
    /\ fs h' = (run_command h args written).1
    /\ log h' = log h ++ t
    /\ symlink_calls t = []
    /\ count_calls mutating t = 4.
Proof.
  intros U X K (S1 & S2 & S3 & S4 & S5) L.
  destruct (Part000_Install_reaches_script tf s h U X K S1)
    as (flavour & text & hs & t & Hfl & Htext & -> & Hfs & Henv & Ls & Qs).
  destruct (create_script_run s text hs) as (hm & -> & Em & Fm & Lm).
  { by rewrite Hfs. }
  { by rewrite (env_fault h hs). }
  { by rewrite (env_fault h hs). }
  { by rewrite (env_fault h hs). }
  rewrite Henv in Em. rewrite Hfs in Fm.
  rewrite defer_file_Close.
  destruct (manageSymlinks_link_tool s (confPath_of s) true hm args line)
    as (h1 & t1 & -> & F1 & E1 & L1 & Q1).
  { by rewrite (link_tool_stable s true h hm). }
  rewrite Fm, (run_command_stable h hm) in * by done.
  exists text. do 2 eexists. cbv zeta. split_and!.
  - reflexivity.
  - done.
  - simpl. rewrite L1, Lm, Ls. rewrite <- !app_assoc. reflexivity.
  - rewrite !symlink_calls_app, (symlink_calls_quiet _ Qs),
      (symlink_calls_quiet _ Q1). reflexivity.
  - rewrite !count_calls_app.
    assert (Z : forall l, quiet l = true -> count_calls mutating l = 0).
    { induction l as [|[c e] l IH]; [done|]. simpl.
      intros H. apply andb_true_iff in H as [Hc Hl].
      unfold count_calls in *. simpl. apply negb_true_iff in Hc.
      rewrite Hc. by apply IH. }
    rewrite (Z _ Qs), (Z _ Q1). reflexivity.
Qed.

Lemma Part000_Install_with_tool_witness :
  exists text h' t,
    let written := <[confPath_of demo := File text 493%N]> (fs tools_host) in
    Part000.Install quoting_tf demo tools_host
    = Returned (failed_to_run (chkconfig_line demo true)
                  (run_command tools_host (chkconfig_args demo true) written).2)
        h'
    /\ fs h' = (run_command tools_host (chkconfig_args demo true) written).1
    /\ log h' = log tools_host ++ t
    /\ symlink_calls t = []
    /\ count_calls mutating t = 4.
Proof.
  apply (Part000_Install_with_tool quoting_tf demo tools_host).
  - reflexivity.
  - reflexivity.
  - right. discriminate.
  - repeat split; try reflexivity. discriminate.
  - reflexivity.
Defined.

(** X14.  With a link tool on the search path, [Uninstall] of
    src/unnamed/part_000 runs the tool first, on the file system as it
    is.  When the command fails, its failure is returned, wrapped with
    the command line, and the removal of the control script is not
    tried; when it succeeds, the control script is removed from what the
    command left, and the result of that removal is returned. *)
Theorem Part000_Uninstall_with_tool
    (s : Config) (h : Host) (args : list string) (line : string) :
  user_service s = false -> link_tool h s false = Some (args, line) ->
  exists h' t,
    let after := run_command h args (fs h) in
    log h' = log h ++ t
    /\ match after.2 with
       | Some e =>
           Part000.Uninstall s h = Returned (failed_to_run line (Some e)) h'
           /\ fs h' = after.1
           /\ count_calls mutating t = 1
       | None =>
           exists r,
             Part000.Uninstall s h = Returned r h'
             /\ fs h' = (if is_nil r then delete (confPath_of s) after.1
                         else after.1)
             /\ count_calls mutating t = 2
       end.
Proof.
  intros U L. cbv zeta.
  destruct (manageSymlinks_link_tool s (confPath_of s) false h args line L)
    as (h1 & t1 & EM & F1 & E1 & L1 & Q1).
  assert (EU : Part000.Uninstall s h
               = match (run_command h args (fs h)).2 with
                 | Some e => Returned (failed_to_run line (Some e)) h1
                 | None => os_Remove (confPath_of s) h1
                 end).
  { unfold Part000.Uninstall, configPath.
    unfold user_service in U. rewrite U. fold (confPath_of s).
    unfold bind. rewrite EM.
    by destruct ((run_command h args (fs h)).2). }
  rewrite EU. clear EU EM.
  assert (Z : count_calls mutating t1 = 0).
  { clear L1. induction t1 as [|[c e] l IH]; [done|]. simpl in Q1.
    apply andb_true_iff in Q1 as [Hc Hl].
    unfold count_calls in *. simpl. apply negb_true_iff in Hc.
    rewrite Hc. by apply IH. }
  destruct ((run_command h args (fs h)).2) as [e|] eqn:R.
  - exists h1. eexists. split_and!; [exact L1 | done | done |].
    rewrite count_calls_app, Z. reflexivity.
  - unfold os_Remove, syscall.
    destruct (fault h1 (CRemove (confPath_of s))) as [e|].
    { do 2 eexists. split; [|exists (Some e); split_and!; [reflexivity|..]].
      - simpl. rewrite L1, <- !app_assoc. reflexivity.
      - done.
      - rewrite !count_calls_app, Z. reflexivity. }
    destruct (fs h1 !! confPath_of s).
    + do 2 eexists. split; [|exists None; split_and!; [reflexivity|..]].
      * simpl. rewrite L1, <- !app_assoc. reflexivity.
      * simpl. by rewrite F1.
      * rewrite !count_calls_app, Z. reflexivity.
    + do 2 eexists.
      split; [|exists (Some (Errno ENOENT)); split_and!; [reflexivity|..]].
      * simpl. rewrite L1, <- !app_assoc. reflexivity.
      * done.
      * rewrite !count_calls_app, Z. reflexivity.
Qed.

Lemma Part000_Uninstall_with_tool_witness :
  exists h' t,
    let after :=
      run_command update_rc_d_host (update_rc_d_args demo false)
        (fs update_rc_d_host) in
    log h' = log update_rc_d_host ++ t
    /\ match after.2 with
       | Some e =>
           Part000.Uninstall demo update_rc_d_host
           = Returned (failed_to_run (update_rc_d_line demo false) (Some e)) h'
           /\ fs h' = after.1
           /\ count_calls mutating t = 1
       | None =>
           exists r,
             Part000.Uninstall demo update_rc_d_host = Returned r h'
             /\ fs h' = (if is_nil r then delete (confPath_of demo) after.1
                         else after.1)
             /\ count_calls mutating t = 2
       end.
Proof.
  apply (Part000_Uninstall_with_tool demo update_rc_d_host); reflexivity.
Defined.

(** ** No runlevel directory, after the script *)

(** X9.  When [Install] of src/unnamed/part_000 terminates the process for
    want of a runlevel directory, the control script is already written:
    it stays behind, with its text and mode 0755, and nothing else has
    changed. *)
Theorem Part000_Install_exit_leaves_script
    (tf : FuncMap) (s : Config) (h : Host) :
  user_service s = false -> snd (executable h) = None -> flavour_known h ->
  script_writable h s -> no_link_tool h -> no_rc_directory h ->
  exists flavour text h',
    result (determineDistroFlavour h) = Some flavour
    /\ Part000_script tf s (executable h).1 flavour = Some text
    /\ Part000.Install tf s h = Exited 1 h'
    /\ fs h' = <[confPath_of s := File text 493%N]> (fs h).
Proof.
  intros U X K (S1 & S2 & S3 & S4 & S5) T D.
  destruct (Part000_Install_reaches_script tf s h U X K S1)
    as (flavour & text & hs & t & Hfl & Htext & -> & Hfs & Henv & _).
  destruct (create_script_run s text hs) as (hm & -> & Em & Fm & _).
  { by rewrite Hfs. }
  { by rewrite (env_fault h hs). }
  { by rewrite (env_fault h hs). }
  { by rewrite (env_fault h hs). }
  rewrite Henv in Em. rewrite Hfs in Fm.
  assert (Tm : no_link_tool hm) by (by apply (no_link_tool_stable h)).
  assert (Dm : no_rc_directory hm).
  { unfold no_rc_directory, file_exists, file_absent in *.
    rewrite !(env_stat_err h hm) by
      (done || (rewrite Fm; apply lookup_insert_ne; paths_differ)).
    done. }
  rewrite defer_file_Close.
  destruct (manageSymlinks_no_rc_directory s (confPath_of s) true hm Tm Dm)
    as (h' & -> & _ & F' & _).
  exists flavour, text, h'. split_and!; try done. by rewrite F'.
Qed.

Lemma Part000_Install_exit_leaves_script_witness :
  exists flavour text h',
    result (determineDistroFlavour no_rc_host) = Some flavour
    /\ Part000_script quoting_tf demo (executable no_rc_host).1 flavour
       = Some text
    /\ Part000.Install quoting_tf demo no_rc_host = Exited 1 h'
    /\ fs h' = <[confPath_of demo := File text 493%N]> (fs no_rc_host).
Proof.
  apply (Part000_Install_exit_leaves_script quoting_tf demo no_rc_host).
  - reflexivity.
  - reflexivity.
  - right. discriminate.
  - repeat split; try reflexivity. discriminate.
  - split; discriminate.
  - split; [discriminate | reflexivity].
Defined.

(** ** The templates and the values they are executed on *)

(** X21.  Executing a template on the value its [Install] makes never fails
    for a field: every field and every list that the template of a file
    names is a field of the value of that file (that of
    src/service_sysv_linux.go has no levels and no priorities, and its
    template names none), and [.] is used inside [range] only. *)
Theorem sysvScript_names_fields_of_to (tf : FuncMap) :
  (forall to, is_Some (execute tf Part000.sysvScript (Part000.fields to)))
  /\ (forall to, is_Some (execute tf SysvLinux.sysvScript (SysvLinux.fields to))).
Proof.
  split; intros to; apply execute_defined; vm_compute; reflexivity.
Qed.

(** ** [Install] a second time *)

Lemma functions_not_link base name :
  base = "/etc/rc.d" \/ base = "/etc" ->
  (rhFunctions ∉ activation_links base name)
  /\ (lsbFunctions ∉ activation_links base name).
Proof.
  unfold rhFunctions, lsbFunctions.
  intros [-> | ->]; split_and!; intros Hin;
    repeat (apply elem_of_cons in Hin as [E|Hin];
            [vm_compute in E; discriminate E|]);
    by apply elem_of_nil in Hin.
Qed.

Lemma determineDistroFlavour_returned h flavour hf :
  determineDistroFlavour h = Returned flavour hf -> flavour_known h.
Proof.
  rewrite determineDistroFlavour_run. cbv zeta.
  unfold flavour_known, file_exists, file_absent.
  destruct (stat_err h rhFunctions) as [e|]; [|by left]. cbn [is_nil].
  destruct (os_IsNotExist (stat_err h lsbFunctions)); [discriminate|].
  intros _. by right.
Qed.

(** Where the service is installed and the host is otherwise as it was,
    [Install] gets as far as the existence check. *)
Lemma installed_again (s : Config) (h h1 : Host) (links : list string)
    (text : string) :
  has_trailing_slash (confPath_of s) = false ->
  fault h (CStat (confPath_of s)) = None ->
  flavour_known h ->
  env h1 = env h ->
  rhFunctions ∉ links -> lsbFunctions ∉ links ->
  fs h1 !! confPath_of s = Some (File text 493%N) ->
  (forall k, k ∉ links -> k <> confPath_of s -> fs h1 !! k = fs h !! k) ->
  file_exists h1 (confPath_of s) /\ flavour_known h1.
Proof.
  intros P F K E N1 N2 Hcp Hfs. split.
  - unfold file_exists. rewrite stat_err_plain; [by rewrite Hcp | done |].
    by rewrite (env_fault h h1).
  - unfold flavour_known, file_exists, file_absent in *.
    rewrite !(env_stat_err h h1); [done|done|..|done|].
    + apply Hfs; [done|]. unfold lsbFunctions. paths_differ.
    + apply Hfs; [done|]. unfold rhFunctions. paths_differ.
Qed.

Lemma quiet_not_mutating l : quiet l = true -> count_calls mutating l = 0.
Proof.
  induction l as [|[c e] l IH]; [done|]. simpl.
  intros H. apply andb_true_iff in H as [Hc Hl].
  unfold count_calls in *. simpl. apply negb_true_iff in Hc.
  rewrite Hc. by apply IH.
Qed.

(** X10.  [Install] is refused the second time.  After an [Install] that made
    the links itself and returned nil, a second [Install] on the host the
    first one left returns the "already exists" error and changes
    nothing: the script and the links of the first one stay as they
    are.  Both files. *)
Theorem Install_twice_refused (tf : FuncMap) (s : Config) (h h1 : Host) :
  has_trailing_slash (confPath_of s) = false ->
  fault h (CStat (confPath_of s)) = None ->
  (no_link_tool h -> Part000.Install tf s h = Returned None h1 ->
   refused_again s (Part000.Install tf s) h1)
  /\ (SysvLinux.Install tf s h = Returned None h1 ->
      refused_again s (SysvLinux.Install tf s) h1).
Proof.
  intros P F. unfold refused_again. split.
  - intros T E.
    destruct (Part000_Install_direct tf s h h1 T E)
      as (base & text & t0 & t1 & U & B & Env1 & _ & _ & Hfs & _).
    destruct (rc_d_not_link base (Name s) (rc_base_cases h base B))
      as (_ & _ & Ncp).
    fold (confPath_of s) in Ncp.
    destruct (functions_not_link base (Name s) (rc_base_cases h base B))
      as (N1 & N2).
    assert (X : snd (executable h) = None /\ flavour_known h).
    { revert E. unfold Part000.Install, configPath.
      unfold user_service in U. rewrite U.
      unfold bind at 1. unfold execPath.
      destruct (executable h) as [path [e|]]; [discriminate|]. cbn [snd].
      unfold bind at 1.
      destruct (determineDistroFlavour (record CExecPath None h))
        as [flavour hf|code hf|hf|sg hf] eqn:Ef; try discriminate.
      intros _. split; [done|].
      by apply (determineDistroFlavour_returned _ _ _ Ef). }
    destruct X as [X K].
    destruct (installed_again s h h1 (activation_links base (Name s)) text)
      as [S1 K1]; try done.
    { by rewrite Hfs, decide_False, decide_True. }
    { intros k Hk Hcp. by rewrite Hfs, !decide_False. }
    destruct (Part000_Install_refuses tf s h1 S1) as [(R1 & _) R2].
    split; [|done]. apply R2; [done | | done].
    by rewrite (env_executable h h1).
  - intros E.
    assert (X : user_service s = false /\ snd (executable h) = None
                /\ flavour_known h /\ ~ file_exists h (confPath_of s)).
    { revert E. unfold SysvLinux.Install, configPath, user_service.
      destruct (KeyValue_bool _ _ _); [discriminate|].
      unfold bind at 1. unfold execPath.
      destruct (executable h) as [path [e|]]; [discriminate|]. cbn [snd].
      unfold bind at 1.
      destruct (determineDistroFlavour_cases (record CExecPath None h))
        as [(flavour & hf & t & Ef & Hfs & Henv & _)|(hf & t & Ef & _)];
        rewrite Ef; [|discriminate].
      unfold bind at 1. rewrite os_Stat_run. fold (confPath_of s).
      destruct (is_nil (stat_err hf (confPath_of s))) eqn:S; [discriminate|].
      intros _. split_and!; try done.
      - by apply (determineDistroFlavour_returned _ _ _ Ef).
      - unfold file_exists. apply is_nil_false.
        rewrite <- S. f_equal. symmetry.
        apply env_stat_err; [by rewrite Henv | by rewrite Hfs]. }
    destruct X as (U & X & K & S).
    destruct (SysvLinux_Install_reaches_script tf s h U X K S)
      as (flavour & text & hs & t & _ & _ & EI & Hfs & Henv & _).
    rewrite EI in E. unfold create_script, write_script in E.
    apply script_written in E as [[e [=]]|(hm & hk & Kk & -> & Em & Fm & _)].
    destruct (legacy_links_run s (confPath_of s) hm)
      as (h2 & t2 & E2 & Env2 & _ & _ & F2).
    rewrite E2 in Kk. injection Kk as <-.
    destruct (rc_d_not_link "/etc" (Name s)) as (_ & _ & Ncp); [by right|].
    fold (confPath_of s) in Ncp.
    destruct (functions_not_link "/etc" (Name s)) as (N1 & N2); [by right|].
    assert (Env : env (record (CClose (confPath_of s))
                         (fault h2 (CClose (confPath_of s))) h2) = env h).
    { by rewrite env_record, Env2, Em, Henv. }
    destruct (installed_again s h _ (activation_links "/etc" (Name s)) text
                P F K Env N1 N2) as [S1 K1].
    { simpl. by rewrite F2, Fm, lookup_insert_eq. }
    { intros k Hk Hcp. simpl. by rewrite F2, Fm, lookup_insert_ne, Hfs. }
    destruct (SysvLinux_Install_refuses tf s _ S1) as [(R1 & _) R2].
    split; [|done]. apply R2; [done | | done].
    by rewrite (env_executable h _ Env).
Qed.

Lemma Install_twice_refused_witness :
  refused_again demo (Part000.Install quoting_tf demo)
    (final (Part000.Install quoting_tf demo lsb_host))
  /\ refused_again demo (SysvLinux.Install quoting_tf demo)
       (final (SysvLinux.Install quoting_tf demo lsb_host)).
Proof.
  split.
  - refine (proj1 (Install_twice_refused quoting_tf demo lsb_host
                     (final (Part000.Install quoting_tf demo lsb_host))
                     eq_refl eq_refl) _ _).
    + split; discriminate.
    + vm_compute. reflexivity.
  - refine (proj2 (Install_twice_refused quoting_tf demo lsb_host
                     (final (SysvLinux.Install quoting_tf demo lsb_host))
                     eq_refl eq_refl) _).
    vm_compute. reflexivity.
Defined.

(** ** How a value reaches the generated text *)

Lemma execute_list_ext (f g : node -> option string) (l : list node) :
  Forall (fun n => f n = g n) l -> execute_list f l = execute_list g l.
Proof.
  induction 1 as [|n rest E _ IH]; simpl; [done|]. by rewrite E, IH.
Qed.

Lemma execute_each_alike (tf : FuncMap) (f g : string -> option string)
    (l1 l2 : list string) :
  map (cmd tf) l1 = map (cmd tf) l2 ->
  (forall x y, cmd tf x = cmd tf y -> f x = g y) ->
  execute_each f l1 = execute_each g l2.
Proof.
  intros E H. revert l2 E.
  induction l1 as [|x l1 IH]; intros [|y l2] E; simpl in *; try done.
  injection E as Exy E. by rewrite (H x y Exy), (IH l2 E).
Qed.

Lemma execute_each_ext (f g : string -> option string) (l : list string) :
  (forall x, f x = g x) -> execute_each f l = execute_each g l.
Proof.
  intros H. induction l as [|x l IH]; simpl; [done|]. by rewrite H, IH.
Qed.

(** A template that keeps to the usages gives one text on two values
    that are alike. *)
Lemma flows_sound (tf : FuncMap) (u : field -> usage) (ul : listfield -> usage)
    (known : field -> option string) (d1 d2 : Data) :
  alike tf u ul known d1 d2 ->
  forall n du dot1 dot2,
    same_printed tf du dot1 dot2 ->
    flows u ul known du n = true ->
    execute_node tf d1 dot1 n = execute_node tf d2 dot2 n.
Proof.
  intros [Hp He Hl Hk].
  induction n as [s|a| |c thens elses IHt IHe|l body IHb] using node_induction;
    intros du dot1 dot2 Hdot Hn; simpl in *; try done.
  - destruct a as [o|o|l sep]; simpl in *.
    + destruct o as [f|]; simpl in *.
      * specialize (Hp f). by destruct (u f).
      * by destruct du.
    + destruct o as [f|]; simpl in *.
      * specialize (Hp f). destruct (u f); simpl in *; try done. by rewrite Hp.
      * destruct du; simpl in *; try done. by rewrite Hdot.
    + specialize (Hl l). destruct (ul l); simpl in *; try done. by rewrite Hl.
  - rewrite Forall_forall in IHt, IHe.
    assert (Hthen : forallb (flows u ul known du) thens = true ->
                    execute_list (execute_node tf d1 dot1) thens
                    = execute_list (execute_node tf d2 dot2) thens).
    { intros H. rewrite forallb_forall in H.
      apply execute_list_ext, Forall_forall. intros n Hin.
      apply (IHt n Hin du); [done|]. apply H. by apply list_elem_of_In. }
    assert (Helse : forallb (flows u ul known du) elses = true ->
                    execute_list (execute_node tf d1 dot1) elses
                    = execute_list (execute_node tf d2 dot2) elses).
    { intros H. rewrite forallb_forall in H.
      apply execute_list_ext, Forall_forall. intros n Hin.
      apply (IHe n Hin du); [done|]. apply H. by apply list_elem_of_In. }
    destruct c as [f x|f]; simpl in *.
    + destruct (known f) as [v|] eqn:K.
      * destruct (Hk f v K) as [-> ->]. simpl.
        destruct (String.eqb v x); auto.
      * apply andb_true_iff in Hn as [Hn H2].
        apply andb_true_iff in Hn as [Hu H1].
        specialize (Hp f). destruct (u f); simpl in *; try done.
        rewrite Hp. destruct (get d2 f) as [v|]; simpl; [|done].
        destruct (String.eqb v x); auto.
    + apply andb_true_iff in Hn as [Hn H2].
      apply andb_true_iff in Hn as [Hu H1].
      assert (Hc : String_nonempty <$> get d1 f = String_nonempty <$> get d2 f).
      { specialize (Hp f). specialize (He f).
        destruct (u f); simpl in *; try done; [by rewrite Hp | by apply He]. }
      rewrite Hc. destruct (String_nonempty <$> get d2 f) as [[|]|]; auto.
  - apply andb_true_iff in Hn as [Hu Hb].
    rewrite forallb_forall in Hb. rewrite Forall_forall in IHb.
    specialize (Hl l). destruct (ul l) eqn:U; simpl in *; try done.
    + rewrite Hl. destruct (getlist d2 l) as [items|]; [|done].
      apply execute_each_ext. intros x.
      apply execute_list_ext, Forall_forall. intros n Hin.
      apply (IHb n Hin Verbatim); [done|]. apply Hb. by apply list_elem_of_In.
    + destruct (getlist d1 l) as [items1|], (getlist d2 l) as [items2|];
        simpl in *; try done.
      apply (execute_each_alike tf); [congruence|].
      intros x y Exy.
      apply execute_list_ext, Forall_forall. intros n Hin.
      apply (IHb n Hin ThroughCmd); [simpl; by rewrite Exy|].
      apply Hb. by apply list_elem_of_In.
Qed.

Lemma flows_execute (tf : FuncMap) (u : field -> usage) (ul : listfield -> usage)
    (known : field -> option string) (d1 d2 : Data) (t : list node) :
  alike tf u ul known d1 d2 ->
  forallb (flows u ul known Unused) t = true ->
  execute tf t d1 = execute tf t d2.
Proof.
  intros A H. rewrite forallb_forall in H.
  apply execute_list_ext, Forall_forall. intros n Hin.
  apply (flows_sound tf u ul known d1 d2 A n Unused); [done|].
  apply H. by apply list_elem_of_In.
Qed.

Ltac alike_fields :=
  split;
  [ intros f; destruct f; simpl; try done; congruence
  | intros f; destruct f; simpl; try done; congruence
  | intros l; destruct l; simpl; try done; congruence
  | intros f v; destruct f; simpl; try done; intros [= <-]; by split ].

(** X22.  In the Debian branch of the two templates the user name, the working
    directory, the root directory and the arguments reach the script
    through [cmd] only: two service definitions that differ in these
    values give the same script when the values have the same images
    under [cmd] and are empty together. *)
Theorem debian_script_through_cmd (tf : FuncMap) (s : Config) (path : string)
    (user1 user2 dir1 dir2 root1 root2 : string) (args1 args2 : list string) :
  quoted_alike tf user1 user2 ->
  quoted_alike tf dir1 dir2 ->
  quoted_alike tf root1 root2 ->
  map (cmd tf) args1 = map (cmd tf) args2 ->
  Part000_script tf (with_user_values s user1 dir1 root1 args1) path "debian"
  = Part000_script tf (with_user_values s user2 dir2 root2 args2) path "debian"
  /\ SysvLinux_script tf (with_user_values s user1 dir1 root1 args1) path "debian"
     = SysvLinux_script tf (with_user_values s user2 dir2 root2 args2) path "debian".
Proof.
  intros [U1 U2] [D1 D2] [R1 R2] A. split.
  - apply (flows_execute tf debian_usage arguments_usage (flavour_is "debian"));
      [alike_fields | vm_compute; reflexivity].
  - apply (flows_execute tf debian_usage arguments_usage (flavour_is "debian"));
      [alike_fields | vm_compute; reflexivity].
Qed.

Lemma debian_script_through_cmd_witness :
  Part000_script erasing_tf
    (with_user_values demo "nobody; reboot" "/srv/demo" "/srv" ["--port"; "80 80"])
    "/usr/bin/demo" "debian"
  = Part000_script erasing_tf
      (with_user_values demo "daemon" "/" "/var/empty" ["-v"; "-q"])
      "/usr/bin/demo" "debian"
  /\ SysvLinux_script erasing_tf
       (with_user_values demo "nobody; reboot" "/srv/demo" "/srv" ["--port"; "80 80"])
       "/usr/bin/demo" "debian"
     = SysvLinux_script erasing_tf
         (with_user_values demo "daemon" "/" "/var/empty" ["-v"; "-q"])
         "/usr/bin/demo" "debian".
Proof.
  apply (debian_script_through_cmd erasing_tf demo "/usr/bin/demo");
    try (split; reflexivity); reflexivity.
Defined.

(** X23.  In the LSB branch of the two templates the user name and the root
    directory do not reach the script at all; the working directory and
    the arguments reach it through [cmd] only. *)
Theorem lsb_script_ignores_user_and_root (tf : FuncMap) (s : Config)
    (path : string) (user1 user2 dir1 dir2 root1 root2 : string)
    (args1 args2 : list string) :
  quoted_alike tf dir1 dir2 ->
  map (cmd tf) args1 = map (cmd tf) args2 ->
  Part000_script tf (with_user_values s user1 dir1 root1 args1) path "lsb"
  = Part000_script tf (with_user_values s user2 dir2 root2 args2) path "lsb"
  /\ SysvLinux_script tf (with_user_values s user1 dir1 root1 args1) path "lsb"
     = SysvLinux_script tf (with_user_values s user2 dir2 root2 args2) path "lsb".
Proof.
  intros [D1 D2] A. split.
  - apply (flows_execute tf lsb_usage arguments_usage (flavour_is "lsb"));
      [alike_fields | vm_compute; reflexivity].
  - apply (flows_execute tf lsb_usage arguments_usage (flavour_is "lsb"));
      [alike_fields | vm_compute; reflexivity].
Qed.

Lemma lsb_script_ignores_user_and_root_witness :
  Part000_script quoting_tf
    (with_user_values demo "nobody" "/srv/demo" "/srv" ["--port"; "80 80"])
    "/usr/bin/demo" "lsb"
  = Part000_script quoting_tf
      (with_user_values demo "root" "/srv/demo" "/" ["--port"; "80 80"])
      "/usr/bin/demo" "lsb"
  /\ SysvLinux_script quoting_tf
       (with_user_values demo "nobody" "/srv/demo" "/srv" ["--port"; "80 80"])
       "/usr/bin/demo" "lsb"
     = SysvLinux_script quoting_tf
         (with_user_values demo "root" "/srv/demo" "/" ["--port"; "80 80"])
         "/usr/bin/demo" "lsb".
Proof.
  apply (lsb_script_ignores_user_and_root quoting_tf demo "/usr/bin/demo");
    [split; reflexivity | reflexivity].
Defined.

(** X24.  In the Red-Hat branch of the two templates the working directory and
    the root directory do not reach the script at all, and the arguments
    reach it through [cmd] only. *)
Theorem redhat_script_ignores_dir_and_root (tf : FuncMap) (s : Config)
    (path : string) (user dir1 dir2 root1 root2 : string)
    (args1 args2 : list string) :
  map (cmd tf) args1 = map (cmd tf) args2 ->
  Part000_script tf (with_user_values s user dir1 root1 args1) path "redhat"
  = Part000_script tf (with_user_values s user dir2 root2 args2) path "redhat"
  /\ SysvLinux_script tf (with_user_values s user dir1 root1 args1) path "redhat"
     = SysvLinux_script tf (with_user_values s user dir2 root2 args2) path "redhat".
Proof.
  intros A. split.
  - apply (flows_execute tf redhat_usage arguments_usage (flavour_is "redhat"));
      [alike_fields | vm_compute; reflexivity].
  - apply (flows_execute tf redhat_usage arguments_usage (flavour_is "redhat"));
      [alike_fields | vm_compute; reflexivity].
Qed.

Lemma redhat_script_ignores_dir_and_root_witness :
  Part000_script quoting_tf
    (with_user_values demo "nobody" "/srv/demo" "/srv" ["--port"; "80 80"])
    "/usr/bin/demo" "redhat"
  = Part000_script quoting_tf
      (with_user_values demo "nobody" "/" "/" ["--port"; "80 80"])
      "/usr/bin/demo" "redhat"
  /\ SysvLinux_script quoting_tf
       (with_user_values demo "nobody" "/srv/demo" "/srv" ["--port"; "80 80"])
       "/usr/bin/demo" "redhat"
     = SysvLinux_script quoting_tf
         (with_user_values demo "nobody" "/" "/" ["--port"; "80 80"])
         "/usr/bin/demo" "redhat".
Proof.
  apply (redhat_script_ignores_dir_and_root quoting_tf demo "/usr/bin/demo").
  reflexivity.
Defined.
